(** * Korea Transit MCP server: the query tools of [api/index.ts]

    A shallow embedding of the tool functions of the serverless handler
    (result limits, directory scans, ranking, the combined query and the
    response truncation), with the properties of its specification.

    JavaScript strings are sequences of UTF-16 code units: [length],
    [slice], [includes], [startsWith] and [trim] all work on code units, so a
    string is modelled as a [list N] of code units.  Numbers are modelled as
    [Z]: the limits, counts and indices of the tools are integers. *)

From Stdlib Require Import Strings.String Strings.Byte.
From Stdlib Require Import ZArith NArith List Bool Lia Permutation Sorted.
From Stdlib Require Import Floats Uint63.
Import ListNotations.

Local Open Scope Z_scope.

(* ===================================================================== *)
(** ** JavaScript strings and arrays *)
(* ===================================================================== *)

Module JS.

Definition codeUnit := N.
Definition jsstring := list codeUnit.

(** *** Literals: UTF-8 source text to UTF-16 code units *)

Definition continuation (b : N) : N := N.land b 63.

Fixpoint utf8_decode (bs : list N) : list N :=
  match bs with
  | [] => []
  | b0 :: r0 =>
    if (b0 <? 128)%N then b0 :: utf8_decode r0
    else if (b0 <? 224)%N then
      match r0 with
      | b1 :: r1 =>
        (N.land b0 31 * 64 + continuation b1)%N :: utf8_decode r1
      | _ => []
      end
    else if (b0 <? 240)%N then
      match r0 with
      | b1 :: b2 :: r2 =>
        (N.land b0 15 * 4096 + continuation b1 * 64 + continuation b2)%N
          :: utf8_decode r2
      | _ => []
      end
    else
      match r0 with
      | b1 :: b2 :: b3 :: r3 =>
        (N.land b0 7 * 262144 + continuation b1 * 4096
         + continuation b2 * 64 + continuation b3)%N :: utf8_decode r3
      | _ => []
      end
  end.

Definition codePointUnits (cp : N) : list codeUnit :=
  if (cp <? 65536)%N then [cp]
  else let v := (cp - 65536)%N in
       [(55296 + v / 1024)%N; (56320 + v mod 1024)%N].

(** [utf16 "..."] is the JavaScript string written with that literal. *)
Definition utf16 (s : String.string) : jsstring :=
  flat_map codePointUnits
    (utf8_decode (map Byte.to_N (String.list_byte_of_string s))).

Arguments utf16 s%_string.

Definition LF : jsstring := [10%N].
Definition DQUOTE : jsstring := [34%N].
Definition BACKTICK : jsstring := [96%N].

(** *** [length], [slice] *)

Definition len {A} (l : list A) : Z := Z.of_nat (List.length l).

(** The relative index of [Array.prototype.slice] and
    [String.prototype.slice]: a negative index counts from the end. *)
Definition relIndex (n i : Z) : Z :=
  if i <? 0 then Z.max (n + i) 0 else Z.min i n.

Definition slice {A} (l : list A) (start end_ : Z) : list A :=
  let n := len l in
  let k := relIndex n start in
  let final := relIndex n end_ in
  firstn (Z.to_nat (final - k)) (skipn (Z.to_nat k) l).

(** *** Comparison and search *)

Fixpoint streq (a b : jsstring) : bool :=
  match a, b with
  | [], [] => true
  | x :: a', y :: b' => (x =? y)%N && streq a' b'
  | _, _ => false
  end.

Fixpoint startsWith (s q : jsstring) {struct q} : bool :=
  match q, s with
  | [], _ => true
  | _ :: _, [] => false
  | x :: q', y :: s' => (x =? y)%N && startsWith s' q'
  end.

Fixpoint includes (s q : jsstring) : bool :=
  startsWith s q ||
  match s with
  | [] => false
  | _ :: s' => includes s' q
  end.

Definition endsWith (s q : jsstring) : bool :=
  startsWith (rev' s) (rev' q).

(** *** [trim] *)

(** WhiteSpace and LineTerminator code points of ECMAScript. *)
Definition isWhiteSpace (c : codeUnit) : bool :=
  ((9 <=? c) && (c <=? 13) || (c =? 32) || (c =? 160) || (c =? 5760)
   || (8192 <=? c) && (c <=? 8202) || (c =? 8232) || (c =? 8233)
   || (c =? 8239) || (c =? 8287) || (c =? 12288) || (c =? 65279))%N.

Fixpoint trimStart (s : jsstring) : jsstring :=
  match s with
  | [] => []
  | c :: s' => if isWhiteSpace c then trimStart s' else s
  end.

Definition trimEnd (s : jsstring) : jsstring := rev' (trimStart (rev' s)).

Definition trim (s : jsstring) : jsstring := trimStart (trimEnd s).

(** *** [replace] with a pattern anchored at the end of the input *)

(** [s.replace(/suffix$/u, "")] for a literal [suffix]: the one match
    possible is at the end of the input, and it is removed. *)
Definition replaceAtEnd (suffix s : jsstring) : jsstring :=
  if endsWith s suffix
  then firstn (List.length s - List.length suffix) s
  else s.

(** *** Numbers in template literals *)

Fixpoint uintUnits (d : Decimal.uint) : jsstring :=
  match d with
  | Decimal.Nil => []
  | Decimal.D0 d => 48%N :: uintUnits d
  | Decimal.D1 d => 49%N :: uintUnits d
  | Decimal.D2 d => 50%N :: uintUnits d
  | Decimal.D3 d => 51%N :: uintUnits d
  | Decimal.D4 d => 52%N :: uintUnits d
  | Decimal.D5 d => 53%N :: uintUnits d
  | Decimal.D6 d => 54%N :: uintUnits d
  | Decimal.D7 d => 55%N :: uintUnits d
  | Decimal.D8 d => 56%N :: uintUnits d
  | Decimal.D9 d => 57%N :: uintUnits d
  end.

(** [String(n)] for an integer [n]. *)
Definition numberToString (n : Z) : jsstring :=
  match Z.to_int n with
  | Decimal.Pos d => uintUnits d
  | Decimal.Neg d => 45%N :: uintUnits d
  end.

Fixpoint groupFromRight (rdigits : jsstring) (k : nat) : jsstring :=
  match rdigits with
  | [] => []
  | d :: t =>
    match k with
    | 3%nat => 44%N :: d :: groupFromRight t 1
    | _ => d :: groupFromRight t (S k)
    end
  end.

(** [n.toLocaleString()] for an integer [n] in the runtime's default locale
    (en-US): decimal digits grouped by three with a comma. *)
Definition toLocaleString (n : Z) : jsstring :=
  match Z.to_int n with
  | Decimal.Pos d => rev (groupFromRight (rev (uintUnits d)) 0)
  | Decimal.Neg d => 45%N :: rev (groupFromRight (rev (uintUnits d)) 0)
  end.

(** *** [Math.round] on double-precision numbers *)

(** An integer count as the double it is (exact below 2^53). *)
Definition toNumber (n : Z) : float :=
  if n <? 0 then PrimFloat.opp (PrimFloat.of_uint63 (Uint63.of_Z (- n)))
  else PrimFloat.of_uint63 (Uint63.of_Z n).

(** [Math.round x]: the integer closest to [x], the one towards +infinity
    of two equally close ones; [None] for NaN and the infinities. *)
Definition mathRound (x : float) : option Z :=
  match Prim2SF x with
  | S754_zero _ => Some 0
  | S754_finite s m e =>
    let v := if s then Z.neg m else Z.pos m in
    Some (if 0 <=? e then v * 2 ^ e
          else (2 * v + 2 ^ (- e)) / 2 ^ (- e + 1))
  | S754_infinity _ => None
  | S754_nan => None
  end.

(** *** Optional values *)

(** [x || d] on an optional string: [undefined] and the empty string are
    falsy. *)
Definition strOr (x : option jsstring) (d : jsstring) : jsstring :=
  match x with
  | None => d
  | Some [] => d
  | Some s => s
  end.

(** An optional string inside a template literal. *)
Definition interpolate (x : option jsstring) : jsstring :=
  match x with
  | None => utf16 "undefined"
  | Some s => s
  end.

(** [Array.prototype.forEach] with its index argument, accumulating into a
    string with [+=]. *)
Fixpoint forEachAppend {A} (f : A -> Z -> jsstring) (l : list A) (idx : Z)
  : jsstring :=
  match l with
  | [] => []
  | x :: l' => f x idx ++ forEachAppend f l' (idx + 1)
  end.

End JS.

Import JS.

(* ===================================================================== *)
(** ** Constants and utilities *)
(* ===================================================================== *)

Definition CHARACTER_LIMIT : Z := 25000.

Definition truncationNotice : jsstring :=
  LF ++ LF ++ utf16 "... (응답이 " ++ toLocaleString CHARACTER_LIMIT
     ++ utf16 "자 제한으로 잘렸습니다)".

Definition truncateResponse (content : jsstring) : jsstring :=
  if len content <=? CHARACTER_LIMIT then content
  else
    let truncated := slice content 0 (CHARACTER_LIMIT - 100) in
    truncated ++ truncationNotice.

(* ===================================================================== *)
(** ** [JSON.stringify(value, null, 2)] *)
(* ===================================================================== *)

Module JSON.

(** The values the tools serialise.  A property whose value is [undefined]
    ([None]) is left out by [JSON.stringify]. *)
#[local] Set Warnings "-register-all".

Inductive json :=
| JString (s : jsstring)
| JNumber (n : Z)
| JArray (items : list json)
| JObject (properties : list (jsstring * option json)).

Definition isHighSurrogate (c : codeUnit) : bool :=
  ((55296 <=? c) && (c <=? 56319))%N.
Definition isLowSurrogate (c : codeUnit) : bool :=
  ((56320 <=? c) && (c <=? 57343))%N.

Definition hexDigit (d : N) : codeUnit :=
  if (d <? 10)%N then (48 + d)%N else (87 + d)%N.

(** The six characters of a [\uXXXX] escape. *)
Definition unicodeEscape (c : codeUnit) : jsstring :=
  [92; 117; hexDigit (c / 4096 mod 16); hexDigit (c / 256 mod 16);
   hexDigit (c / 16 mod 16); hexDigit (c mod 16)]%N.

Definition escapeUnit (c : codeUnit) : jsstring :=
  if (c =? 8)%N then [92; 98]%N
  else if (c =? 9)%N then [92; 116]%N
  else if (c =? 10)%N then [92; 110]%N
  else if (c =? 12)%N then [92; 102]%N
  else if (c =? 13)%N then [92; 114]%N
  else if (c =? 34)%N then [92; 34]%N
  else if (c =? 92)%N then [92; 92]%N
  else if (c <? 32)%N then unicodeEscape c
  else [c].

(** QuoteJSONString without the surrounding quotes: a surrogate that is
    not part of a pair is escaped. *)
Fixpoint escapeUnits (s : jsstring) : jsstring :=
  match s with
  | [] => []
  | c :: s' =>
    if isHighSurrogate c then
      match s' with
      | d :: s'' =>
        if isLowSurrogate d then c :: d :: escapeUnits s''
        else unicodeEscape c ++ escapeUnits s'
      | [] => unicodeEscape c
      end
    else if isLowSurrogate c then unicodeEscape c ++ escapeUnits s'
    else escapeUnit c ++ escapeUnits s'
  end.

Definition quote (s : jsstring) : jsstring :=
  DQUOTE ++ escapeUnits s ++ DQUOTE.

Fixpoint join (sep : jsstring) (parts : list jsstring) : jsstring :=
  match parts with
  | [] => []
  | [p] => p
  | p :: rest => p ++ sep ++ join sep rest
  end.

Definition gap : jsstring := [32; 32]%N.

Fixpoint serialize (indent : jsstring) (v : json) {struct v} : jsstring :=
  let stepback := indent in
  let indent := indent ++ gap in
  match v with
  | JString s => quote s
  | JNumber n => numberToString n
  | JArray items =>
    match items with
    | [] => utf16 "[]"
    | _ =>
      utf16 "[" ++ LF ++ indent
        ++ join (utf16 "," ++ LF ++ indent) (map (serialize indent) items)
        ++ LF ++ stepback ++ utf16 "]"
    end
  | JObject properties =>
    let partial :=
      flat_map (fun kv =>
        match snd kv with
        | None => []
        | Some x => [quote (fst kv) ++ utf16 ": " ++ serialize indent x]
        end) properties in
    match partial with
    | [] => utf16 "{}"
    | _ =>
      utf16 "{" ++ LF ++ indent
        ++ join (utf16 "," ++ LF ++ indent) partial
        ++ LF ++ stepback ++ utf16 "}"
    end
  end.

Definition stringify (v : json) : jsstring := serialize [] v.

End JSON.

Import JSON.

(* ===================================================================== *)
(** ** Data model *)
(* ===================================================================== *)

Record SubwayArrival := {
  subwayId : jsstring;
  bstatnNm : jsstring;
  arvlMsg2 : jsstring;
  updnLine : jsstring;
  btrainNo : option jsstring
}.

(** [STOPS_NM] is read with [?.] and [|| ""]: it may be missing. *)
Record BusStation := {
  STOPS_NM : option jsstring;
  STOPS_NO : jsstring;
  STOPS_TYPE : option jsstring
}.

(** [stationName] is read with [?.]: it may be missing. *)
Record BikeStation := {
  stationName : option jsstring;
  stationId : jsstring;
  parkingBikeTotCnt : Z;
  rackTotCnt : Z
}.

Record BusArrival := {
  stNm : jsstring;
  arsId : jsstring;
  rtNm : jsstring;
  busRouteAbrv : option jsstring;
  arrmsg1 : jsstring;
  arrmsg2 : jsstring;
  routeType : option jsstring;
  stationTp : option jsstring
}.

(** The value of an argument on which a tool calls a string method
    before anything else: the handler passes the arguments of the request
    on as they are, so the value is a string, [null], or a JSON value of
    another kind (a number, a boolean, an array, an object), none of which
    has that method. *)
Inductive ArgumentValue :=
| ArgString (s : jsstring)
| ArgNull
| ArgOther.

(** The arguments of a tool call; an argument that the request leaves
    out is [None].  The arguments that the tools only compare, interpolate
    or compute with are typed as the interface [ToolArguments] declares
    them. *)
Record ToolArguments := {
  station_name : option ArgumentValue;
  line : option jsstring;
  ars_id : option jsstring;
  query : option ArgumentValue;
  location : option ArgumentValue;
  limit : option Z;
  response_format : option jsstring
}.

(** *** Exceptions *)

(** A computation that returns a value or throws; [message] is what
    [getErrorMessage] extracts from the thrown error. *)
Inductive Try (A : Type) :=
| Ok (value : A)
| Throw (message : jsstring).
Arguments Ok {A} value.
Arguments Throw {A} message.

Definition bind {A B} (m : Try A) (k : A -> Try B) : Try B :=
  match m with
  | Ok a => k a
  | Throw e => Throw e
  end.

Notation "x <- m ;; k" := (bind m (fun x => k))
  (at level 61, m at next level, right associativity).

(** [try { body } catch (error) { handler }] around a body that returns. *)
Definition tryCatch {A} (body : Try A) (handler : jsstring -> A) : A :=
  match body with
  | Ok a => a
  | Throw e => handler e
  end.

(** The settled promise of an [async] tool function. *)
Inductive Completion :=
| Resolved (text : jsstring)
| Rejected (error : jsstring).

(** *** Upstream feeds *)

Record ErrorMessage := {
  code : option jsstring;
  message : option jsstring
}.

(** An element of [realtimeArrivalList] is a record or [null] ([None]):
    the combined query reads the records after its [try] blocks. *)
Record ArrivalData := {
  errorMessage : option ErrorMessage;
  realtimeArrivalList : option (list (option SubwayArrival))
}.

Record MsgHeader := {
  headerCd : option jsstring;
  headerMsg : option jsstring
}.

(** [itemList] is [data.msgBody?.itemList]. *)
Record StationByUidData := {
  msgHeader : option MsgHeader;
  itemList : option (list BusArrival)
}.

(** [row] is [data.busStopLocationXyInfo?.row], and [data.rentBikeStatus?.row]
    for the bike list. *)
Record DirectoryData (R : Type) := {
  row : option (list R)
}.
Arguments row {R} _.

(** One upstream snapshot.  Each feed answers a request with the parsed
    body ([await fetchWithTimeout(url)] then [await response.json()]), or
    the request throws: a timeout abort, a transport error, a body that is
    not JSON or not of the shape the tool reads inside the [try] of the
    request. *)
Record Upstream := {
  realtimeStationArrival : Z -> Z -> jsstring -> Try ArrivalData;
  getStationByUid : jsstring -> Try StationByUidData;
  busStopLocationXyInfo : Z -> Z -> Try (DirectoryData BusStation);
  bikeList : Z -> Z -> Try (DirectoryData BikeStation)
}.

(** [encodeURIComponent] throws on a surrogate that is not part of a pair;
    the encoding is injective and the feed decodes it, so a well-formed
    name is passed to the feed as it is. *)
Fixpoint isWellFormed (s : jsstring) : bool :=
  match s with
  | [] => true
  | c :: s' =>
    if isHighSurrogate c then
      match s' with
      | d :: s'' => isLowSurrogate d && isWellFormed s''
      | [] => false
      end
    else negb (isLowSurrogate c) && isWellFormed s'
  end.

Definition encodeURIComponent (s : jsstring) : Try jsstring :=
  if isWellFormed s then Ok s else Throw (utf16 "URI malformed").

(** *** Lookup tables *)

(** The own properties of a table. *)
Fixpoint lookup (table : list (jsstring * jsstring)) (key : jsstring)
  : option jsstring :=
  match table with
  | [] => None
  | (k, v) :: rest => if streq k key then Some v else lookup rest key
  end.

(** The two tables are object literals, so [table[key]] also finds what
    an object inherits from [Object.prototype]: eleven native functions,
    listed here under their key with the name of the function, and the
    accessor [__proto__], which answers with [Object.prototype] itself. *)
Definition OBJECT_PROTOTYPE_FUNCTIONS : list (jsstring * jsstring) :=
  [(utf16 "constructor", utf16 "Object");
   (utf16 "__defineGetter__", utf16 "__defineGetter__");
   (utf16 "__defineSetter__", utf16 "__defineSetter__");
   (utf16 "hasOwnProperty", utf16 "hasOwnProperty");
   (utf16 "__lookupGetter__", utf16 "__lookupGetter__");
   (utf16 "__lookupSetter__", utf16 "__lookupSetter__");
   (utf16 "isPrototypeOf", utf16 "isPrototypeOf");
   (utf16 "propertyIsEnumerable", utf16 "propertyIsEnumerable");
   (utf16 "toString", utf16 "toString");
   (utf16 "valueOf", utf16 "valueOf");
   (utf16 "toLocaleString", utf16 "toLocaleString")].

(** What [table[key]] evaluates to when it is not [undefined]. *)
Inductive PropertyValue :=
| StringValue (s : jsstring)
| NativeFunction (name : jsstring)
| ObjectPrototype.

(** [table[key]] *)
Definition getProperty (table : list (jsstring * jsstring)) (key : jsstring)
  : option PropertyValue :=
  match lookup table key with
  | Some v => Some (StringValue v)
  | None =>
    if streq key (utf16 "__proto__") then Some ObjectPrototype
    else option_map NativeFunction (lookup OBJECT_PROTOTYPE_FUNCTIONS key)
  end.

(** [table[key] || fallback]: [undefined] and the empty string are falsy,
    a function and an object are truthy. *)
Definition propertyOr (x : option PropertyValue) (fallback : jsstring)
  : PropertyValue :=
  match x with
  | None => StringValue fallback
  | Some (StringValue []) => StringValue fallback
  | Some v => v
  end.

(** A value in a template literal: the text of a native function and of a
    plain object as the runtime prints them. *)
Definition toText (v : PropertyValue) : jsstring :=
  match v with
  | StringValue s => s
  | NativeFunction name =>
    utf16 "function " ++ name ++ utf16 "() { [native code] }"
  | ObjectPrototype => utf16 "[object Object]"
  end.

(** A value as a property of a serialised object: a function is left out
    like [undefined], and [Object.prototype] has no enumerable property of
    its own. *)
Definition toJson (v : PropertyValue) : option json :=
  match v with
  | StringValue s => Some (JString s)
  | NativeFunction _ => None
  | ObjectPrototype => Some (JObject [])
  end.

Definition SUBWAY_LINE_MAP : list (jsstring * jsstring) :=
  [(utf16 "1001", utf16 "1호선"); (utf16 "1002", utf16 "2호선");
   (utf16 "1003", utf16 "3호선"); (utf16 "1004", utf16 "4호선");
   (utf16 "1005", utf16 "5호선"); (utf16 "1006", utf16 "6호선");
   (utf16 "1007", utf16 "7호선"); (utf16 "1008", utf16 "8호선");
   (utf16 "1009", utf16 "9호선"); (utf16 "1077", utf16 "신분당선");
   (utf16 "1063", utf16 "경의중앙선"); (utf16 "1065", utf16 "공항철도")].

Definition BUS_TYPE_MAP : list (jsstring * jsstring) :=
  [(utf16 "1", utf16 "일반"); (utf16 "2", utf16 "좌석");
   (utf16 "3", utf16 "마을"); (utf16 "4", utf16 "광역");
   (utf16 "5", utf16 "공항"); (utf16 "6", utf16 "간선");
   (utf16 "7", utf16 "지선")].

Definition getSubwayLineName (lineCode : jsstring) : PropertyValue :=
  propertyOr (getProperty SUBWAY_LINE_MAP lineCode) lineCode.

Definition getBusTypeName (typeCode : jsstring) : PropertyValue :=
  propertyOr (getProperty BUS_TYPE_MAP typeCode) (utf16 "기타").

(** *** Arguments shared by the tools *)

(** [args.limit || 10]: a missing limit and 0 are falsy. *)
Definition limitOr (x : option Z) (d : Z) : Z :=
  match x with
  | None => d
  | Some 0 => d
  | Some n => n
  end.

(** [Math.min(args.limit || 10, 20)], the [limit] of the four tools that
    take one. *)
Definition effectiveLimit (args : ToolArguments) : Z :=
  Z.min (limitOr (limit args) 10) 20.

Definition formatOf (args : ToolArguments) : jsstring :=
  strOr (response_format args) (utf16 "markdown").

(** The TypeError of a method call on a missing argument. *)
Definition missingProperty (method : jsstring) : jsstring :=
  utf16 "Cannot read properties of undefined (reading '" ++ method
    ++ utf16 "')".

(** The TypeError of calling a method that the receiver does not have;
    [callee] is the source text of the call. *)
Definition notAFunction (callee : jsstring) : jsstring :=
  callee ++ utf16 " is not a function".

(** The TypeError of reading a property of [null]. *)
Definition nullProperty (property : jsstring) : jsstring :=
  utf16 "Cannot read properties of null (reading '" ++ property
    ++ utf16 "')".

(** [records.map(r => r.property ...)] and [records.forEach(...)] with a
    callback that reads [property] of each element first: the records in
    order, or the TypeError of the first element that is [null]. *)
Fixpoint readRecords {R} (property : jsstring) (records : list (option R))
  : Try (list R) :=
  match records with
  | [] => Ok []
  | None :: _ => Throw (nullProperty property)
  | Some r :: rest =>
    rs <- readRecords property rest ;;
    Ok (r :: rs)
  end.

(* ===================================================================== *)
(** ** Tools with a keyed feed *)
(* ===================================================================== *)

(** *** transit_get_subway_arrival *)

(** [data.errorMessage?.code && data.errorMessage.code !== "INFO-000"]
    throws the feed's error. *)
Definition checkErrorMessage (data : ArrivalData) : Try unit :=
  match errorMessage data with
  | None => Ok tt
  | Some em =>
    match code em with
    | None => Ok tt
    | Some [] => Ok tt
    | Some c =>
      if negb (streq c (utf16 "INFO-000"))
      then Throw (utf16 "API 에러: " ++ interpolate (message em))
      else Ok tt
    end
  end.

(** [data.realtimeArrivalList || []] *)
Definition arrivalsOf (data : ArrivalData) : list (option SubwayArrival) :=
  match realtimeArrivalList data with
  | None => []
  | Some l => l
  end.

(** The callback of the [map] over the arrivals. *)
Definition subwayArrivalObject (arr : SubwayArrival) : json :=
  JObject
    [(utf16 "line", toJson (getSubwayLineName (subwayId arr)));
     (utf16 "destination", Some (JString (bstatnNm arr)));
     (utf16 "message", Some (JString (arvlMsg2 arr)));
     (utf16 "direction", Some (JString (updnLine arr)));
     (utf16 "trainNumber", option_map JString (btrainNo arr))].

Definition subwayArrivalJson (stationName : jsstring)
  (arrivals : list SubwayArrival) : json :=
  JObject
    [(utf16 "station", Some (JString stationName));
     (utf16 "count", Some (JNumber (len arrivals)));
     (utf16 "arrivals", Some (JArray (map subwayArrivalObject arrivals)))].

(** The body of the [forEach] over the arrivals. *)
Definition subwayArrivalEntry (arr : SubwayArrival) (idx : Z) : jsstring :=
  let lineName := getSubwayLineName (subwayId arr) in
  utf16 "### " ++ numberToString (idx + 1) ++ utf16 ". " ++ toText lineName
    ++ utf16 " - " ++ bstatnNm arr ++ utf16 "행" ++ LF
  ++ utf16 "- **도착**: " ++ arvlMsg2 arr ++ LF
  ++ utf16 "- **방향**: "
    ++ (if streq (updnLine arr) (utf16 "상행")
        then utf16 "⬆️ 상행" else utf16 "⬇️ 하행") ++ LF ++ LF.

(** The arrivals the markdown form renders: every record of the feed. *)
Definition subwayArrivalRendered (arrivals : list SubwayArrival)
  : list SubwayArrival := arrivals.

Definition subwayArrivalMarkdown (stationName : jsstring)
  (arrivals : list SubwayArrival) : jsstring :=
  let md := utf16 "## 🚇 " ++ stationName ++ utf16 "역 실시간 도착정보"
              ++ LF ++ LF in
  let md := md ++ utf16 "> 총 " ++ numberToString (len arrivals)
              ++ utf16 "개의 열차 정보" ++ LF ++ LF in
  md ++ forEachAppend subwayArrivalEntry (subwayArrivalRendered arrivals) 0.

(** [args.station_name.replace(/역$/u, "").trim()] *)
Definition normalizeStationName (name : jsstring) : jsstring :=
  trim (replaceAtEnd (utf16 "역") name).

(** The first half of the [try] block: the request and the check of its
    answer. *)
Definition subwayArrivalLookup (up : Upstream) (limit : Z)
  (stationName : jsstring) : Try (list (option SubwayArrival)) :=
  key <- encodeURIComponent stationName ;;
  data <- realtimeStationArrival up 0 limit key ;;
  _ <- checkErrorMessage data ;;
  Ok (arrivalsOf data).

(** The second half: the three [return]s on the arrivals, once each of
    them is read. *)
Definition subwayArrivalResponse (stationName format : jsstring)
  (arrivals : list SubwayArrival) : jsstring :=
  if streq format (utf16 "json") then
    stringify (subwayArrivalJson stationName arrivals)
  else if len arrivals =? 0 then
    utf16 "## 🚇 " ++ stationName ++ utf16 "역 도착정보" ++ LF ++ LF
      ++ utf16 "현재 도착 예정 열차가 없습니다."
  else
    truncateResponse (subwayArrivalMarkdown stationName arrivals).

(** Both forms read [arr.subwayId] of every arrival; the empty-result
    text is returned for an array without element. *)
Definition subwayArrivalRender (stationName format : jsstring)
  (arrivals : list (option SubwayArrival)) : Try jsstring :=
  records <- readRecords (utf16 "subwayId") arrivals ;;
  Ok (subwayArrivalResponse stationName format records).

Definition subwayArrivalFailure (error : jsstring) : jsstring :=
  utf16 "❌ 지하철 정보 조회 실패: " ++ error.

Definition transitGetSubwayArrival (up : Upstream) (args : ToolArguments)
  : Completion :=
  match station_name args with
  | None => Rejected (missingProperty (utf16 "replace"))
  | Some ArgNull => Rejected (nullProperty (utf16 "replace"))
  | Some ArgOther =>
    Rejected (notAFunction (utf16 "args.station_name.replace"))
  | Some (ArgString name) =>
    let stationName := normalizeStationName name in
    let limit := effectiveLimit args in
    let format := formatOf args in
    Resolved (tryCatch
      (arrivals <- subwayArrivalLookup up limit stationName ;;
       subwayArrivalRender stationName format arrivals)
      subwayArrivalFailure)
  end.

(** *** transit_get_subway_status *)

Definition subwayStatusJson (title : jsstring) : json :=
  JObject
    [(utf16 "filter", Some (JString title));
     (utf16 "status", Some (JString (utf16 "정상 운행 중")));
     (utf16 "message", Some (JString (utf16
        "실시간 운행장애 정보는 서울교통공사 공지사항을 확인해주세요.")))].

Definition transitGetSubwayStatus (args : ToolArguments) : Completion :=
  let format := formatOf args in
  let lineFilter :=
    match line args with
    | None => None
    | Some [] => None
    | Some l => Some (l ++ utf16 "호선")
    end in
  let title := strOr lineFilter (utf16 "전체 호선") in
  if streq format (utf16 "json") then
    Resolved (stringify (subwayStatusJson title))
  else
    Resolved (utf16 "## 🚇 지하철 운행상태 (" ++ title ++ utf16 ")" ++ LF ++ LF
      ++ utf16 "✅ 정상 운행 중" ++ LF ++ LF
      ++ utf16 "※ 실시간 운행장애 정보는 서울교통공사 공지사항을 확인해주세요.").

(** *** transit_get_bus_arrival *)

(** [data.msgHeader?.headerCd !== "0"] throws the header's message. *)
Definition checkMsgHeader (data : StationByUidData) : Try unit :=
  let headerCdIsZero :=
    match msgHeader data with
    | Some h =>
      match headerCd h with
      | Some c => streq c (utf16 "0")
      | None => false
      end
    | None => false
    end in
  if negb headerCdIsZero then
    Throw (strOr (match msgHeader data with
                  | Some h => headerMsg h
                  | None => None
                  end) (utf16 "API 오류"))
  else Ok tt.

(** [data.msgBody?.itemList || []] *)
Definition itemsOf (data : StationByUidData) : list BusArrival :=
  match itemList data with
  | None => []
  | Some l => l
  end.

(** [arrivals[0]?.stNm || "알 수 없음"] *)
Definition firstStationName (arrivals : list BusArrival) : jsstring :=
  strOr (option_map stNm (hd_error arrivals)) (utf16 "알 수 없음").

(** [bus.routeType || "1"] *)
Definition routeTypeOf (bus : BusArrival) : jsstring :=
  strOr (routeType bus) (utf16 "1").

(** The arrivals both forms render: [arrivals.slice(0, limit)]. *)
Definition busArrivalRendered (limit : Z) (arrivals : list BusArrival)
  : list BusArrival := slice arrivals 0 limit.

(** The callback of the [map] over the arrivals. *)
Definition busArrivalObject (bus : BusArrival) : json :=
  JObject
    [(utf16 "routeName", Some (JString (rtNm bus)));
     (utf16 "routeAbbr", option_map JString (busRouteAbrv bus));
     (utf16 "arrival1", Some (JString (arrmsg1 bus)));
     (utf16 "arrival2", Some (JString (arrmsg2 bus)));
     (utf16 "routeType", toJson (getBusTypeName (routeTypeOf bus)))].

Definition busArrivalJson (arsId : option jsstring) (limit : Z)
  (arrivals : list BusArrival) : json :=
  JObject
    [(utf16 "stationName", Some (JString (firstStationName arrivals)));
     (utf16 "arsId", option_map JString arsId);
     (utf16 "count", Some (JNumber (len arrivals)));
     (utf16 "arrivals",
      Some (JArray (map busArrivalObject
                      (busArrivalRendered limit arrivals))))].

Definition busArrivalEntry (bus : BusArrival) (idx : Z) : jsstring :=
  let routeType := getBusTypeName (routeTypeOf bus) in
  utf16 "### " ++ numberToString (idx + 1) ++ utf16 ". " ++ rtNm bus
    ++ utf16 " (" ++ toText routeType ++ utf16 ")" ++ LF
  ++ utf16 "- **첫번째 버스**: " ++ arrmsg1 bus ++ LF
  ++ utf16 "- **두번째 버스**: " ++ arrmsg2 bus ++ LF ++ LF.

Definition busArrivalMarkdown (arsId : option jsstring) (limit : Z)
  (arrivals : list BusArrival) : jsstring :=
  let stationName := firstStationName arrivals in
  let md := utf16 "## 🚌 " ++ stationName ++ utf16 " 버스 도착정보"
              ++ LF ++ LF in
  let md := md ++ utf16 "> 정류장 번호: " ++ interpolate arsId ++ utf16 " | "
              ++ numberToString (len arrivals) ++ utf16 "개 노선"
              ++ LF ++ LF in
  md ++ forEachAppend busArrivalEntry (busArrivalRendered limit arrivals) 0.

Definition busArrivalLookup (up : Upstream) (arsId : option jsstring)
  : Try (list BusArrival) :=
  data <- getStationByUid up (interpolate arsId) ;;
  _ <- checkMsgHeader data ;;
  Ok (itemsOf data).

Definition busArrivalResponse (arsId : option jsstring) (limit : Z)
  (format : jsstring) (arrivals : list BusArrival) : jsstring :=
  if streq format (utf16 "json") then
    stringify (busArrivalJson arsId limit arrivals)
  else if len arrivals =? 0 then
    utf16 "## 🚌 버스 도착정보 (정류장: " ++ interpolate arsId
      ++ utf16 ")" ++ LF ++ LF
      ++ utf16 "현재 도착 예정 버스가 없습니다."
  else
    truncateResponse (busArrivalMarkdown arsId limit arrivals).

Definition busArrivalFailure (error : jsstring) : jsstring :=
  utf16 "❌ 버스 도착정보 조회 실패: " ++ error ++ LF ++ LF
    ++ utf16 "💡 정류장 번호가 올바른지 확인해 주세요.".

Definition transitGetBusArrival (up : Upstream) (args : ToolArguments)
  : Completion :=
  let arsId := ars_id args in
  let limit := effectiveLimit args in
  let format := formatOf args in
  Resolved (tryCatch
    (arrivals <- busArrivalLookup up arsId ;;
     Ok (busArrivalResponse arsId limit format arrivals))
    busArrivalFailure).

(* ===================================================================== *)
(** ** Directory scans *)
(* ===================================================================== *)

Definition pageSize : Z := 1000.

(** [data.<feed>?.row || []] *)
Definition rowsOf {R} (data : DirectoryData R) : list R :=
  match row data with
  | None => []
  | Some l => l
  end.

(** The scan loop of the stop search and of the bike-station search,
    [for (let page = page0; page <= page0 + remaining - 1; page++)]: the
    two loops differ in the feed, the predicate and the page bound only.
    [issued] is the list of the page requests sent so far, [results] the
    array the matches are pushed to.  The loop ends by its bound, by
    [break], or by the exception of a fetch. *)
Fixpoint scanPages {R} (fetchPage : Z -> Z -> Try (DirectoryData R))
  (matches : R -> bool) (limit : Z) (remaining : nat) (page : Z)
  (issued : list (Z * Z)) (results : list R)
  : list (Z * Z) * Try (list R) :=
  match remaining with
  | O => (issued, Ok results)
  | S remaining' =>
    let startIdx := (page - 1) * pageSize + 1 in
    let endIdx := page * pageSize in
    let issued := issued ++ [(startIdx, endIdx)] in
    match fetchPage startIdx endIdx with
    | Throw e => (issued, Throw e)
    | Ok data =>
      let rows := rowsOf data in
      let matched := filter matches rows in
      let results := results ++ matched in
      if (len results >=? limit * 3) || (len rows <? pageSize)
      then (issued, Ok results)
      else scanPages fetchPage matches limit remaining' (page + 1)
             issued results
    end
  end.

(** *** Ranking *)

(** [Array.prototype.sort(compareFn)] is a stable sort: an element moves
    before another one only when [compareFn] orders them strictly. *)
Section Sort.
Context {A : Type} (compareFn : A -> A -> Z).

Fixpoint insertSorted (x : A) (sorted : list A) : list A :=
  match sorted with
  | [] => [x]
  | y :: rest =>
    if compareFn x y <=? 0 then x :: sorted
    else y :: insertSorted x rest
  end.

Fixpoint sort (l : list A) : list A :=
  match l with
  | [] => []
  | x :: rest => insertSorted x (sort rest)
  end.
End Sort.

(** [a.STOPS_NM || ""] *)
Definition nameOf (s : BusStation) : jsstring := strOr (STOPS_NM s) [].

(** The comparator of the stop search. *)
Definition compareStations (query : jsstring) (a b : BusStation) : Z :=
  let aName := nameOf a in
  let bName := nameOf b in
  let aStarts := startsWith aName query in
  let bStarts := startsWith bName query in
  if aStarts && negb bStarts then -1
  else if negb aStarts && bStarts then 1
  else len aName - len bName.

(** *** transit_search_bus_station *)

(** [s.STOPS_NM?.includes(query) || s.STOPS_NO === query] *)
Definition stopMatches (query : jsstring) (s : BusStation) : bool :=
  match STOPS_NM s with
  | Some name => includes name query
  | None => false
  end || streq (STOPS_NO s) query.

Definition scanStops (up : Upstream) (query : jsstring) (limit : Z)
  : list (Z * Z) * Try (list BusStation) :=
  scanPages (busStopLocationXyInfo up) (stopMatches query) limit 5 1 [] [].

(** The callback of the [map] over the stops. *)
Definition busStationObject (s : BusStation) : json :=
  JObject
    [(utf16 "name", option_map JString (STOPS_NM s));
     (utf16 "arsId", Some (JString (STOPS_NO s)));
     (utf16 "type", Some (JString (strOr (STOPS_TYPE s) (utf16 "일반"))))].

Definition searchBusStationJson (query : jsstring)
  (stations : list BusStation) : json :=
  JObject
    [(utf16 "query", Some (JString query));
     (utf16 "count", Some (JNumber (len stations)));
     (utf16 "stations", Some (JArray (map busStationObject stations)))].

Definition searchBusStationEntry (s : BusStation) (idx : Z) : jsstring :=
  utf16 "### " ++ numberToString (idx + 1) ++ utf16 ". "
    ++ interpolate (STOPS_NM s) ++ LF
  ++ utf16 "- **정류장 번호**: " ++ BACKTICK ++ STOPS_NO s ++ BACKTICK
    ++ LF ++ LF.

Definition searchBusStationMarkdown (query : jsstring)
  (stations : list BusStation) : jsstring :=
  let md := utf16 "## 🔍 버스 정류장 검색: " ++ DQUOTE ++ query ++ DQUOTE
              ++ LF ++ LF in
  let md := md ++ utf16 "> " ++ numberToString (len stations)
              ++ utf16 "개 정류장 발견" ++ LF ++ LF in
  let md := md ++ forEachAppend searchBusStationEntry stations 0 in
  md ++ utf16 "---" ++ LF
     ++ utf16 "> 💡 **Tip**: 도착정보 조회 시 정류장 번호(arsId)를 사용하세요."
     ++ LF.

(** The stops both forms render: the ranked matches cut to [limit]. *)
Definition searchBusStationRendered (query : jsstring) (limit : Z)
  (results : list BusStation) : list BusStation :=
  let sortedResults := sort (compareStations query) results in
  slice sortedResults 0 limit.

(** The part of the [try] block after the scan loop. *)
Definition searchBusStationResponse (query : jsstring) (limit : Z)
  (format : jsstring) (results : list BusStation) : jsstring :=
  let stations := searchBusStationRendered query limit results in
  if streq format (utf16 "json") then
    stringify (searchBusStationJson query stations)
  else if len stations =? 0 then
    utf16 "## 🔍 버스 정류장 검색: " ++ DQUOTE ++ query ++ DQUOTE
      ++ LF ++ LF ++ utf16 "검색 결과가 없습니다."
  else
    truncateResponse (searchBusStationMarkdown query stations).

Definition searchBusStationFailure (error : jsstring) : jsstring :=
  utf16 "❌ 정류장 검색 실패: " ++ error.

Definition transitSearchBusStation (up : Upstream) (args : ToolArguments)
  : Completion :=
  match query args with
  | None => Rejected (missingProperty (utf16 "trim"))
  | Some ArgNull => Rejected (nullProperty (utf16 "trim"))
  | Some ArgOther => Rejected (notAFunction (utf16 "args.query.trim"))
  | Some (ArgString q) =>
    let query := trim q in
    let limit := effectiveLimit args in
    let format := formatOf args in
    Resolved (tryCatch
      (results <- snd (scanStops up query limit) ;;
       Ok (searchBusStationResponse query limit format results))
      searchBusStationFailure)
  end.

(* ===================================================================== *)
(** ** Tools that fold letter case *)
(* ===================================================================== *)

Section CaseFolding.

(** [String.prototype.toLowerCase], the Unicode lower-case mapping of the
    runtime. *)
Variable toLowerCase : jsstring -> jsstring.

(** [s.stationName?.toLowerCase().includes(query.toLowerCase())] *)
Definition bikeMatches (query : jsstring) (s : BikeStation) : bool :=
  match stationName s with
  | Some name => includes (toLowerCase name) (toLowerCase query)
  | None => false
  end.

(** [rackTotCnt > 0 ? Math.round((parkingBikeTotCnt / rackTotCnt) * 100) : 0];
    the quotient of two counts by a positive one is a finite number. *)
Definition availRateOf (s : BikeStation) : Z :=
  if rackTotCnt s >? 0 then
    match mathRound (PrimFloat.mul
            (PrimFloat.div (toNumber (parkingBikeTotCnt s))
                           (toNumber (rackTotCnt s)))
            (toNumber 100)) with
    | Some r => r
    | None => 0
    end
  else 0.

Definition availEmoji (availRate : Z) : jsstring :=
  if availRate >=? 50 then utf16 "🟢"
  else if availRate >=? 20 then utf16 "🟡"
  else utf16 "🔴".

(** *** transit_get_bike_station *)

Definition scanBikes (up : Upstream) (query : jsstring) (limit : Z)
  : list (Z * Z) * Try (list BikeStation) :=
  scanPages (bikeList up) (bikeMatches query) limit 3 1 [] [].

(** The callback of the [map] over the stations. *)
Definition bikeStationObject (s : BikeStation) : json :=
  JObject
    [(utf16 "name", option_map JString (stationName s));
     (utf16 "id", Some (JString (stationId s)));
     (utf16 "available", Some (JNumber (parkingBikeTotCnt s)));
     (utf16 "rackTotal", Some (JNumber (rackTotCnt s)))].

Definition bikeStationJson (query : jsstring) (stations : list BikeStation)
  : json :=
  JObject
    [(utf16 "query", Some (JString query));
     (utf16 "count", Some (JNumber (len stations)));
     (utf16 "stations", Some (JArray (map bikeStationObject stations)))].

Definition bikeStationEntry (s : BikeStation) (idx : Z) : jsstring :=
  let availRate := availRateOf s in
  let emoji := availEmoji availRate in
  utf16 "### " ++ numberToString (idx + 1) ++ utf16 ". "
    ++ interpolate (stationName s) ++ LF
  ++ utf16 "- **대여 가능**: " ++ emoji ++ utf16 " "
    ++ numberToString (parkingBikeTotCnt s) ++ utf16 "대 / "
    ++ numberToString (rackTotCnt s) ++ utf16 "대 ("
    ++ numberToString availRate ++ utf16 "%)" ++ LF ++ LF.

Definition bikeStationMarkdown (query : jsstring)
  (stations : list BikeStation) : jsstring :=
  let md := utf16 "## 🚲 따릉이 대여소 검색: " ++ DQUOTE ++ query ++ DQUOTE
              ++ LF ++ LF in
  let md := md ++ utf16 "> " ++ numberToString (len stations)
              ++ utf16 "개 대여소 발견" ++ LF ++ LF in
  md ++ forEachAppend bikeStationEntry stations 0.

(** The stations both forms render: the matches in scan order, cut to
    [limit]. *)
Definition bikeStationRendered (limit : Z) (results : list BikeStation)
  : list BikeStation := slice results 0 limit.

(** The part of the [try] block after the scan loop. *)
Definition bikeStationResponse (query : jsstring) (limit : Z)
  (format : jsstring) (results : list BikeStation) : jsstring :=
  let stations := bikeStationRendered limit results in
  if streq format (utf16 "json") then
    stringify (bikeStationJson query stations)
  else if len stations =? 0 then
    utf16 "## 🚲 따릉이 대여소 검색: " ++ DQUOTE ++ query ++ DQUOTE
      ++ LF ++ LF ++ utf16 "검색 결과가 없습니다."
  else
    truncateResponse (bikeStationMarkdown query stations).

Definition bikeStationFailure (error : jsstring) : jsstring :=
  utf16 "❌ 따릉이 대여소 검색 실패: " ++ error.

Definition transitGetBikeStation (up : Upstream) (args : ToolArguments)
  : Completion :=
  match query args with
  | None => Rejected (missingProperty (utf16 "trim"))
  | Some ArgNull => Rejected (nullProperty (utf16 "trim"))
  | Some ArgOther => Rejected (notAFunction (utf16 "args.query.trim"))
  | Some (ArgString q) =>
    let query := trim q in
    let limit := effectiveLimit args in
    let format := formatOf args in
    Resolved (tryCatch
      (results <- snd (scanBikes up query limit) ;;
       Ok (bikeStationResponse query limit format results))
      bikeStationFailure)
  end.

(** *** transit_get_combined_info *)

(** The three lookups of the combined query.  Each one runs inside its own
    [try] whose [catch] is empty: a lookup that throws leaves its array
    empty. *)
Definition combinedSubwayLookup (up : Upstream) (location : jsstring)
  : Try (list (option SubwayArrival)) :=
  key <- encodeURIComponent location ;;
  data <- realtimeStationArrival up 0 5 key ;;
  Ok (arrivalsOf data).

(** [s.STOPS_NM?.includes(location)] *)
Definition stopNameIncludes (location : jsstring) (s : BusStation) : bool :=
  match STOPS_NM s with
  | Some name => includes name location
  | None => false
  end.

Definition combinedBusLookup (up : Upstream) (location : jsstring)
  : Try (list BusStation) :=
  data <- busStopLocationXyInfo up 1 100 ;;
  let rows := rowsOf data in
  let matched := slice (filter (stopNameIncludes location) rows) 0 3 in
  Ok matched.

Definition combinedBikeLookup (up : Upstream) (location : jsstring)
  : Try (list BikeStation) :=
  data <- bikeList up 1 1000 ;;
  let rows := rowsOf data in
  let matched := slice (filter (bikeMatches location) rows) 0 3 in
  Ok matched.

(** [try { array.push(...lookup) } catch { }] on an empty array. *)
Definition settle {R} (lookup : Try (list R)) : list R :=
  tryCatch lookup (fun _ => []).

(** The rail records both forms read, after the three [try] blocks:
    [subwayData.slice(0, 5)]. *)
Definition combinedArrivalsRead (subwayData : list (option SubwayArrival))
  : Try (list SubwayArrival) :=
  readRecords (utf16 "subwayId") (slice subwayData 0 5).

(** The callbacks of the three [map]s of the serialised object. *)
Definition combinedArrivalObject (arr : SubwayArrival) : json :=
  JObject
    [(utf16 "line", toJson (getSubwayLineName (subwayId arr)));
     (utf16 "destination", Some (JString (bstatnNm arr)));
     (utf16 "message", Some (JString (arvlMsg2 arr)))].

Definition combinedStopObject (s : BusStation) : json :=
  JObject
    [(utf16 "name", option_map JString (STOPS_NM s));
     (utf16 "arsId", Some (JString (STOPS_NO s)))].

Definition combinedBikeObject (s : BikeStation) : json :=
  JObject
    [(utf16 "name", option_map JString (stationName s));
     (utf16 "available", Some (JNumber (parkingBikeTotCnt s)));
     (utf16 "total", Some (JNumber (rackTotCnt s)))].

(** The serialised object; [subwayCount] is [subwayData.length] and
    [arrivals] the records of [subwayData.slice(0, 5)]. *)
Definition combinedJson (rawLocation : jsstring) (subwayCount : Z)
  (arrivals : list SubwayArrival) (busStations : list BusStation)
  (bikeStations : list BikeStation) : json :=
  JObject
    [(utf16 "location", Some (JString rawLocation));
     (utf16 "subway", Some (JObject
        [(utf16 "count", Some (JNumber subwayCount));
         (utf16 "arrivals",
          Some (JArray (map combinedArrivalObject arrivals)))]));
     (utf16 "bus", Some (JObject
        [(utf16 "count", Some (JNumber (len busStations)));
         (utf16 "stations",
          Some (JArray (map combinedStopObject busStations)))]));
     (utf16 "bike", Some (JObject
        [(utf16 "count", Some (JNumber (len bikeStations)));
         (utf16 "stations",
          Some (JArray (map combinedBikeObject bikeStations)))]))].

Definition combinedHeader (rawLocation : jsstring) : jsstring :=
  utf16 "# 📍 " ++ rawLocation ++ utf16 " 주변 교통정보" ++ LF ++ LF.

Definition subwayEmptyState : jsstring :=
  utf16 "주변 지하철역 정보가 없습니다." ++ LF ++ LF.

Definition busEmptyState : jsstring :=
  utf16 "주변 버스 정류장 정보가 없습니다." ++ LF ++ LF.

Definition bikeEmptyState : jsstring :=
  utf16 "주변 따릉이 대여소 정보가 없습니다." ++ LF.

Definition combinedSubwayEntry (arr : SubwayArrival) (idx : Z) : jsstring :=
  let lineName := getSubwayLineName (subwayId arr) in
  utf16 "- **" ++ toText lineName ++ utf16 "** " ++ bstatnNm arr
    ++ utf16 "행: " ++ arvlMsg2 arr ++ LF.

Definition combinedBusEntry (s : BusStation) (idx : Z) : jsstring :=
  utf16 "- **" ++ interpolate (STOPS_NM s) ++ utf16 "** ("
    ++ STOPS_NO s ++ utf16 ")" ++ LF.

Definition combinedBikeEntry (s : BikeStation) (idx : Z) : jsstring :=
  let availRate := availRateOf s in
  let emoji := availEmoji availRate in
  utf16 "- **" ++ interpolate (stationName s) ++ utf16 "**: "
    ++ emoji ++ utf16 " " ++ numberToString (parkingBikeTotCnt s)
    ++ utf16 "대 이용가능" ++ LF.

Definition combinedSubwaySection (subwayCount : Z)
  (arrivals : list SubwayArrival) : jsstring :=
  utf16 "## 🚇 지하철 도착정보" ++ LF ++ LF
  ++ (if subwayCount =? 0 then subwayEmptyState
      else forEachAppend combinedSubwayEntry arrivals 0 ++ LF).

Definition combinedBusSection (busStations : list BusStation) : jsstring :=
  utf16 "## 🚌 버스 정류장" ++ LF ++ LF
  ++ (if len busStations =? 0 then busEmptyState
      else forEachAppend combinedBusEntry busStations 0 ++ LF).

Definition combinedBikeSection (bikeStations : list BikeStation)
  : jsstring :=
  utf16 "## 🚲 따릉이 대여소" ++ LF ++ LF
  ++ (if len bikeStations =? 0 then bikeEmptyState
      else forEachAppend combinedBikeEntry bikeStations 0).

Definition combinedMarkdown (rawLocation : jsstring) (subwayCount : Z)
  (arrivals : list SubwayArrival) (busStations : list BusStation)
  (bikeStations : list BikeStation) : jsstring :=
  let md := combinedHeader rawLocation in
  let md := md ++ combinedSubwaySection subwayCount arrivals in
  let md := md ++ combinedBusSection busStations in
  md ++ combinedBikeSection bikeStations.

(** The combined query on the outcomes of its three lookups.  The rail
    records are read by both forms and outside every [try]: the TypeError
    of a [null] record among the first five is the rejection of the
    call. *)
Definition combineOutcomes (rawLocation format : jsstring)
  (subway : Try (list (option SubwayArrival)))
  (bus : Try (list BusStation)) (bike : Try (list BikeStation))
  : Completion :=
  let subwayData := settle subway in
  let busStations := settle bus in
  let bikeStations := settle bike in
  match combinedArrivalsRead subwayData with
  | Throw error => Rejected error
  | Ok arrivals =>
    if streq format (utf16 "json") then
      Resolved (stringify (combinedJson rawLocation (len subwayData)
                             arrivals busStations bikeStations))
    else
      Resolved (truncateResponse
                  (combinedMarkdown rawLocation (len subwayData)
                     arrivals busStations bikeStations))
  end.

Definition transitGetCombinedInfo (up : Upstream) (args : ToolArguments)
  : Completion :=
  match location args with
  | None => Rejected (missingProperty (utf16 "replace"))
  | Some ArgNull => Rejected (nullProperty (utf16 "replace"))
  | Some ArgOther => Rejected (notAFunction (utf16 "args.location.replace"))
  | Some (ArgString rawLocation) =>
    let location := normalizeStationName rawLocation in
    let format := formatOf args in
    combineOutcomes rawLocation format
      (combinedSubwayLookup up location)
      (combinedBusLookup up location)
      (combinedBikeLookup up location)
  end.

(** *** The tool router *)

Definition executeTool (up : Upstream) (name : jsstring)
  (args : ToolArguments) : Completion :=
  if streq name (utf16 "transit_get_subway_arrival") then
    transitGetSubwayArrival up args
  else if streq name (utf16 "transit_get_subway_status") then
    transitGetSubwayStatus args
  else if streq name (utf16 "transit_get_bus_arrival") then
    transitGetBusArrival up args
  else if streq name (utf16 "transit_search_bus_station") then
    transitSearchBusStation up args
  else if streq name (utf16 "transit_get_bike_station") then
    transitGetBikeStation up args
  else if streq name (utf16 "transit_get_combined_info") then
    transitGetCombinedInfo up args
  else Resolved (utf16 "❌ 알 수 없는 도구: " ++ name).

End CaseFolding.

(* ===================================================================== *)
(** ** The tool registry and the request handler *)
(* ===================================================================== *)

Module Schema.
(** An entry of [TOOLS]: its [name] and the [required] list of its input
    schema (the descriptions and the property schemas are documentation
    for the caller; the handler reads the name only). *)
Record Tool := {
  name : jsstring;
  required : list jsstring
}.
End Schema.

Definition TOOLS : list Schema.Tool :=
  [{| Schema.name := utf16 "transit_get_subway_arrival";
      Schema.required := [utf16 "station_name"] |};
   {| Schema.name := utf16 "transit_get_subway_status";
      Schema.required := [] |};
   {| Schema.name := utf16 "transit_get_bus_arrival";
      Schema.required := [utf16 "ars_id"] |};
   {| Schema.name := utf16 "transit_search_bus_station";
      Schema.required := [utf16 "query"] |};
   {| Schema.name := utf16 "transit_get_bike_station";
      Schema.required := [utf16 "query"] |};
   {| Schema.name := utf16 "transit_get_combined_info";
      Schema.required := [utf16 "location"] |}].

(** [SERVER_INFO.name] and [SERVER_INFO.version] *)
Definition SERVER_NAME : jsstring := utf16 "korea-transit-mcp".
Definition SERVER_VERSION : jsstring := utf16 "1.0.0".

(** The [id] of a JSON-RPC message. *)
Inductive RpcId :=
| IdString (s : jsstring)
| IdNumber (n : Z)
| IdNull.

Module Rpc.
(** [params] of a request, with the fields the handler reads. *)
Record Params := {
  name : option jsstring;
  arguments : option ToolArguments;
  protocolVersion : option jsstring
}.

(** [req.body], destructured as [{ jsonrpc, id, method, params }]. *)
Record Body := {
  jsonrpc : option jsstring;
  id : option RpcId;
  method : option jsstring;
  params : option Params
}.
End Rpc.

(** [req.body]: no body at all, the JSON value [null], or a value whose
    properties the handler destructures. *)
Inductive RequestBody :=
| BodyUndefined
| BodyNull
| BodyValue (b : Rpc.Body).

(** The request: [req.method], [req.url] and [req.body]. *)
Record VercelRequest := {
  method : option jsstring;
  url : option jsstring;
  body : RequestBody
}.

(** The [result] of a JSON-RPC response. *)
Inductive RpcResult :=
| InitializeResult (protocolVersion : jsstring)
| ToolsListResult (tools : list Schema.Tool)
| ToolCallResult (text : jsstring)
| EmptyResult.

(** What the handler sends: [res.end()], [res.send(LANDING_PAGE_HTML)]
    (the page is a constant text, kept as a tag), or [res.json(...)] of
    one of five objects.  The constant fields of these objects are left to
    the constructor: [status: "ok"] of the health object, [jsonrpc: "2.0"]
    of the two JSON-RPC messages, the capabilities and [SERVER_INFO] of the
    initialize result, [type: "text"] of a tool-call content. *)
Inductive Payload :=
| Ended
| SentLandingPage
| JsonHealth (serverName version : jsstring) (tools : list jsstring)
| JsonRpcResponse (id : option RpcId) (result : RpcResult)
| JsonRpcError (id : option RpcId) (code : Z) (message : jsstring)
| JsonSuccess
| JsonMethodNotAllowed.

Record VercelResponse := {
  headers : list (jsstring * jsstring);
  status : Z;
  payload : Payload
}.

(** [jsonRpcResponse] and [jsonRpcError] *)
Definition jsonRpcResponse (id : option RpcId) (result : RpcResult)
  : Payload := JsonRpcResponse id result.

Definition jsonRpcError (id : option RpcId) (code : Z) (message : jsstring)
  : Payload := JsonRpcError id code message.

(** The three headers set at the start of every call. *)
Definition corsHeaders : list (jsstring * jsstring) :=
  [(utf16 "Access-Control-Allow-Origin", utf16 "*");
   (utf16 "Access-Control-Allow-Methods",
    utf16 "GET, POST, DELETE, OPTIONS");
   (utf16 "Access-Control-Allow-Headers",
    utf16 "Content-Type, mcp-session-id, x-session-id, Accept")].

Definition respond (code : Z) (p : Payload) : VercelResponse :=
  {| headers := corsHeaders; status := code; payload := p |}.

(** [s.split("?")[0]]: the part of [s] before its first "?". *)
Fixpoint beforeQuery (s : jsstring) : jsstring :=
  match s with
  | [] => []
  | c :: s' => if (c =? 63)%N then [] else c :: beforeQuery s'
  end.

(** [req.url?.split("?")[0] || "/"] *)
Definition urlPathOf (req : VercelRequest) : jsstring :=
  strOr (option_map beforeQuery (url req)) (utf16 "/").

Definition isMethod (req : VercelRequest) (m : jsstring) : bool :=
  match method req with
  | Some x => streq x m
  | None => false
  end.

(** [x === "literal"] on an optional string. *)
Definition isText (x : option jsstring) (literal : jsstring) : bool :=
  match x with
  | Some s => streq s literal
  | None => false
  end.

(** [TOOLS.find((t) => t.name === toolName)] *)
Definition findTool (toolName : jsstring) : option Schema.Tool :=
  find (fun t => streq (Schema.name t) toolName) TOOLS.

(** [params?.arguments || {}] *)
Definition emptyArguments : ToolArguments :=
  {| station_name := None; line := None; ars_id := None; query := None;
     location := None; limit := None; response_format := None |}.

(** The TypeError of destructuring a body that is [undefined] or [null];
    [what] is the word the runtime prints for the value. *)
Definition cannotDestructure (what : jsstring) : jsstring :=
  utf16 "Cannot destructure property 'jsonrpc' of 'body' as it is " ++ what
    ++ utf16 ".".

Section Handler.

Variable toLowerCase : jsstring -> jsstring.
Variable up : Upstream.

(** The [tools/call] case of the [switch]. *)
Definition toolsCall (id : option RpcId) (params : option Rpc.Params)
  : VercelResponse :=
  let toolName :=
    match params with
    | Some p => Rpc.name p
    | None => None
    end in
  let toolArgs :=
    match params with
    | Some p =>
      match Rpc.arguments p with
      | Some a => a
      | None => emptyArguments
      end
    | None => emptyArguments
    end in
  match toolName with
  | None => respond 400 (jsonRpcError id (-32602) (utf16 "Missing tool name"))
  | Some [] =>
    respond 400 (jsonRpcError id (-32602) (utf16 "Missing tool name"))
  | Some toolName =>
    match findTool toolName with
    | None =>
      respond 400
        (jsonRpcError id (-32602) (utf16 "Unknown tool: " ++ toolName))
    | Some _ =>
      match executeTool toLowerCase up toolName toolArgs with
      | Resolved toolResult =>
        respond 200 (jsonRpcResponse id (ToolCallResult toolResult))
      | Rejected error =>
        respond 500 (jsonRpcError (Some IdNull) (-32603) error)
      end
    end
  end.

(** The [POST] branch: the body of the [try] and its [catch]. *)
Definition handlePost (req : VercelRequest) : VercelResponse :=
  match body req with
  | BodyUndefined =>
    respond 500
      (jsonRpcError (Some IdNull) (-32603)
         (cannotDestructure (utf16 "undefined")))
  | BodyNull =>
    respond 500
      (jsonRpcError (Some IdNull) (-32603) (cannotDestructure (utf16 "null")))
  | BodyValue b =>
    let id := Rpc.id b in
    let params := Rpc.params b in
    if negb (isText (Rpc.jsonrpc b) (utf16 "2.0")) then
      respond 400
        (jsonRpcError id (-32600) (utf16 "Invalid JSON-RPC version"))
    else if isText (Rpc.method b) (utf16 "initialize") then
      respond 200 (jsonRpcResponse id
        (InitializeResult
           (strOr (match params with
                   | Some p => Rpc.protocolVersion p
                   | None => None
                   end) (utf16 "2024-11-05"))))
    else if isText (Rpc.method b) (utf16 "notifications/initialized") then
      respond 200 Ended
    else if isText (Rpc.method b) (utf16 "tools/list") then
      respond 200 (jsonRpcResponse id (ToolsListResult TOOLS))
    else if isText (Rpc.method b) (utf16 "tools/call") then
      toolsCall id params
    else if isText (Rpc.method b) (utf16 "ping") then
      respond 200 (jsonRpcResponse id EmptyResult)
    else
      respond 400
        (jsonRpcError id (-32601)
           (utf16 "Method not found: " ++ interpolate (Rpc.method b)))
  end.

Definition handler (req : VercelRequest) : VercelResponse :=
  if isMethod req (utf16 "OPTIONS") then respond 200 Ended
  else
    let urlPath := urlPathOf req in
    if isMethod req (utf16 "GET")
       && (streq urlPath (utf16 "/") || streq urlPath [])
    then
      {| headers := corsHeaders
                    ++ [(utf16 "Content-Type", utf16 "text/html; charset=utf-8")];
         status := 200;
         payload := SentLandingPage |}
    else if isMethod req (utf16 "GET") then
      respond 200
        (JsonHealth SERVER_NAME SERVER_VERSION (map Schema.name TOOLS))
    else if isMethod req (utf16 "POST") then handlePost req
    else if isMethod req (utf16 "DELETE") then respond 200 JsonSuccess
    else respond 405 JsonMethodNotAllowed.

End Handler.

(* ===================================================================== *)
(** ** Vocabulary of the properties, sample requests and snapshots *)
(* ===================================================================== *)

Definition noArguments : ToolArguments :=
  {| station_name := None; line := None; ars_id := None; query := None;
     location := None; limit := None; response_format := None |}.

Definition withLimit (l : option Z) : ToolArguments :=
  {| station_name := None; line := None; ars_id := None; query := None;
     location := None; limit := l; response_format := None |}.

(** [toLowerCase] on strings whose cased letters are all in Basic Latin:
    A-Z become a-z, every other code unit stays. *)
Definition latinToLowerCase (s : jsstring) : jsstring :=
  map (fun c => if ((65 <=? c) && (c <=? 90))%N then (c + 32)%N else c) s.

Definition coexStop : BusStation :=
  {| STOPS_NM := Some (utf16 "COEX"); STOPS_NO := utf16 "23285";
     STOPS_TYPE := None |}.

Definition withStation (name : jsstring) (l : option Z)
  (format : option jsstring) : ToolArguments :=
  {| station_name := Some (ArgString name); line := None; ars_id := None; query := None;
     location := None; limit := l; response_format := format |}.

(** The first code unit, if any, is not white space. *)
Definition startsClean (s : jsstring) : bool :=
  match s with
  | [] => true
  | c :: _ => negb (isWhiteSpace c)
  end.

(** *** The ranking keys of the stop search *)

(** Primary key: the name starts with the query. *)
Definition startsKey (query : jsstring) (s : BusStation) : bool :=
  startsWith (nameOf s) query.

(** Secondary key: the length of the name. *)
Definition lengthKey (s : BusStation) : Z := len (nameOf s).

(** [a] may stand before [b]: a prefix match before a name that is not
    one, and within equal primary keys the shorter name first. *)
Definition rankBefore (query : jsstring) (a b : BusStation) : Prop :=
  (startsKey query a = true /\ startsKey query b = false)
  \/ (startsKey query a = startsKey query b /\ lengthKey a <= lengthKey b).

Definition sameRank (query : jsstring) (a b : BusStation) : bool :=
  Bool.eqb (startsKey query a) (startsKey query b)
  && (lengthKey a =? lengthKey b).

Definition stopNamed (name : jsstring) : BusStation :=
  {| STOPS_NM := Some name; STOPS_NO := utf16 "00000"; STOPS_TYPE := None |}.

(** *** The pages of a scan *)

(** The [startIdx] and [endIdx] of the request for a page. *)
Definition pageRequest (page : Z) : Z * Z :=
  ((page - 1) * pageSize + 1, page * pageSize).

(** The answer of the feed to the request for a page. *)
Definition fetchOf {R} (fetchPage : Z -> Z -> Try (DirectoryData R))
  (page : nat) : Try (DirectoryData R) :=
  fetchPage (fst (pageRequest (Z.of_nat page)))
            (snd (pageRequest (Z.of_nat page))).

(** The records a page returns; a request that throws returns none. *)
Definition pageRowsOf {R} (fetchPage : Z -> Z -> Try (DirectoryData R))
  (page : nat) : list R :=
  match fetchOf fetchPage page with
  | Ok data => rowsOf data
  | Throw _ => []
  end.

(** The matches of the pages 1 to [page], in scan order. *)
Fixpoint matchesThrough {R} (fetchPage : Z -> Z -> Try (DirectoryData R))
  (matches : R -> bool) (page : nat) : list R :=
  match page with
  | O => []
  | S before =>
    matchesThrough fetchPage matches before
      ++ filter matches (pageRowsOf fetchPage page)
  end.

(** The two conditions of the [break] at a page: the accumulated matches
    reach three times the limit, or the page has fewer records than the
    page size. *)
Definition endsScan {R} (fetchPage : Z -> Z -> Try (DirectoryData R))
  (matches : R -> bool) (limit : Z) (page : nat) : Prop :=
  len (matchesThrough fetchPage matches page) >= limit * 3
  \/ len (pageRowsOf fetchPage page) < pageSize.

(** *** Snapshots *)

Definition arrivalTo (destination msg : jsstring) : SubwayArrival :=
  {| subwayId := utf16 "1002"; bstatnNm := destination; arvlMsg2 := msg;
     updnLine := utf16 "상행"; btrainNo := None |}.

Definition twoArrivals : list SubwayArrival :=
  [arrivalTo (utf16 "성수") (utf16 "전역 도착");
   arrivalTo (utf16 "신도림") (utf16 "3분 후")].

Definition bikeNamed (name : jsstring) (bikes racks : Z) : BikeStation :=
  {| stationName := Some name; stationId := utf16 "ST-1";
     parkingBikeTotCnt := bikes; rackTotCnt := racks |}.

Definition unavailable {A} : Try A := Throw (utf16 "fetch failed").

(** A snapshot whose arrival feed answers every request with two records,
    whatever range was asked for, whose bike list has one station, and
    whose other feeds are down. *)
Definition railAndBikeSnapshot : Upstream :=
  {| realtimeStationArrival := fun _ _ _ =>
       Ok {| errorMessage := None;
             realtimeArrivalList := Some (map Some twoArrivals) |};
     getStationByUid := fun _ => unavailable;
     busStopLocationXyInfo := fun _ _ => unavailable;
     bikeList := fun _ _ =>
       Ok {| row := Some [bikeNamed (utf16 "강남역 1번출구") 7 20] |} |}.

(** A stop directory whose every page is 1000 stops named "시청", and one
    that is empty. *)
Definition fullPagesSnapshot : Upstream :=
  {| realtimeStationArrival := fun _ _ _ => unavailable;
     getStationByUid := fun _ => unavailable;
     busStopLocationXyInfo := fun _ _ =>
       Ok {| row := Some (repeat (stopNamed (utf16 "시청")) (Z.to_nat 1000)) |};
     bikeList := fun _ _ => unavailable |}.

Definition emptySnapshot : Upstream :=
  {| realtimeStationArrival := fun _ _ _ =>
       Ok {| errorMessage := None; realtimeArrivalList := None |};
     getStationByUid := fun _ => unavailable;
     busStopLocationXyInfo := fun _ _ => Ok {| row := Some [] |};
     bikeList := fun _ _ => Ok {| row := Some [] |} |}.

Definition withQuery (q : jsstring) (l : option Z) (format : option jsstring)
  : ToolArguments :=
  {| station_name := None; line := None; ars_id := None; query := Some (ArgString q);
     location := None; limit := l; response_format := format |}.

Definition withLocation (name : jsstring) (format : option jsstring)
  : ToolArguments :=
  {| station_name := None; line := None; ars_id := None; query := None;
     location := Some (ArgString name); limit := None; response_format := format |}.

Definition threeBuses : list BusArrival :=
  map (fun route =>
         {| stNm := utf16 "강남역"; arsId := utf16 "22009"; rtNm := route;
            busRouteAbrv := None; arrmsg1 := utf16 "곧 도착";
            arrmsg2 := utf16 "5분후"; routeType := None; stationTp := None |})
      [utf16 "140"; utf16 "402"; utf16 "470"].

(** Replace one feed of a snapshot. *)
Definition withArrivalFeed
  (feed : Z -> Z -> jsstring -> Try ArrivalData) (up : Upstream) : Upstream :=
  {| realtimeStationArrival := feed;
     getStationByUid := getStationByUid up;
     busStopLocationXyInfo := busStopLocationXyInfo up;
     bikeList := bikeList up |}.

Definition withBikeList
  (feed : Z -> Z -> Try (DirectoryData BikeStation)) (up : Upstream)
  : Upstream :=
  {| realtimeStationArrival := realtimeStationArrival up;
     getStationByUid := getStationByUid up;
     busStopLocationXyInfo := busStopLocationXyInfo up;
     bikeList := feed |}.

Definition withStopDirectory
  (feed : Z -> Z -> Try (DirectoryData BusStation)) (up : Upstream)
  : Upstream :=
  {| realtimeStationArrival := realtimeStationArrival up;
     getStationByUid := getStationByUid up;
     busStopLocationXyInfo := feed;
     bikeList := bikeList up |}.

Definition longQuery : jsstring := repeat 97%N (Z.to_nat 25000).

(** The text of a settled tool call, when it resolved. *)
Definition resolvedText (c : Completion) : option jsstring :=
  match c with
  | Resolved text => Some text
  | Rejected _ => None
  end.

(** *** Vocabulary of the further properties *)

(** The name of a stop is the query itself. *)
Definition exactName (query : jsstring) (s : BusStation) : bool :=
  streq (nameOf s) query.

(** [l] begins with [p]. *)
Definition isPrefixOf {A} (p l : list A) : Prop := exists rest, l = p ++ rest.

(** A stop directory whose first page is full and has two matches for
    "강남", and whose second page cannot be fetched. *)
Definition secondPageDownSnapshot : Upstream :=
  {| realtimeStationArrival := fun _ _ _ => unavailable;
     getStationByUid := fun _ => unavailable;
     busStopLocationXyInfo := fun startIdx _ =>
       if startIdx =? 1 then
         Ok {| row := Some (stopNamed (utf16 "강남역")
                            :: stopNamed (utf16 "강남구청")
                            :: repeat (stopNamed (utf16 "시청"))
                                 (Z.to_nat 998)) |}
       else unavailable;
     bikeList := fun _ _ => unavailable |}.

(** A [tools/call] request. *)
Definition callRequest (requestId : option RpcId) (toolName : option jsstring)
  (args : option ToolArguments) : VercelRequest :=
  {| method := Some (utf16 "POST"); url := Some (utf16 "/mcp");
     body := BodyValue
               {| Rpc.jsonrpc := Some (utf16 "2.0"); Rpc.id := requestId;
                  Rpc.method := Some (utf16 "tools/call");
                  Rpc.params := Some {| Rpc.name := toolName;
                                        Rpc.arguments := args;
                                        Rpc.protocolVersion := None |} |} |}.

(** An arrival feed that answers with an error code, beside two records. *)
Definition noDataMessage : ErrorMessage :=
  {| code := Some (utf16 "INFO-200");
     message := Some (utf16 "해당하는 데이터가 없습니다.") |}.

Definition errorBodyData : ArrivalData :=
  {| errorMessage := Some noDataMessage;
     realtimeArrivalList := Some (map Some twoArrivals) |}.

Definition errorBodySnapshot : Upstream :=
  withArrivalFeed (fun _ _ _ => Ok errorBodyData) emptySnapshot.

(** The four methods the handler serves. *)
Definition servedMethods : list jsstring :=
  [utf16 "OPTIONS"; utf16 "GET"; utf16 "POST"; utf16 "DELETE"].

(** The response with the landing page. *)
Definition landingPage : VercelResponse :=
  {| headers := corsHeaders
                ++ [(utf16 "Content-Type", utf16 "text/html; charset=utf-8")];
     status := 200;
     payload := SentLandingPage |}.

(** The health response. *)
Definition health : VercelResponse :=
  respond 200 (JsonHealth SERVER_NAME SERVER_VERSION (map Schema.name TOOLS)).

(** A [GET] request. *)
Definition getRequest (u : option jsstring) : VercelRequest :=
  {| method := Some (utf16 "GET"); url := u; body := BodyUndefined |}.

(** A [POST] request with a JSON-RPC 2.0 body. *)
Definition rpcRequest (u : option jsstring) (requestId : option RpcId)
  (m : option jsstring) (p : option Rpc.Params) : VercelRequest :=
  {| method := Some (utf16 "POST"); url := u;
     body := BodyValue
               {| Rpc.jsonrpc := Some (utf16 "2.0"); Rpc.id := requestId;
                  Rpc.method := m; Rpc.params := p |} |}.

(** [params?.arguments || {}] of a [tools/call]. *)
Definition argumentsOf (a : option ToolArguments) : ToolArguments :=
  match a with
  | Some x => x
  | None => emptyArguments
  end.

(** *** Snapshots of the combined query and of the ranking example *)

(** Every feed is down. *)
Definition downSnapshot : Upstream :=
  {| realtimeStationArrival := fun _ _ _ => unavailable;
     getStationByUid := fun _ => unavailable;
     busStopLocationXyInfo := fun _ _ => unavailable;
     bikeList := fun _ _ => unavailable |}.

(** An arrival feed whose list holds a record and [null]. *)
Definition nullArrivalData : ArrivalData :=
  {| errorMessage := None;
     realtimeArrivalList :=
       Some [Some (arrivalTo (utf16 "성수") (utf16 "전역 도착")); None] |}.

Definition nullArrivalSnapshot : Upstream :=
  withArrivalFeed (fun _ _ _ => Ok nullArrivalData) emptySnapshot.

(** The three candidates of the ranking example, in scan order, and a stop
    directory that holds them on its first page. *)
Definition gangnamCandidates : list BusStation :=
  [stopNamed (utf16 "강남역"); stopNamed (utf16 "강남구청");
   stopNamed (utf16 "강남")].

Definition gangnamSnapshot : Upstream :=
  withStopDirectory (fun _ _ => Ok {| row := Some gangnamCandidates |})
    emptySnapshot.

(** *** What a response lists *)

(** The response of the bus-arrival tool that lists [listed] for the
    arrivals [arrivals] of the feed, written out. *)
Definition busArrivalListing (arsId : option jsstring) (format : jsstring)
  (arrivals listed : list BusArrival) : jsstring :=
  if streq format (utf16 "json") then
    stringify (JObject
      [(utf16 "stationName", Some (JString (firstStationName arrivals)));
       (utf16 "arsId", option_map JString arsId);
       (utf16 "count", Some (JNumber (len arrivals)));
       (utf16 "arrivals", Some (JArray (map busArrivalObject listed)))])
  else if len arrivals =? 0 then
    utf16 "## 🚌 버스 도착정보 (정류장: " ++ interpolate arsId
      ++ utf16 ")" ++ LF ++ LF
      ++ utf16 "현재 도착 예정 버스가 없습니다."
  else
    truncateResponse
      (utf16 "## 🚌 " ++ firstStationName arrivals ++ utf16 " 버스 도착정보"
       ++ LF ++ LF
       ++ utf16 "> 정류장 번호: " ++ interpolate arsId ++ utf16 " | "
       ++ numberToString (len arrivals) ++ utf16 "개 노선" ++ LF ++ LF
       ++ forEachAppend busArrivalEntry listed 0).

(** The response of the stop search that lists [listed]. *)
Definition stopListing (query format : jsstring) (listed : list BusStation)
  : jsstring :=
  if streq format (utf16 "json") then
    stringify (JObject
      [(utf16 "query", Some (JString query));
       (utf16 "count", Some (JNumber (len listed)));
       (utf16 "stations", Some (JArray (map busStationObject listed)))])
  else if len listed =? 0 then
    utf16 "## 🔍 버스 정류장 검색: " ++ DQUOTE ++ query ++ DQUOTE
      ++ LF ++ LF ++ utf16 "검색 결과가 없습니다."
  else
    truncateResponse
      (utf16 "## 🔍 버스 정류장 검색: " ++ DQUOTE ++ query ++ DQUOTE
       ++ LF ++ LF
       ++ utf16 "> " ++ numberToString (len listed)
       ++ utf16 "개 정류장 발견" ++ LF ++ LF
       ++ forEachAppend searchBusStationEntry listed 0
       ++ utf16 "---" ++ LF
       ++ utf16
            "> 💡 **Tip**: 도착정보 조회 시 정류장 번호(arsId)를 사용하세요."
       ++ LF).

(** The response of the bike-station search that lists [listed]. *)
Definition bikeListing (query format : jsstring) (listed : list BikeStation)
  : jsstring :=
  if streq format (utf16 "json") then
    stringify (JObject
      [(utf16 "query", Some (JString query));
       (utf16 "count", Some (JNumber (len listed)));
       (utf16 "stations", Some (JArray (map bikeStationObject listed)))])
  else if len listed =? 0 then
    utf16 "## 🚲 따릉이 대여소 검색: " ++ DQUOTE ++ query ++ DQUOTE
      ++ LF ++ LF ++ utf16 "검색 결과가 없습니다."
  else
    truncateResponse
      (utf16 "## 🚲 따릉이 대여소 검색: " ++ DQUOTE ++ query ++ DQUOTE
       ++ LF ++ LF
       ++ utf16 "> " ++ numberToString (len listed)
       ++ utf16 "개 대여소 발견" ++ LF ++ LF
       ++ forEachAppend bikeStationEntry listed 0).

(** The response of the combined query that lists [arrivals], [stops] and
    [bikes], for [subwayCount] rail records. *)
Definition combinedListing (rawLocation format : jsstring) (subwayCount : Z)
  (arrivals : list SubwayArrival) (stops : list BusStation)
  (bikes : list BikeStation) : jsstring :=
  if streq format (utf16 "json") then
    stringify (JObject
      [(utf16 "location", Some (JString rawLocation));
       (utf16 "subway", Some (JObject
          [(utf16 "count", Some (JNumber subwayCount));
           (utf16 "arrivals",
            Some (JArray (map combinedArrivalObject arrivals)))]));
       (utf16 "bus", Some (JObject
          [(utf16 "count", Some (JNumber (len stops)));
           (utf16 "stations",
            Some (JArray (map combinedStopObject stops)))]));
       (utf16 "bike", Some (JObject
          [(utf16 "count", Some (JNumber (len bikes)));
           (utf16 "stations",
            Some (JArray (map combinedBikeObject bikes)))]))])
  else
    truncateResponse
      (utf16 "# 📍 " ++ rawLocation ++ utf16 " 주변 교통정보" ++ LF ++ LF
       ++ utf16 "## 🚇 지하철 도착정보" ++ LF ++ LF
       ++ (if subwayCount =? 0
           then utf16 "주변 지하철역 정보가 없습니다." ++ LF ++ LF
           else forEachAppend combinedSubwayEntry arrivals 0 ++ LF)
       ++ utf16 "## 🚌 버스 정류장" ++ LF ++ LF
       ++ (if len stops =? 0
           then utf16 "주변 버스 정류장 정보가 없습니다." ++ LF ++ LF
           else forEachAppend combinedBusEntry stops 0 ++ LF)
       ++ utf16 "## 🚲 따릉이 대여소" ++ LF ++ LF
       ++ (if len bikes =? 0
           then utf16 "주변 따릉이 대여소 정보가 없습니다." ++ LF
           else forEachAppend combinedBikeEntry bikes 0)).

(** *** Records with an inherited line code *)

(** An arrival whose line code is the name of a function that every
    object inherits. *)
Definition inheritedLineArrival : SubwayArrival :=
  {| subwayId := utf16 "toString"; bstatnNm := utf16 "성수";
     arvlMsg2 := utf16 "전역 도착"; updnLine := utf16 "상행";
     btrainNo := None |}.

(** A body of the bus-arrival feed whose header reports an error. *)
Definition busyHeader : MsgHeader :=
  {| headerCd := Some (utf16 "7"); headerMsg := Some (utf16 "인증 실패") |}.

Definition busyHeaderData : StationByUidData :=
  {| msgHeader := Some busyHeader; itemList := None |}.

(** A bus-arrival feed that answers with three arrivals. *)
Definition threeBusesSnapshot : Upstream :=
  {| realtimeStationArrival := fun _ _ _ => unavailable;
     getStationByUid := fun _ =>
       Ok {| msgHeader := Some {| headerCd := Some (utf16 "0");
                                  headerMsg := None |};
             itemList := Some threeBuses |};
     busStopLocationXyInfo := fun _ _ => unavailable;
     bikeList := fun _ _ => unavailable |}.

(* ===================================================================== *)
(** ** Properties: strings and arrays *)
(* ===================================================================== *)

Lemma len_app {A} (a b : list A) : len (a ++ b) = len a + len b.
Proof. unfold len. rewrite length_app. lia. Qed.

Lemma len_nonneg {A} (l : list A) : 0 <= len l.
Proof. unfold len. lia. Qed.

Lemma len_nil_iff {A} (l : list A) : len l = 0 <-> l = [].
Proof.
  unfold len. destruct l as [|x l]; simpl; split; intros H;
    try reflexivity; try discriminate; lia.
Qed.

Lemma slice_from_start {A} (l : list A) (n : Z) :
  0 <= n -> slice l 0 n = firstn (Z.to_nat n) l.
Proof.
  intros Hn. unfold slice, relIndex.
  pose proof (len_nonneg l) as Hl.
  replace (0 <? 0) with false by reflexivity.
  destruct (n <? 0) eqn:E; [apply Z.ltb_lt in E; lia|].
  rewrite (Z.min_l 0 (len l)) by assumption. simpl skipn.
  rewrite Z.sub_0_r.
  destruct (Z.le_ge_cases n (len l)) as [H|H].
  - rewrite Z.min_l by assumption. reflexivity.
  - rewrite Z.min_r by assumption. unfold len in *.
    rewrite Nat2Z.id. rewrite !firstn_all2; auto; lia.
Qed.

Lemma len_firstn {A} (l : list A) (n : Z) :
  0 <= n -> len (firstn (Z.to_nat n) l) = Z.min n (len l).
Proof. intros Hn. unfold len. rewrite length_firstn. lia. Qed.

Lemma len_slice_from_start {A} (l : list A) (n : Z) :
  0 <= n -> len (slice l 0 n) = Z.min n (len l).
Proof. intros Hn. rewrite slice_from_start by assumption. now apply len_firstn. Qed.

Lemma len_slice_negative_end {A} (l : list A) (n : Z) :
  n < 0 -> len (slice l 0 n) = Z.max (len l + n) 0.
Proof.
  intros Hn. unfold slice, relIndex.
  pose proof (len_nonneg l) as Hl.
  replace (0 <? 0) with false by reflexivity.
  destruct (n <? 0) eqn:E; [|apply Z.ltb_ge in E; lia].
  rewrite (Z.min_l 0 (len l)) by assumption. simpl skipn. rewrite Z.sub_0_r.
  unfold len in *. rewrite length_firstn. lia.
Qed.

Lemma streq_refl (a : jsstring) : streq a a = true.
Proof. induction a as [|x a IH]; simpl; [reflexivity|]. now rewrite N.eqb_refl. Qed.

Lemma streq_eq (a b : jsstring) : streq a b = true <-> a = b.
Proof.
  split.
  - revert b. induction a as [|x a IH]; intros [|y b] H; simpl in H;
      try discriminate; [reflexivity|].
    apply andb_true_iff in H. destruct H as [Hx Hs].
    apply N.eqb_eq in Hx. f_equal; auto.
  - intros ->. apply streq_refl.
Qed.

Lemma startsWith_prefix (s q : jsstring) :
  startsWith s q = true <-> exists post, s = q ++ post.
Proof.
  revert s. induction q as [|x q IH]; intros s; simpl.
  - split; [intros _; now exists s | reflexivity].
  - destruct s as [|y s].
    + split; [discriminate | intros [post H]; discriminate].
    + rewrite andb_true_iff, N.eqb_eq, IH. split.
      * intros [-> [post ->]]. now exists post.
      * intros [post H]. injection H as -> ->. split; [reflexivity|now exists post].
Qed.

(** [includes] is substring containment. *)
Lemma includes_substring (s q : jsstring) :
  includes s q = true <-> exists pre post, s = pre ++ q ++ post.
Proof.
  induction s as [|y s IH].
  - simpl. rewrite orb_false_r, startsWith_prefix. split.
    + intros [post H]. now exists [], post.
    + intros [pre [post H]]. destruct pre; [now exists post|discriminate].
  - cbn [includes]. rewrite orb_true_iff, IH, startsWith_prefix. split.
    + intros [[post H]|[pre [post H]]].
      * now exists [], post.
      * exists (y :: pre), post. now rewrite H.
    + intros [[|z pre] [post H]].
      * left. now exists post.
      * right. injection H as -> ->. now exists pre, post.
Qed.

(** *** Literals and serialisation *)

Example utf16_gangnam : utf16 "강남역" = [44053; 45224; 50669]%N.
Proof. reflexivity. Qed.

Example utf16_astral : utf16 "🚇" = [55357; 56967]%N.
Proof. reflexivity. Qed.

Example notice_text :
  truncationNotice =
  [10; 10; 46; 46; 46; 32; 40; 51025; 45813; 51060; 32; 50; 53; 44; 48; 48;
   48; 51088; 32; 51228; 54620; 51004; 47196; 32; 51096; 47160; 49845;
   45768; 45796; 41]%N.
Proof. vm_compute. reflexivity. Qed.

Example stringify_sample :
  stringify (JObject [(utf16 "query", Some (JString (utf16 "a" ++ DQUOTE)));
                      (utf16 "skipped", None);
                      (utf16 "count", Some (JNumber 2));
                      (utf16 "stations", Some (JArray [JObject []; JArray []]))])
  = utf16 "{" ++ LF
    ++ utf16 "  " ++ DQUOTE ++ utf16 "query" ++ DQUOTE ++ utf16 ": "
    ++ DQUOTE ++ utf16 "a" ++ [92%N] ++ DQUOTE ++ DQUOTE ++ utf16 "," ++ LF
    ++ utf16 "  " ++ DQUOTE ++ utf16 "count" ++ DQUOTE ++ utf16 ": 2," ++ LF
    ++ utf16 "  " ++ DQUOTE ++ utf16 "stations" ++ DQUOTE ++ utf16 ": [" ++ LF
    ++ utf16 "    {}," ++ LF
    ++ utf16 "    []" ++ LF
    ++ utf16 "  ]" ++ LF
    ++ utf16 "}".
Proof. vm_compute. reflexivity. Qed.

(** *** The truncation notice *)

Lemma toLocaleString_limit : toLocaleString CHARACTER_LIMIT = utf16 "25,000".
Proof. reflexivity. Qed.

Lemma len_truncationNotice : len truncationNotice = 30.
Proof. reflexivity. Qed.

Lemma truncateResponse_short (content : jsstring) :
  len content <= CHARACTER_LIMIT -> truncateResponse content = content.
Proof.
  intros H. unfold truncateResponse.
  destruct (len content <=? CHARACTER_LIMIT) eqn:E; [reflexivity|].
  apply Z.leb_gt in E. lia.
Qed.

Lemma truncateResponse_long (content : jsstring) :
  CHARACTER_LIMIT < len content ->
  truncateResponse content
  = firstn (Z.to_nat (CHARACTER_LIMIT - 100)) content ++ truncationNotice.
Proof.
  intros H. unfold truncateResponse.
  destruct (len content <=? CHARACTER_LIMIT) eqn:E.
  - apply Z.leb_le in E. lia.
  - rewrite slice_from_start; [reflexivity|]. unfold CHARACTER_LIMIT. lia.
Qed.

Lemma len_truncateResponse_long (content : jsstring) :
  CHARACTER_LIMIT < len content ->
  len (truncateResponse content) = CHARACTER_LIMIT - 100 + len truncationNotice.
Proof.
  intros H. rewrite truncateResponse_long by assumption.
  rewrite len_app, len_firstn; unfold CHARACTER_LIMIT in *; lia.
Qed.

Lemma truncateResponse_bounded (content : jsstring) :
  len (truncateResponse content) <= CHARACTER_LIMIT.
Proof.
  destruct (Z.le_gt_cases (len content) CHARACTER_LIMIT) as [H|H].
  - now rewrite truncateResponse_short.
  - rewrite len_truncateResponse_long, len_truncationNotice by assumption.
    unfold CHARACTER_LIMIT. lia.
Qed.

(* ===================================================================== *)
(** ** Properties: response truncation *)
(* ===================================================================== *)

(** C4: [truncateResponse] is the identity on every string of at most 25000
    code units; a longer string is cut to its first 24900 code units
    (25000 - 100) followed by the truncation notice, whose text names the
    limit as "25,000", so the output has 24900 code units plus those of the
    notice. *)
Theorem truncateResponse_spec (content : jsstring) :
  (len content <= 25000 -> truncateResponse content = content) /\
  (25000 < len content ->
     truncateResponse content
     = firstn (Z.to_nat 24900) content ++ truncationNotice
     /\ len (firstn (Z.to_nat 24900) content) = 24900
     /\ len (truncateResponse content) = 24900 + len truncationNotice) /\
  toLocaleString CHARACTER_LIMIT = utf16 "25,000" /\
  truncationNotice
  = LF ++ LF ++ utf16 "... (응답이 " ++ utf16 "25,000"
       ++ utf16 "자 제한으로 잘렸습니다)".
Proof.
  split; [|split; [|split]].
  - apply truncateResponse_short.
  - intros H. split; [|split].
    + now apply truncateResponse_long.
    + rewrite len_firstn; lia.
    + now apply len_truncateResponse_long.
  - apply toLocaleString_limit.
  - reflexivity.
Qed.

Lemma truncateResponse_spec_witness :
  truncateResponse (utf16 "강남") = utf16 "강남" /\
  len (truncateResponse (repeat 97%N (Z.to_nat 25001))) = 24900 + len truncationNotice.
Proof.
  split.
  - apply (proj1 (truncateResponse_spec (utf16 "강남"))). vm_compute. discriminate.
  - apply (proj1 (proj2 (truncateResponse_spec (repeat 97%N (Z.to_nat 25001))))).
    vm_compute. reflexivity.
Defined.

(** C10: [truncateResponse] is idempotent: a truncated output has 24900
    code units plus the notice, which is within the limit. *)
Theorem truncateResponse_idempotent (content : jsstring) :
  truncateResponse (truncateResponse content) = truncateResponse content.
Proof.
  apply truncateResponse_short, truncateResponse_bounded.
Qed.

(* ===================================================================== *)
(** ** Properties: the result limit *)
(* ===================================================================== *)

Lemma effectiveLimit_upper (args : ToolArguments) : effectiveLimit args <= 20.
Proof. unfold effectiveLimit. lia. Qed.

Lemma limitOr_nonzero (n : Z) : n <> 0 -> limitOr (Some n) 10 = n.
Proof. intros H. destruct n; simpl; congruence. Qed.

(** The limit of the four tools, [Math.min(args.limit || 10, 20)], never
    exceeds 20; a missing limit and 0 give 10; a limit of at least 1 is cut
    to 20 and so lies in [1, 20]; a negative limit is applied as it is. *)
Lemma effectiveLimit_spec (args : ToolArguments) :
  effectiveLimit args <= 20 /\
  (limit args = None -> effectiveLimit args = 10) /\
  (limit args = Some 0 -> effectiveLimit args = 10) /\
  (forall n, limit args = Some n -> 1 <= n ->
     effectiveLimit args = Z.min n 20 /\ 1 <= effectiveLimit args <= 20) /\
  (forall n, limit args = Some n -> n < 0 -> effectiveLimit args = n).
Proof.
  split; [apply effectiveLimit_upper|].
  unfold effectiveLimit.
  split; [intros ->; reflexivity|].
  split; [intros ->; reflexivity|].
  split; intros n -> Hn; rewrite limitOr_nonzero by lia; lia.
Qed.

Lemma effectiveLimit_spec_witness :
  effectiveLimit (withLimit None) = 10 /\
  effectiveLimit (withLimit (Some 0)) = 10 /\
  1 <= effectiveLimit (withLimit (Some 35)) <= 20 /\
  effectiveLimit (withLimit (Some (-5))) = -5.
Proof.
  destruct (effectiveLimit_spec (withLimit None)) as (_ & H & _).
  destruct (effectiveLimit_spec (withLimit (Some 0))) as (_ & _ & H0 & _).
  destruct (effectiveLimit_spec (withLimit (Some 35))) as (_ & _ & _ & H35 & _).
  destruct (effectiveLimit_spec (withLimit (Some (-5)))) as (_ & _ & _ & _ & Hn).
  split; [|split; [|split]].
  - apply H. reflexivity.
  - apply H0. reflexivity.
  - apply (H35 35); [reflexivity | lia].
  - apply (Hn (-5)); [reflexivity | lia].
Defined.

(** C1 at the failing input: a limit of -5 is not brought into [1, 20]; it
    is applied as -5, and [slice(0, -5)] then drops the last five results
    instead of keeping the first ones. *)
Theorem effectiveLimit_negative_not_clamped :
  effectiveLimit (withLimit (Some (-5))) = -5 /\
  ~ (1 <= effectiveLimit (withLimit (Some (-5))) <= 20) /\
  effectiveLimit (withLimit (Some (-1))) = -1 /\
  map rtNm (busArrivalRendered (effectiveLimit (withLimit (Some (-1))))
              threeBuses)
  = [utf16 "140"; utf16 "402"].
Proof.
  split; [reflexivity|]. split; [|split; reflexivity].
  vm_compute. intros [H _]. apply H. reflexivity.
Qed.

(* ===================================================================== *)
(** ** Properties: station-name normalization *)
(* ===================================================================== *)

Lemma trimStart_clean (s : jsstring) : startsClean (trimStart s) = true.
Proof.
  induction s as [|c s IH]; simpl; [reflexivity|].
  destruct (isWhiteSpace c) eqn:E; [assumption|]. simpl. now rewrite E.
Qed.

Lemma trimStart_fixed (s : jsstring) :
  startsClean s = true -> trimStart s = s.
Proof.
  destruct s as [|c s]; simpl; [reflexivity|].
  intros H. apply negb_true_iff in H. now rewrite H.
Qed.

Lemma trimStart_suffix (s : jsstring) : exists pre, s = pre ++ trimStart s.
Proof.
  induction s as [|c s [pre IH]]; simpl.
  - now exists [].
  - destruct (isWhiteSpace c).
    + exists (c :: pre). simpl. now f_equal.
    + now exists [].
Qed.

Lemma trimStart_end_clean (s : jsstring) :
  startsClean (rev s) = true -> startsClean (rev (trimStart s)) = true.
Proof.
  intros H. destruct (trimStart_suffix s) as [pre E].
  destruct (trimStart s) as [|c t] eqn:Et; [reflexivity|].
  rewrite E, rev_app_distr in H.
  destruct (rev (c :: t)) as [|d r] eqn:Er.
  - apply (f_equal (@List.length _)) in Er. rewrite length_rev in Er. discriminate.
  - exact H.
Qed.

Lemma trimEnd_rev (s : jsstring) : trimEnd s = rev (trimStart (rev s)).
Proof. unfold trimEnd, rev'. now rewrite <- !rev_alt. Qed.

Lemma trimEnd_fixed (s : jsstring) :
  startsClean (rev s) = true -> trimEnd s = s.
Proof.
  intros H. rewrite trimEnd_rev, trimStart_fixed by assumption.
  apply rev_involutive.
Qed.

Lemma trimEnd_clean (s : jsstring) : startsClean (rev (trimEnd s)) = true.
Proof. rewrite trimEnd_rev, rev_involutive. apply trimStart_clean. Qed.

Lemma trim_fixed (s : jsstring) :
  startsClean s = true -> startsClean (rev s) = true -> trim s = s.
Proof.
  intros Hs He. unfold trim. rewrite trimEnd_fixed by assumption.
  now apply trimStart_fixed.
Qed.

Lemma trim_idempotent (s : jsstring) : trim (trim s) = trim s.
Proof.
  apply trim_fixed; unfold trim.
  - apply trimStart_clean.
  - apply trimStart_end_clean, trimEnd_clean.
Qed.

Lemma replaceAtEnd_absent (suffix s : jsstring) :
  endsWith s suffix = false -> replaceAtEnd suffix s = s.
Proof. intros H. unfold replaceAtEnd. now rewrite H. Qed.

(** C9, as the code has it: the normalization removes one trailing "역"
    and then trims.  It leaves an already normalized name unchanged
    whenever that name does not itself end in "역"; "강남역" and "강남" give
    the same name, and so the same request and the same answer. *)
Theorem normalizeStationName_stable :
  (forall name,
     endsWith (normalizeStationName name) (utf16 "역") = false ->
     normalizeStationName (normalizeStationName name)
     = normalizeStationName name) /\
  normalizeStationName (utf16 "강남역") = utf16 "강남" /\
  normalizeStationName (utf16 "강남") = utf16 "강남" /\
  (forall up l format,
     transitGetSubwayArrival up (withStation (utf16 "강남역") l format)
     = transitGetSubwayArrival up (withStation (utf16 "강남") l format)) /\
  (forall up,
     combinedSubwayLookup up (normalizeStationName (utf16 "강남역"))
     = combinedSubwayLookup up (normalizeStationName (utf16 "강남"))).
Proof.
  split; [|split; [|split; [|split]]]; try reflexivity.
  intros name H. unfold normalizeStationName at 1.
  rewrite replaceAtEnd_absent by assumption.
  unfold normalizeStationName. apply trim_idempotent.
Qed.

Lemma normalizeStationName_stable_witness :
  normalizeStationName (normalizeStationName (utf16 " 서울역 앞 "))
  = normalizeStationName (utf16 " 서울역 앞 ").
Proof.
  apply (proj1 normalizeStationName_stable). vm_compute. reflexivity.
Defined.

(** C9 as stated fails: a name with a doubled suffix loses one "역" at each
    application. *)
Lemma normalizeStationName_not_idempotent :
  normalizeStationName (utf16 "강남역역") = utf16 "강남역" /\
  normalizeStationName (normalizeStationName (utf16 "강남역역")) = utf16 "강남" /\
  normalizeStationName (normalizeStationName (utf16 "강남역역"))
  <> normalizeStationName (utf16 "강남역역").
Proof.
  split; [reflexivity|]. split; [reflexivity|].
  vm_compute. discriminate.
Qed.

(* ===================================================================== *)
(** ** Properties: match predicates *)
(* ===================================================================== *)

(** The two match predicates: a stop matches when its name contains the
    query as it is written (letter case counts) or its identifier equals
    the query; a bike station matches when its lower-cased name contains
    the lower-cased query. *)
Lemma match_predicates (toLowerCase : jsstring -> jsstring)
  (query : jsstring) :
  (forall s : BusStation,
     stopMatches query s = true <->
     (exists name pre post,
        STOPS_NM s = Some name /\ name = pre ++ query ++ post)
     \/ STOPS_NO s = query) /\
  (forall s : BikeStation,
     bikeMatches toLowerCase query s = true <->
     exists name pre post,
       stationName s = Some name /\
       toLowerCase name = pre ++ toLowerCase query ++ post).
Proof.
  split; intros s.
  - unfold stopMatches. rewrite orb_true_iff, streq_eq.
    destruct (STOPS_NM s) as [name|].
    + rewrite includes_substring. split.
      * intros [[pre [post H]]|H]; [left; now exists name, pre, post | now right].
      * intros [[n [pre [post [Hn H]]]]|H]; [left|now right].
        injection Hn as <-. now exists pre, post.
    + split.
      * intros [H|H]; [discriminate | now right].
      * intros [[n [pre [post [Hn _]]]]|H]; [discriminate | now right].
  - unfold bikeMatches. destruct (stationName s) as [name|].
    + rewrite includes_substring. split.
      * intros [pre [post H]]. now exists name, pre, post.
      * intros [n [pre [post [Hn H]]]]. injection Hn as <-. now exists pre, post.
    + split; [discriminate|]. intros [n [pre [post [Hn _]]]]. discriminate.
Qed.

(** C8 at the failing input: the stop name "COEX" contains the query
    "coex" when letter case is ignored, and neither the stop search nor the
    combined query matches it; the bike-station predicate matches a
    station of that name. *)
Theorem stop_match_is_case_sensitive :
  STOPS_NM coexStop = Some (utf16 "COEX") /\
  includes (latinToLowerCase (utf16 "COEX")) (latinToLowerCase (utf16 "coex"))
  = true /\
  stopMatches (utf16 "coex") coexStop = false /\
  stopNameIncludes (utf16 "coex") coexStop = false /\
  bikeMatches latinToLowerCase (utf16 "coex") (bikeNamed (utf16 "COEX") 3 10)
  = true.
Proof. repeat split. Qed.

(* ===================================================================== *)
(** ** Properties: ranking *)
(* ===================================================================== *)

Section SortFacts.
Context {A : Type} (compareFn : A -> A -> Z).

Let before (a b : A) : Prop := compareFn a b <= 0.

Lemma insertSorted_perm (x : A) (l : list A) :
  Permutation (x :: l) (insertSorted compareFn x l).
Proof.
  induction l as [|y l IH]; simpl; [constructor; constructor|].
  destruct (compareFn x y <=? 0); [apply Permutation_refl|].
  eapply perm_trans; [apply perm_swap|]. now constructor.
Qed.

Lemma sort_perm (l : list A) : Permutation l (sort compareFn l).
Proof.
  induction l as [|x l IH]; simpl; [constructor|].
  eapply perm_trans; [|apply insertSorted_perm]. now constructor.
Qed.

Hypothesis before_total : forall a b, before a b \/ before b a.
Hypothesis before_trans : forall a b c, before a b -> before b c -> before a c.

Lemma insertSorted_sorted (x : A) (l : list A) :
  StronglySorted before l ->
  StronglySorted before (insertSorted compareFn x l).
Proof.
  induction 1 as [|y l Hs IH Hall]; simpl.
  - constructor; constructor.
  - destruct (compareFn x y <=? 0) eqn:E.
    + apply Z.leb_le in E. constructor; [now constructor|].
      constructor; [exact E|].
      eapply Forall_impl; [|exact Hall]. intros z Hz. now apply (before_trans x y z).
    + apply Z.leb_gt in E. constructor; [exact IH|].
      assert (Hyx : before y x).
      { destruct (before_total x y) as [H|H]; [unfold before in H; lia | exact H]. }
      eapply Permutation_Forall; [apply insertSorted_perm|].
      now constructor.
Qed.

Lemma sort_sorted (l : list A) : StronglySorted before (sort compareFn l).
Proof.
  induction l as [|x l IH]; simpl; [constructor|].
  now apply insertSorted_sorted.
Qed.

(** Stability: elements that [compareFn] does not order strictly keep
    their relative order. *)
Variable same : A -> A -> bool.
Hypothesis same_before :
  forall a x y, same a x = true -> same a y = true -> before x y.

Lemma insertSorted_filter (a x : A) (l : list A) :
  filter (same a) (insertSorted compareFn x l) = filter (same a) (x :: l).
Proof.
  induction l as [|y l IH]; [reflexivity|].
  cbn [insertSorted]. destruct (compareFn x y <=? 0) eqn:E; [reflexivity|].
  apply Z.leb_gt in E. cbn [filter] in *. rewrite IH.
  destruct (same a x) eqn:Ex, (same a y) eqn:Ey; try reflexivity.
  pose proof (same_before a x y Ex Ey) as H. unfold before in H. lia.
Qed.

Lemma sort_stable (a : A) (l : list A) :
  filter (same a) (sort compareFn l) = filter (same a) l.
Proof.
  induction l as [|x l IH]; [reflexivity|].
  cbn [sort]. rewrite insertSorted_filter. cbn [filter]. now rewrite IH.
Qed.
End SortFacts.

Lemma StronglySorted_weaken {A} (R R' : A -> A -> Prop) (l : list A) :
  (forall a b, R a b -> R' a b) -> StronglySorted R l -> StronglySorted R' l.
Proof.
  intros HR. induction 1 as [|x l Hs IH Hall]; constructor; [exact IH|].
  eapply Forall_impl; [|exact Hall]. intros b. apply HR.
Qed.

Lemma compareStations_before (query : jsstring) (a b : BusStation) :
  compareStations query a b <= 0 <-> rankBefore query a b.
Proof.
  unfold compareStations, rankBefore, startsKey, lengthKey.
  destruct (startsWith (nameOf a) query), (startsWith (nameOf b) query);
    simpl; split; intros H; try lia; intuition (try discriminate; try lia).
Qed.

Lemma rankBefore_total (query : jsstring) (a b : BusStation) :
  rankBefore query a b \/ rankBefore query b a.
Proof.
  unfold rankBefore.
  destruct (startsKey query a), (startsKey query b); try tauto;
    destruct (Z.le_ge_cases (lengthKey a) (lengthKey b)); intuition lia.
Qed.

Lemma rankBefore_trans (query : jsstring) (a b c : BusStation) :
  rankBefore query a b -> rankBefore query b c -> rankBefore query a c.
Proof.
  unfold rankBefore.
  destruct (startsKey query a), (startsKey query b), (startsKey query c);
    intuition (try discriminate; try lia).
Qed.

Lemma sameRank_before (query : jsstring) (a x y : BusStation) :
  sameRank query a x = true -> sameRank query a y = true ->
  compareStations query x y <= 0.
Proof.
  unfold sameRank. rewrite !andb_true_iff, !Z.eqb_eq, !Bool.eqb_true_iff.
  intros [Hs Hl] [Hs' Hl']. apply compareStations_before. right.
  split; [congruence | lia].
Qed.

(** The sort of the stop search: a permutation of the results in which
    every earlier stop may stand before every later one, and which keeps
    the scan order of the stops with equal keys. *)
Lemma sort_by_rank (query : jsstring) (results : list BusStation) :
  let sortedResults := sort (compareStations query) results in
  Permutation results sortedResults /\
  StronglySorted (rankBefore query) sortedResults /\
  (forall a, filter (sameRank query a) sortedResults
             = filter (sameRank query a) results) /\
  (forall limit, searchBusStationRendered query limit results
                 = slice sortedResults 0 limit).
Proof.
  intros sortedResults. subst sortedResults.
  split; [apply sort_perm|]. split; [|split].
  - apply StronglySorted_weaken
      with (R := fun a b => compareStations query a b <= 0).
    + intros a b. apply compareStations_before.
    + apply sort_sorted.
      * intros a b.
        destruct (rankBefore_total query a b) as [H|H];
          [left|right]; now apply compareStations_before.
      * intros a b c Hab Hbc. apply compareStations_before.
        apply (rankBefore_trans query a b c); now apply compareStations_before.
  - intros a. apply sort_stable. intros a0 x y. apply sameRank_before.
  - reflexivity.
Qed.

(* ===================================================================== *)
(** ** Properties: the paginated scan *)
(* ===================================================================== *)

Section Scan.
Context {R : Type} (fetchPage : Z -> Z -> Try (DirectoryData R))
        (matches : R -> bool) (limit : Z).

(** The requests of a scan that resumes after [page] pages: they are the
    requests of consecutive pages, at most [remaining] of them, and none
    of the pages before the last one met a condition of the [break]. *)
Lemma scanPages_issued (remaining : nat) :
  forall (page : nat) (issued : list (Z * Z)),
  exists more : nat,
    (more <= remaining)%nat /\
    fst (scanPages fetchPage matches limit remaining (Z.of_nat (S page))
           issued (matchesThrough fetchPage matches page))
    = issued ++ map (fun k => pageRequest (Z.of_nat k)) (seq (S page) more) /\
    forall k, (S page <= k)%nat -> (S k < S page + more)%nat ->
              ~ endsScan fetchPage matches limit k.
Proof.
  induction remaining as [|remaining IH]; intros page issued.
  - exists 0%nat. cbn [scanPages fst seq map]. rewrite app_nil_r.
    repeat split; [lia|]. intros k H1 H2. lia.
  - cbn [scanPages].
    change ((Z.of_nat (S page) - 1) * pageSize + 1)
      with (fst (pageRequest (Z.of_nat (S page)))).
    change (Z.of_nat (S page) * pageSize)
      with (snd (pageRequest (Z.of_nat (S page)))).
    assert (Hrows : pageRowsOf fetchPage (S page)
                    = match fetchPage (fst (pageRequest (Z.of_nat (S page))))
                                      (snd (pageRequest (Z.of_nat (S page))))
                      with Ok data => rowsOf data | Throw _ => [] end)
      by reflexivity.
    destruct (fetchPage (fst (pageRequest (Z.of_nat (S page))))
                        (snd (pageRequest (Z.of_nat (S page)))))
      as [data|e] eqn:Efetch.
    + rewrite <- Hrows.
      change (matchesThrough fetchPage matches page
                ++ filter matches (pageRowsOf fetchPage (S page)))
        with (matchesThrough fetchPage matches (S page)).
      destruct ((len (matchesThrough fetchPage matches (S page)) >=? limit * 3)
                || (len (pageRowsOf fetchPage (S page)) <? pageSize)) eqn:Estop.
      * exists 1%nat. cbn [fst seq map].
        repeat split; [lia|]. intros k H1 H2. lia.
      * replace (Z.of_nat (S page) + 1) with (Z.of_nat (S (S page))) by lia.
        destruct (IH (S page)
                    (issued ++ [(fst (pageRequest (Z.of_nat (S page))),
                                 snd (pageRequest (Z.of_nat (S page))))]))
          as (more & Hle & Hfst & Hnot).
        exists (S more). split; [lia|]. split.
        -- rewrite Hfst. rewrite <- app_assoc. reflexivity.
        -- intros k H1 H2.
           destruct (Nat.eq_dec k (S page)) as [->|Hk].
           ++ apply orb_false_iff in Estop. destruct Estop as [E1 E2].
              unfold endsScan. rewrite Z.geb_leb in E1.
              apply Z.leb_gt in E1. apply Z.ltb_ge in E2. lia.
           ++ apply Hnot; lia.
    + exists 1%nat. cbn [fst seq map].
      repeat split; [lia|]. intros k H1 H2. lia.
Qed.
End Scan.

Lemma endsScan_mono {R} (fetchPage : Z -> Z -> Try (DirectoryData R))
  (matches : R -> bool) (limit requested : Z) (page : nat) :
  limit <= requested ->
  endsScan fetchPage matches requested page ->
  endsScan fetchPage matches limit page.
Proof. unfold endsScan. intros Hle [H|H]; [left; lia | now right]. Qed.

Lemma effectiveLimit_le_requested (args : ToolArguments) :
  effectiveLimit args <= limitOr (limit args) 10.
Proof. unfold effectiveLimit. lia. Qed.

(** C6: the stop search sends at most 5 page requests; they are the
    requests of the pages 1, 2, ... in order, each of 1000 records; and no
    page before the last requested one met a condition of the [break]: at
    each of them the accumulated matches were fewer than three times the
    limit and the page returned a full 1000 records.  So no request follows
    the first page at which one of the two conditions holds.  The limit of
    the scan is the tool's [limit], at most the requested one: the same
    holds of three times the limit as it was requested. *)
Theorem stop_scan_bounded (up : Upstream) (query : jsstring) (lim : Z) :
  let issued := fst (scanStops up query lim) in
  (List.length issued <= 5)%nat /\
  issued
  = map (fun k => pageRequest (Z.of_nat k)) (seq 1 (List.length issued)) /\
  Forall (fun r => snd r - fst r + 1 = 1000) issued /\
  (forall k, (1 <= k < List.length issued)%nat ->
     ~ endsScan (busStopLocationXyInfo up) (stopMatches query) lim k) /\
  (forall args k,
     lim = effectiveLimit args -> (1 <= k < List.length issued)%nat ->
     ~ endsScan (busStopLocationXyInfo up) (stopMatches query)
         (limitOr (limit args) 10) k).
Proof.
  intros issued.
  destruct (scanPages_issued (busStopLocationXyInfo up) (stopMatches query)
              lim 5 0 []) as (more & Hle & Hfst & Hnot).
  change (fst (scanStops up query lim)
          = map (fun k => pageRequest (Z.of_nat k)) (seq 1 more)) in Hfst.
  fold issued in Hfst.
  assert (Hlen : List.length issued = more)
    by (rewrite Hfst, length_map, length_seq; reflexivity).
  rewrite Hlen. split; [exact Hle|]. split; [exact Hfst|]. split; [|split].
  - rewrite Hfst. apply Forall_map, Forall_forall. intros k _.
    unfold pageRequest, pageSize. simpl. lia.
  - intros k [H1 H2]. apply Hnot; lia.
  - intros args k -> [H1 H2] Hends.
    apply (Hnot k); [lia | lia |].
    eapply endsScan_mono; [apply effectiveLimit_le_requested | exact Hends].
Qed.

(** The bike-station scan has the same shape with a bound of 3 pages. *)
Lemma bike_scan_bounded (toLowerCase : jsstring -> jsstring) (up : Upstream)
  (query : jsstring) (limit : Z) :
  let issued := fst (scanBikes toLowerCase up query limit) in
  (List.length issued <= 3)%nat /\
  issued
  = map (fun k => pageRequest (Z.of_nat k)) (seq 1 (List.length issued)).
Proof.
  intros issued.
  destruct (scanPages_issued (bikeList up) (bikeMatches toLowerCase query)
              limit 3 0 []) as (more & Hle & Hfst & _).
  change (fst (scanBikes toLowerCase up query limit)
          = map (fun k => pageRequest (Z.of_nat k)) (seq 1 more)) in Hfst.
  fold issued in Hfst.
  assert (Hlen : List.length issued = more)
    by (rewrite Hfst, length_map, length_seq; reflexivity).
  rewrite Hlen. split; [exact Hle | exact Hfst].
Qed.

Example stop_scan_of_full_pages :
  fst (scanStops fullPagesSnapshot (utf16 "강남") 10)
  = [(1, 1000); (1001, 2000); (2001, 3000); (3001, 4000); (4001, 5000)].
Proof. vm_compute. reflexivity. Qed.

Example stop_scan_of_dense_page :
  fst (scanStops fullPagesSnapshot (utf16 "시청") 10) = [(1, 1000)].
Proof. vm_compute. reflexivity. Qed.

Example stop_scan_of_short_page :
  fst (scanStops emptySnapshot (utf16 "강남") 10) = [(1, 1000)].
Proof. vm_compute. reflexivity. Qed.

(* ===================================================================== *)
(** ** Properties: the number of rendered results *)
(* ===================================================================== *)

Lemma slice_within_limit {A} (l : list A) (limit : Z) :
  0 <= limit -> len (slice l 0 limit) <= limit.
Proof. intros H. rewrite len_slice_from_start by assumption. lia. Qed.

(** C2 at the failing input: asked for one arrival, the subway-arrival tool
    renders both records of a feed that returns two. *)
Lemma subway_arrival_renders_beyond_limit :
  let args := withStation (utf16 "강남역") (Some 1) None in
  effectiveLimit args = 1 /\
  transitGetSubwayArrival railAndBikeSnapshot args
  = Resolved
      (utf16 "## 🚇 강남역 실시간 도착정보" ++ LF ++ LF
       ++ utf16 "> 총 2개의 열차 정보" ++ LF ++ LF
       ++ utf16 "### 1. 2호선 - 성수행" ++ LF
       ++ utf16 "- **도착**: 전역 도착" ++ LF
       ++ utf16 "- **방향**: ⬆️ 상행" ++ LF ++ LF
       ++ utf16 "### 2. 2호선 - 신도림행" ++ LF
       ++ utf16 "- **도착**: 3분 후" ++ LF
       ++ utf16 "- **방향**: ⬆️ 상행" ++ LF ++ LF) /\
  len (subwayArrivalRendered twoArrivals) = 2.
Proof. vm_compute. repeat split. Qed.

(* ===================================================================== *)
(** ** Properties: the combined query *)
(* ===================================================================== *)

Lemma settle_throw {R} (e : jsstring) : @settle R (Throw e) = [].
Proof. reflexivity. Qed.

Lemma settle_ok {R} (l : list R) : settle (Ok l) = l.
Proof. reflexivity. Qed.

Lemma settle_settled {R} (lookup : Try (list R)) :
  settle (Ok (settle lookup)) = settle lookup.
Proof. reflexivity. Qed.

Lemma slice_map {A B} (f : A -> B) (l : list A) (a b : Z) :
  slice (map f l) a b = map f (slice l a b).
Proof.
  unfold slice, len. rewrite length_map, skipn_map, firstn_map. reflexivity.
Qed.

Lemma readRecords_records {R} (property : jsstring) (records : list R) :
  readRecords property (map Some records) = Ok records.
Proof.
  induction records as [|r rest IH]; simpl; [reflexivity|].
  rewrite IH. reflexivity.
Qed.

Lemma readRecords_ok {R} (property : jsstring) (l : list (option R))
  (records : list R) :
  readRecords property l = Ok records -> l = map Some records.
Proof.
  revert records. induction l as [|[r|] rest IH]; simpl; intros records H.
  - injection H as <-. reflexivity.
  - destruct (readRecords property rest) as [rs|e]; simpl in H;
      [|discriminate].
    injection H as <-. simpl. f_equal. apply IH. reflexivity.
  - discriminate.
Qed.

Lemma readRecords_throw {R} (property : jsstring) (l : list (option R))
  (e : jsstring) :
  readRecords property l = Throw e -> e = nullProperty property /\ In None l.
Proof.
  induction l as [|[r|] rest IH]; simpl; intros H.
  - discriminate.
  - destruct (readRecords property rest) as [rs|e']; simpl in H;
      [discriminate|].
    injection H as <-. destruct (IH eq_refl) as [-> Hin]. auto.
  - injection H as <-. auto.
Qed.

Lemma combinedArrivalsRead_records (records : list SubwayArrival) :
  combinedArrivalsRead (map Some records) = Ok (slice records 0 5).
Proof.
  unfold combinedArrivalsRead. rewrite slice_map. apply readRecords_records.
Qed.

(** The combined query on lookups whose rail records can be read. *)
Lemma combineOutcomes_resolved (rawLocation format : jsstring)
  (subway : Try (list (option SubwayArrival)))
  (bus : Try (list BusStation)) (bike : Try (list BikeStation))
  (arrivals : list SubwayArrival) :
  combinedArrivalsRead (settle subway) = Ok arrivals ->
  combineOutcomes rawLocation format subway bus bike
  = Resolved
      (if streq format (utf16 "json") then
         stringify (combinedJson rawLocation (len (settle subway)) arrivals
                      (settle bus) (settle bike))
       else
         truncateResponse
           (combinedHeader rawLocation
            ++ combinedSubwaySection (len (settle subway)) arrivals
            ++ combinedBusSection (settle bus)
            ++ combinedBikeSection (settle bike))).
Proof.
  intros H. unfold combineOutcomes. rewrite H.
  destruct (streq format (utf16 "json")); [reflexivity|].
  unfold combinedMarkdown. rewrite <- !app_assoc. reflexivity.
Qed.

(** C3, as the code has it.  With a location the combined query is the
    combination of the outcomes of its three lookups.  A feed that throws
    makes its own lookup throw, a feed that answers gives its own lookup
    its records, and no feed changes the lookup of another source.  A
    lookup that throws counts as an empty result and a lookup that
    returns keeps its records; the response is the one of the settled
    results, so nothing in it tells a failure from an empty result.  The
    query resolves whenever the rail records it reads are records, which
    is the case when the rail lookup has failed.  The json form is the
    serialised object of the three results; the text form is the header
    followed by one section per source, the section of a source without
    result being its heading and fixed message and the section of any
    other source its heading and one entry per record, and the composed
    text goes through [truncateResponse], which returns it whole up to
    25000 code units.  With the stop directory down and the two other feeds
    answering, the rail and bike sections are filled and the bus section
    has its message. *)
Theorem combined_isolates_source_failure :
  (forall toLowerCase up args rawLocation,
     location args = Some (ArgString rawLocation) ->
     let name := normalizeStationName rawLocation in
     transitGetCombinedInfo toLowerCase up args
     = combineOutcomes rawLocation (formatOf args)
         (combinedSubwayLookup up name)
         (combinedBusLookup up name)
         (combinedBikeLookup toLowerCase up name)) /\
  (forall toLowerCase up name e,
     (realtimeStationArrival up 0 5 name = Throw e ->
      exists e', combinedSubwayLookup up name = Throw e') /\
     (busStopLocationXyInfo up 1 100 = Throw e ->
      combinedBusLookup up name = Throw e) /\
     (bikeList up 1 1000 = Throw e ->
      combinedBikeLookup toLowerCase up name = Throw e)) /\
  (forall toLowerCase up name,
     (forall data,
        isWellFormed name = true ->
        realtimeStationArrival up 0 5 name = Ok data ->
        combinedSubwayLookup up name = Ok (arrivalsOf data)) /\
     (forall data,
        busStopLocationXyInfo up 1 100 = Ok data ->
        combinedBusLookup up name
        = Ok (slice (filter (stopNameIncludes name) (rowsOf data)) 0 3)) /\
     (forall data,
        bikeList up 1 1000 = Ok data ->
        combinedBikeLookup toLowerCase up name
        = Ok (slice (filter (bikeMatches toLowerCase name) (rowsOf data))
                0 3))) /\
  (forall toLowerCase up name arrivalFeed stopFeed bikeFeed,
     combinedSubwayLookup (withBikeList bikeFeed
                             (withStopDirectory stopFeed up)) name
     = combinedSubwayLookup up name /\
     combinedBusLookup (withBikeList bikeFeed
                          (withArrivalFeed arrivalFeed up)) name
     = combinedBusLookup up name /\
     combinedBikeLookup toLowerCase
       (withStopDirectory stopFeed (withArrivalFeed arrivalFeed up)) name
     = combinedBikeLookup toLowerCase up name) /\
  (forall e,
     @settle (option SubwayArrival) (Throw e) = [] /\
     @settle BusStation (Throw e) = [] /\
     @settle BikeStation (Throw e) = []) /\
  (forall (arrivals : list (option SubwayArrival))
          (stops : list BusStation) (bikes : list BikeStation),
     settle (Ok arrivals) = arrivals /\
     settle (Ok stops) = stops /\
     settle (Ok bikes) = bikes) /\
  (forall rawLocation format subway bus bike,
     combineOutcomes rawLocation format subway bus bike
     = combineOutcomes rawLocation format
         (Ok (settle subway)) (Ok (settle bus)) (Ok (settle bike))) /\
  (forall e, combinedArrivalsRead (settle (Throw e)) = Ok []) /\
  (forall records,
     combinedArrivalsRead (map Some records) = Ok (slice records 0 5)) /\
  (forall rawLocation format subway bus bike arrivals,
     combinedArrivalsRead (settle subway) = Ok arrivals ->
     combineOutcomes rawLocation format subway bus bike
     = Resolved
         (if streq format (utf16 "json") then
            stringify (combinedJson rawLocation (len (settle subway))
                         arrivals (settle bus) (settle bike))
          else
            truncateResponse
              (combinedHeader rawLocation
               ++ combinedSubwaySection (len (settle subway)) arrivals
               ++ combinedBusSection (settle bus)
               ++ combinedBikeSection (settle bike)))) /\
  (forall rawLocation format subway bus bike arrivals,
     combinedArrivalsRead (settle subway) = Ok arrivals ->
     streq format (utf16 "json") = false ->
     let text := combinedHeader rawLocation
                 ++ combinedSubwaySection (len (settle subway)) arrivals
                 ++ combinedBusSection (settle bus)
                 ++ combinedBikeSection (settle bike) in
     len text <= CHARACTER_LIMIT ->
     combineOutcomes rawLocation format subway bus bike = Resolved text) /\
  combinedSubwaySection 0 []
  = utf16 "## 🚇 지하철 도착정보" ++ LF ++ LF
    ++ utf16 "주변 지하철역 정보가 없습니다." ++ LF ++ LF /\
  combinedBusSection []
  = utf16 "## 🚌 버스 정류장" ++ LF ++ LF
    ++ utf16 "주변 버스 정류장 정보가 없습니다." ++ LF ++ LF /\
  combinedBikeSection []
  = utf16 "## 🚲 따릉이 대여소" ++ LF ++ LF
    ++ utf16 "주변 따릉이 대여소 정보가 없습니다." ++ LF /\
  (forall count arrivals,
     count <> 0 ->
     combinedSubwaySection count arrivals
     = utf16 "## 🚇 지하철 도착정보" ++ LF ++ LF
       ++ forEachAppend combinedSubwayEntry arrivals 0 ++ LF) /\
  (forall stations,
     stations <> [] ->
     combinedBusSection stations
     = utf16 "## 🚌 버스 정류장" ++ LF ++ LF
       ++ forEachAppend combinedBusEntry stations 0 ++ LF) /\
  (forall stations,
     stations <> [] ->
     combinedBikeSection stations
     = utf16 "## 🚲 따릉이 대여소" ++ LF ++ LF
       ++ forEachAppend combinedBikeEntry stations 0) /\
  (forall rawLocation,
     combinedJson rawLocation 0 [] [] []
     = JObject
         [(utf16 "location", Some (JString rawLocation));
          (utf16 "subway", Some (JObject
             [(utf16 "count", Some (JNumber 0));
              (utf16 "arrivals", Some (JArray []))]));
          (utf16 "bus", Some (JObject
             [(utf16 "count", Some (JNumber 0));
              (utf16 "stations", Some (JArray []))]));
          (utf16 "bike", Some (JObject
             [(utf16 "count", Some (JNumber 0));
              (utf16 "stations", Some (JArray []))]))]) /\
  transitGetCombinedInfo latinToLowerCase railAndBikeSnapshot
    (withLocation (utf16 "강남역") None)
  = Resolved
      (utf16 "# 📍 강남역 주변 교통정보" ++ LF ++ LF
       ++ utf16 "## 🚇 지하철 도착정보" ++ LF ++ LF
       ++ utf16 "- **2호선** 성수행: 전역 도착" ++ LF
       ++ utf16 "- **2호선** 신도림행: 3분 후" ++ LF ++ LF
       ++ utf16 "## 🚌 버스 정류장" ++ LF ++ LF
       ++ utf16 "주변 버스 정류장 정보가 없습니다." ++ LF ++ LF
       ++ utf16 "## 🚲 따릉이 대여소" ++ LF ++ LF
       ++ utf16 "- **강남역 1번출구**: 🟡 7대 이용가능" ++ LF) /\
  transitGetCombinedInfo latinToLowerCase railAndBikeSnapshot
    (withLocation (utf16 "강남역") (Some (utf16 "json")))
  = Resolved (stringify (JObject
      [(utf16 "location", Some (JString (utf16 "강남역")));
       (utf16 "subway", Some (JObject
          [(utf16 "count", Some (JNumber 2));
           (utf16 "arrivals", Some (JArray
              [JObject
                 [(utf16 "line", Some (JString (utf16 "2호선")));
                  (utf16 "destination", Some (JString (utf16 "성수")));
                  (utf16 "message", Some (JString (utf16 "전역 도착")))];
               JObject
                 [(utf16 "line", Some (JString (utf16 "2호선")));
                  (utf16 "destination", Some (JString (utf16 "신도림")));
                  (utf16 "message", Some (JString (utf16 "3분 후")))]]))]));
       (utf16 "bus", Some (JObject
          [(utf16 "count", Some (JNumber 0));
           (utf16 "stations", Some (JArray []))]));
       (utf16 "bike", Some (JObject
          [(utf16 "count", Some (JNumber 1));
           (utf16 "stations", Some (JArray
              [JObject
                 [(utf16 "name",
                   Some (JString (utf16 "강남역 1번출구")));
                  (utf16 "available", Some (JNumber 7));
                  (utf16 "total", Some (JNumber 20))]]))]))])).
Proof.
  split.
  { intros toLowerCase up args rawLocation H name.
    unfold transitGetCombinedInfo. rewrite H. reflexivity. }
  split.
  { intros toLowerCase up name e. split; [|split].
    - intros H. unfold combinedSubwayLookup, encodeURIComponent.
      destruct (isWellFormed name); unfold bind; [rewrite H|];
        eexists; reflexivity.
    - intros H. unfold combinedBusLookup. rewrite H. reflexivity.
    - intros H. unfold combinedBikeLookup. rewrite H. reflexivity. }
  split.
  { intros toLowerCase up name. split; [|split].
    - intros data Hw H. unfold combinedSubwayLookup, encodeURIComponent.
      rewrite Hw. unfold bind. rewrite H. reflexivity.
    - intros data H. unfold combinedBusLookup. rewrite H. reflexivity.
    - intros data H. unfold combinedBikeLookup. rewrite H. reflexivity. }
  split; [intros; repeat split|].
  split; [intros; repeat split|].
  split; [intros; repeat split|].
  split; [reflexivity|].
  split; [reflexivity|].
  split; [apply combinedArrivalsRead_records|].
  split; [apply combineOutcomes_resolved|].
  split.
  { intros rawLocation format subway bus bike arrivals Hr Hf text Hlen.
    rewrite (combineOutcomes_resolved _ _ _ _ _ _ Hr), Hf.
    f_equal. apply truncateResponse_short. exact Hlen. }
  do 3 (split; [reflexivity|]).
  split.
  { intros count arrivals H. unfold combinedSubwaySection.
    destruct (count =? 0) eqn:E; [apply Z.eqb_eq in E; contradiction|].
    reflexivity. }
  split.
  { intros stations H. unfold combinedBusSection.
    destruct (len stations =? 0) eqn:E;
      [apply Z.eqb_eq, len_nil_iff in E; contradiction|].
    reflexivity. }
  split.
  { intros stations H. unfold combinedBikeSection.
    destruct (len stations =? 0) eqn:E;
      [apply Z.eqb_eq, len_nil_iff in E; contradiction|].
    reflexivity. }
  split; [reflexivity|].
  split; vm_compute; reflexivity.
Qed.

Lemma combined_isolates_source_failure_witness :
  transitGetCombinedInfo latinToLowerCase downSnapshot
    (withLocation (utf16 "강남역") None)
  = combineOutcomes (utf16 "강남역") (utf16 "markdown")
      (combinedSubwayLookup downSnapshot (utf16 "강남"))
      (combinedBusLookup downSnapshot (utf16 "강남"))
      (combinedBikeLookup latinToLowerCase downSnapshot (utf16 "강남")).
Proof.
  apply (proj1 combined_isolates_source_failure). reflexivity.
Defined.

(** C3 as stated fails on a long location: with every feed down and a
    location of 25000 code units the text form has 24930 code units and
    holds none of the three fixed messages, the composed text being cut
    inside its header. *)
Lemma combined_sections_cut_for_long_location :
  formatOf (withLocation longQuery None) = utf16 "markdown" /\
  option_map
    (fun body =>
       (len body,
        includes body (utf16 "주변 지하철역 정보가 없습니다."),
        includes body (utf16 "주변 버스 정류장 정보가 없습니다."),
        includes body (utf16 "주변 따릉이 대여소 정보가 없습니다.")))
    (resolvedText
       (transitGetCombinedInfo latinToLowerCase downSnapshot
          (withLocation longQuery None)))
  = Some (24930, false, false, false).
Proof. split; [reflexivity | vm_compute; reflexivity]. Qed.

(** A failing stop directory and an empty one give the same response, in
    both forms. *)
Lemma combined_failure_is_silent (toLowerCase : jsstring -> jsstring)
  (up : Upstream) (args : ToolArguments) (e : jsstring) :
  transitGetCombinedInfo toLowerCase
    (withStopDirectory (fun _ _ => Throw e) up) args
  = transitGetCombinedInfo toLowerCase
      (withStopDirectory (fun _ _ => Ok {| row := Some [] |}) up) args.
Proof. reflexivity. Qed.

(* ===================================================================== *)
(** ** Properties: what a tool returns *)
(* ===================================================================== *)

(** A tool whose lookup returned answers with its response on the result
    of the lookup, and a tool whose lookup threw with its failure text. *)
Lemma subway_arrival_listed (up : Upstream) (args : ToolArguments)
  (name : jsstring) (records : list SubwayArrival) :
  station_name args = Some (ArgString name) ->
  subwayArrivalLookup up (effectiveLimit args) (normalizeStationName name)
  = Ok (map Some records) ->
  transitGetSubwayArrival up args
  = Resolved (subwayArrivalResponse (normalizeStationName name)
                (formatOf args) records).
Proof.
  intros Hn H. unfold transitGetSubwayArrival. rewrite Hn, H.
  unfold bind, subwayArrivalRender. rewrite readRecords_records.
  reflexivity.
Qed.

Lemma subway_arrival_failed (up : Upstream) (args : ToolArguments)
  (name e : jsstring) :
  station_name args = Some (ArgString name) ->
  subwayArrivalLookup up (effectiveLimit args) (normalizeStationName name)
  = Throw e ->
  transitGetSubwayArrival up args
  = Resolved (utf16 "❌ 지하철 정보 조회 실패: " ++ e).
Proof.
  intros Hn H. unfold transitGetSubwayArrival. rewrite Hn, H. reflexivity.
Qed.

Lemma bus_arrival_listed (up : Upstream) (args : ToolArguments)
  (arrivals : list BusArrival) :
  busArrivalLookup up (ars_id args) = Ok arrivals ->
  transitGetBusArrival up args
  = Resolved (busArrivalResponse (ars_id args) (effectiveLimit args)
                (formatOf args) arrivals).
Proof. intros H. unfold transitGetBusArrival. rewrite H. reflexivity. Qed.

Lemma bus_arrival_failed (up : Upstream) (args : ToolArguments)
  (e : jsstring) :
  busArrivalLookup up (ars_id args) = Throw e ->
  transitGetBusArrival up args
  = Resolved (utf16 "❌ 버스 도착정보 조회 실패: " ++ e ++ LF ++ LF
              ++ utf16 "💡 정류장 번호가 올바른지 확인해 주세요.").
Proof. intros H. unfold transitGetBusArrival. rewrite H. reflexivity. Qed.

Lemma stop_search_listed (up : Upstream) (args : ToolArguments)
  (q : jsstring) (results : list BusStation) :
  query args = Some (ArgString q) ->
  snd (scanStops up (trim q) (effectiveLimit args)) = Ok results ->
  transitSearchBusStation up args
  = Resolved (searchBusStationResponse (trim q) (effectiveLimit args)
                (formatOf args) results).
Proof.
  intros Hq H. unfold transitSearchBusStation. rewrite Hq, H. reflexivity.
Qed.

Lemma stop_search_failed (up : Upstream) (args : ToolArguments)
  (q e : jsstring) :
  query args = Some (ArgString q) ->
  snd (scanStops up (trim q) (effectiveLimit args)) = Throw e ->
  transitSearchBusStation up args
  = Resolved (utf16 "❌ 정류장 검색 실패: " ++ e).
Proof.
  intros Hq H. unfold transitSearchBusStation. rewrite Hq, H. reflexivity.
Qed.

Lemma bike_search_listed (toLowerCase : jsstring -> jsstring)
  (up : Upstream) (args : ToolArguments) (q : jsstring)
  (results : list BikeStation) :
  query args = Some (ArgString q) ->
  snd (scanBikes toLowerCase up (trim q) (effectiveLimit args)) = Ok results ->
  transitGetBikeStation toLowerCase up args
  = Resolved (bikeStationResponse (trim q) (effectiveLimit args)
                (formatOf args) results).
Proof.
  intros Hq H. unfold transitGetBikeStation. rewrite Hq, H. reflexivity.
Qed.

Lemma bike_search_failed (toLowerCase : jsstring -> jsstring)
  (up : Upstream) (args : ToolArguments) (q e : jsstring) :
  query args = Some (ArgString q) ->
  snd (scanBikes toLowerCase up (trim q) (effectiveLimit args)) = Throw e ->
  transitGetBikeStation toLowerCase up args
  = Resolved (utf16 "❌ 따릉이 대여소 검색 실패: " ++ e).
Proof.
  intros Hq H. unfold transitGetBikeStation. rewrite Hq, H. reflexivity.
Qed.

(** The rail-status tool in its text form. *)
Lemma subway_status_text (args : ToolArguments) :
  streq (formatOf args) (utf16 "json") = false ->
  transitGetSubwayStatus args
  = Resolved
      (utf16 "## 🚇 지하철 운행상태 ("
       ++ match line args with
          | None => utf16 "전체 호선"
          | Some [] => utf16 "전체 호선"
          | Some l => l ++ utf16 "호선"
          end
       ++ utf16 ")" ++ LF ++ LF
       ++ utf16 "✅ 정상 운행 중" ++ LF ++ LF
       ++ utf16 "※ 실시간 운행장애 정보는 서울교통공사 공지사항을 확인해주세요.").
Proof.
  intros Hf. unfold transitGetSubwayStatus. rewrite Hf.
  destruct (line args) as [[|c l]|]; reflexivity.
Qed.

(* ===================================================================== *)
(** ** Properties: the size of a response *)
(* ===================================================================== *)

(** C5, as the code has it.  A tool whose lookup returned answers with its
    response on the result of the lookup.  The text form of a result
    listing (arrivals, stops, bike stations) and every text form of the
    combined query is passed through [truncateResponse] and has at most
    25000 code units; every json form is the serialised object as
    composed, never truncated.  The text of an empty result, of a failure
    and of the rail status is returned as composed, whatever its length. *)
Theorem text_listing_bounded_json_untruncated :
  (forall up args name records,
     station_name args = Some (ArgString name) ->
     subwayArrivalLookup up (effectiveLimit args)
       (normalizeStationName name) = Ok (map Some records) ->
     transitGetSubwayArrival up args
     = Resolved (subwayArrivalResponse (normalizeStationName name)
                   (formatOf args) records)) /\
  (forall up args arrivals,
     busArrivalLookup up (ars_id args) = Ok arrivals ->
     transitGetBusArrival up args
     = Resolved (busArrivalResponse (ars_id args) (effectiveLimit args)
                   (formatOf args) arrivals)) /\
  (forall up args q results,
     query args = Some (ArgString q) ->
     snd (scanStops up (trim q) (effectiveLimit args)) = Ok results ->
     transitSearchBusStation up args
     = Resolved (searchBusStationResponse (trim q) (effectiveLimit args)
                   (formatOf args) results)) /\
  (forall toLowerCase up args q results,
     query args = Some (ArgString q) ->
     snd (scanBikes toLowerCase up (trim q) (effectiveLimit args))
     = Ok results ->
     transitGetBikeStation toLowerCase up args
     = Resolved (bikeStationResponse (trim q) (effectiveLimit args)
                   (formatOf args) results)) /\
  (forall stationName format arrivals,
     streq format (utf16 "json") = false -> arrivals <> [] ->
     subwayArrivalResponse stationName format arrivals
     = truncateResponse (subwayArrivalMarkdown stationName arrivals) /\
     len (subwayArrivalResponse stationName format arrivals)
     <= CHARACTER_LIMIT) /\
  (forall arsId limit format arrivals,
     streq format (utf16 "json") = false -> arrivals <> [] ->
     busArrivalResponse arsId limit format arrivals
     = truncateResponse (busArrivalMarkdown arsId limit arrivals) /\
     len (busArrivalResponse arsId limit format arrivals)
     <= CHARACTER_LIMIT) /\
  (forall query limit format results,
     streq format (utf16 "json") = false ->
     searchBusStationRendered query limit results <> [] ->
     searchBusStationResponse query limit format results
     = truncateResponse
         (searchBusStationMarkdown query
            (searchBusStationRendered query limit results)) /\
     len (searchBusStationResponse query limit format results)
     <= CHARACTER_LIMIT) /\
  (forall query limit format results,
     streq format (utf16 "json") = false ->
     bikeStationRendered limit results <> [] ->
     bikeStationResponse query limit format results
     = truncateResponse
         (bikeStationMarkdown query (bikeStationRendered limit results)) /\
     len (bikeStationResponse query limit format results)
     <= CHARACTER_LIMIT) /\
  (forall rawLocation format subway bus bike body,
     streq format (utf16 "json") = false ->
     combineOutcomes rawLocation format subway bus bike = Resolved body ->
     len body <= CHARACTER_LIMIT) /\
  (forall stationName arrivals,
     subwayArrivalResponse stationName (utf16 "json") arrivals
     = stringify (subwayArrivalJson stationName arrivals)) /\
  (forall arsId limit arrivals,
     busArrivalResponse arsId limit (utf16 "json") arrivals
     = stringify (busArrivalJson arsId limit arrivals)) /\
  (forall query limit results,
     searchBusStationResponse query limit (utf16 "json") results
     = stringify (searchBusStationJson query
                    (searchBusStationRendered query limit results))) /\
  (forall query limit results,
     bikeStationResponse query limit (utf16 "json") results
     = stringify (bikeStationJson query
                    (bikeStationRendered limit results))) /\
  (forall rawLocation subway bus bike arrivals,
     combinedArrivalsRead (settle subway) = Ok arrivals ->
     combineOutcomes rawLocation (utf16 "json") subway bus bike
     = Resolved (stringify (combinedJson rawLocation (len (settle subway))
                              arrivals (settle bus) (settle bike)))) /\
  (forall args,
     streq (formatOf args) (utf16 "json") = true ->
     exists title,
       transitGetSubwayStatus args
       = Resolved (stringify (subwayStatusJson title))) /\
  (forall stationName format,
     streq format (utf16 "json") = false ->
     subwayArrivalResponse stationName format []
     = utf16 "## 🚇 " ++ stationName ++ utf16 "역 도착정보" ++ LF ++ LF
       ++ utf16 "현재 도착 예정 열차가 없습니다.") /\
  (forall arsId limit format,
     streq format (utf16 "json") = false ->
     busArrivalResponse arsId limit format []
     = utf16 "## 🚌 버스 도착정보 (정류장: " ++ interpolate arsId
       ++ utf16 ")" ++ LF ++ LF
       ++ utf16 "현재 도착 예정 버스가 없습니다.") /\
  (forall query limit format results,
     streq format (utf16 "json") = false ->
     searchBusStationRendered query limit results = [] ->
     searchBusStationResponse query limit format results
     = utf16 "## 🔍 버스 정류장 검색: " ++ DQUOTE ++ query ++ DQUOTE
       ++ LF ++ LF ++ utf16 "검색 결과가 없습니다.") /\
  (forall query limit format results,
     streq format (utf16 "json") = false ->
     bikeStationRendered limit results = [] ->
     bikeStationResponse query limit format results
     = utf16 "## 🚲 따릉이 대여소 검색: " ++ DQUOTE ++ query ++ DQUOTE
       ++ LF ++ LF ++ utf16 "검색 결과가 없습니다.") /\
  (forall up args name e,
     station_name args = Some (ArgString name) ->
     subwayArrivalLookup up (effectiveLimit args)
       (normalizeStationName name) = Throw e ->
     transitGetSubwayArrival up args
     = Resolved (utf16 "❌ 지하철 정보 조회 실패: " ++ e)) /\
  (forall up args e,
     busArrivalLookup up (ars_id args) = Throw e ->
     transitGetBusArrival up args
     = Resolved (utf16 "❌ 버스 도착정보 조회 실패: " ++ e ++ LF ++ LF
                 ++ utf16 "💡 정류장 번호가 올바른지 확인해 주세요.")) /\
  (forall up args q e,
     query args = Some (ArgString q) ->
     snd (scanStops up (trim q) (effectiveLimit args)) = Throw e ->
     transitSearchBusStation up args
     = Resolved (utf16 "❌ 정류장 검색 실패: " ++ e)) /\
  (forall toLowerCase up args q e,
     query args = Some (ArgString q) ->
     snd (scanBikes toLowerCase up (trim q) (effectiveLimit args))
     = Throw e ->
     transitGetBikeStation toLowerCase up args
     = Resolved (utf16 "❌ 따릉이 대여소 검색 실패: " ++ e)) /\
  (forall args,
     streq (formatOf args) (utf16 "json") = false ->
     transitGetSubwayStatus args
     = Resolved
         (utf16 "## 🚇 지하철 운행상태 ("
          ++ match line args with
             | None => utf16 "전체 호선"
             | Some [] => utf16 "전체 호선"
             | Some l => l ++ utf16 "호선"
             end
          ++ utf16 ")" ++ LF ++ LF
          ++ utf16 "✅ 정상 운행 중" ++ LF ++ LF
          ++ utf16
               "※ 실시간 운행장애 정보는 서울교통공사 공지사항을 확인해주세요.")).
Proof.
  split; [exact subway_arrival_listed|].
  split; [exact bus_arrival_listed|].
  split; [exact stop_search_listed|].
  split; [exact bike_search_listed|].
  split.
  { intros stationName format arrivals Hf Hne.
    unfold subwayArrivalResponse. rewrite Hf.
    destruct (len arrivals =? 0) eqn:E;
      [apply Z.eqb_eq, len_nil_iff in E; contradiction|].
    split; [reflexivity | apply truncateResponse_bounded]. }
  split.
  { intros arsId limit format arrivals Hf Hne.
    unfold busArrivalResponse. rewrite Hf.
    destruct (len arrivals =? 0) eqn:E;
      [apply Z.eqb_eq, len_nil_iff in E; contradiction|].
    split; [reflexivity | apply truncateResponse_bounded]. }
  split.
  { intros query limit format results Hf Hne.
    unfold searchBusStationResponse. rewrite Hf.
    destruct (len (searchBusStationRendered query limit results) =? 0)
      eqn:E; [apply Z.eqb_eq, len_nil_iff in E; contradiction|].
    split; [reflexivity | apply truncateResponse_bounded]. }
  split.
  { intros query limit format results Hf Hne.
    unfold bikeStationResponse. rewrite Hf.
    destruct (len (bikeStationRendered limit results) =? 0)
      eqn:E; [apply Z.eqb_eq, len_nil_iff in E; contradiction|].
    split; [reflexivity | apply truncateResponse_bounded]. }
  split.
  { intros rawLocation format subway bus bike body Hf H.
    unfold combineOutcomes in H. rewrite Hf in H.
    destruct (combinedArrivalsRead (settle subway)); [|discriminate].
    injection H as <-. apply truncateResponse_bounded. }
  do 4 (split; [reflexivity|]).
  split.
  { intros rawLocation subway bus bike arrivals H.
    rewrite (combineOutcomes_resolved _ _ _ _ _ _ H). reflexivity. }
  split.
  { intros args Hf. unfold transitGetSubwayStatus. rewrite Hf. eauto. }
  split.
  { intros stationName format Hf. unfold subwayArrivalResponse.
    rewrite Hf. reflexivity. }
  split.
  { intros arsId limit format Hf. unfold busArrivalResponse.
    rewrite Hf. reflexivity. }
  split.
  { intros query limit format results Hf He.
    unfold searchBusStationResponse. rewrite Hf, He. reflexivity. }
  split.
  { intros query limit format results Hf He.
    unfold bikeStationResponse. rewrite Hf, He. reflexivity. }
  split; [exact subway_arrival_failed|].
  split; [exact bus_arrival_failed|].
  split; [exact stop_search_failed|].
  split; [exact bike_search_failed|].
  exact subway_status_text.
Qed.

Lemma text_listing_bounded_json_untruncated_witness :
  subwayArrivalResponse (utf16 "강남") (utf16 "markdown") twoArrivals
  = truncateResponse (subwayArrivalMarkdown (utf16 "강남") twoArrivals) /\
  len (subwayArrivalResponse (utf16 "강남") (utf16 "markdown") twoArrivals)
  <= CHARACTER_LIMIT.
Proof.
  apply (proj1 (proj2 (proj2 (proj2 (proj2
           text_listing_bounded_json_untruncated)))));
    [reflexivity | discriminate].
Defined.

(** C5 as stated fails on the text of an empty result: the stop search
    answers a query of 25000 code units without a match with a text of
    25033 code units. *)
Lemma empty_result_text_exceeds_limit :
  formatOf (withQuery longQuery None None) = utf16 "markdown" /\
  option_map len
    (resolvedText
       (transitSearchBusStation emptySnapshot (withQuery longQuery None None)))
  = Some 25033 /\
  CHARACTER_LIMIT < 25033.
Proof.
  split; [reflexivity|]. split; [vm_compute; reflexivity | reflexivity].
Qed.

(** The text of a failure and of the rail status are not cut either. *)
Example failure_and_status_text_not_cut :
  option_map len
    (resolvedText
       (transitGetSubwayStatus
          {| station_name := None; line := Some longQuery; ars_id := None;
             query := None; location := None; limit := None;
             response_format := None |}))
  = Some 25067 /\
  option_map len
    (resolvedText
       (transitGetBusArrival
          {| realtimeStationArrival := fun _ _ _ => unavailable;
             getStationByUid := fun _ => Throw longQuery;
             busStopLocationXyInfo := fun _ _ => unavailable;
             bikeList := fun _ _ => unavailable |}
          noArguments))
  = Some 25043.
Proof. split; vm_compute; reflexivity. Qed.

(** A json form longer than the limit is returned whole. *)
Example long_json_returned_whole :
  option_map len
    (resolvedText
       (transitSearchBusStation emptySnapshot
          (withQuery longQuery None (Some (utf16 "json")))))
  = Some 25049.
Proof. vm_compute. reflexivity. Qed.

(* ===================================================================== *)
(** ** Further properties: the outcome of a scan *)
(* ===================================================================== *)

Section ScanOutcome.
Context {R : Type} (fetchPage : Z -> Z -> Try (DirectoryData R))
        (matches : R -> bool) (limit : Z).

(** A scan that resumes after [page] pages requests [more] consecutive
    pages, at least one if it may.  It returns the matches of all the pages
    up to the last requested one when every request was answered, and
    throws what the last request threw otherwise; the pages before the
    last one were answered and met no condition of the [break]. *)
Lemma scanPages_outcome (remaining : nat) :
  forall (page : nat) (issued : list (Z * Z)),
  exists more : nat,
    (more <= remaining)%nat /\ (remaining = 0%nat \/ 1 <= more)%nat /\
    fst (scanPages fetchPage matches limit remaining (Z.of_nat (S page))
           issued (matchesThrough fetchPage matches page))
    = issued ++ map (fun k => pageRequest (Z.of_nat k)) (seq (S page) more) /\
    (forall k, (S page <= k)%nat -> (S k < S page + more)%nat ->
       (exists data, fetchOf fetchPage k = Ok data) /\
       ~ endsScan fetchPage matches limit k) /\
    match snd (scanPages fetchPage matches limit remaining
                 (Z.of_nat (S page)) issued
                 (matchesThrough fetchPage matches page)) with
    | Ok results =>
      results = matchesThrough fetchPage matches (page + more) /\
      (more = 0%nat \/ exists data,
         fetchOf fetchPage (page + more) = Ok data) /\
      (more = remaining \/ endsScan fetchPage matches limit (page + more))
    | Throw e => fetchOf fetchPage (page + more) = Throw e
    end.
Proof.
  induction remaining as [|remaining IH]; intros page issued.
  - exists 0%nat. cbn [scanPages fst snd seq map]. rewrite app_nil_r.
    replace (page + 0)%nat with page by lia.
    split; [lia|]. split; [now left|]. split; [reflexivity|].
    split; [intros k H1 H2; lia|].
    split; [reflexivity|]. split; now left.
  - cbn [scanPages].
    change ((Z.of_nat (S page) - 1) * pageSize + 1)
      with (fst (pageRequest (Z.of_nat (S page)))).
    change (Z.of_nat (S page) * pageSize)
      with (snd (pageRequest (Z.of_nat (S page)))).
    assert (Hrows : pageRowsOf fetchPage (S page)
                    = match fetchOf fetchPage (S page)
                      with Ok data => rowsOf data | Throw _ => [] end)
      by reflexivity.
    assert (Hfetch : fetchOf fetchPage (S page)
                     = fetchPage (fst (pageRequest (Z.of_nat (S page))))
                                 (snd (pageRequest (Z.of_nat (S page)))))
      by reflexivity.
    destruct (fetchPage (fst (pageRequest (Z.of_nat (S page))))
                        (snd (pageRequest (Z.of_nat (S page)))))
      as [data|e] eqn:Efetch.
    + rewrite Hfetch in Hrows. rewrite <- Hrows.
      change (matchesThrough fetchPage matches page
                ++ filter matches (pageRowsOf fetchPage (S page)))
        with (matchesThrough fetchPage matches (S page)).
      destruct ((len (matchesThrough fetchPage matches (S page)) >=? limit * 3)
                || (len (pageRowsOf fetchPage (S page)) <? pageSize)) eqn:Estop.
      * exists 1%nat. cbn [fst snd seq map]. replace (page + 1)%nat with (S page) by lia.
        split; [lia|]. split; [lia|]. split; [reflexivity|].
        split; [intros k H1 H2; lia|].
        split; [reflexivity|]. split; [right; eauto|]. right.
        apply orb_true_iff in Estop. unfold endsScan.
        destruct Estop as [E|E]; [left|right].
        -- rewrite Z.geb_leb in E. apply Z.leb_le in E. lia.
        -- now apply Z.ltb_lt in E.
      * replace (Z.of_nat (S page) + 1) with (Z.of_nat (S (S page))) by lia.
        destruct (IH (S page)
                    (issued ++ [(fst (pageRequest (Z.of_nat (S page))),
                                 snd (pageRequest (Z.of_nat (S page))))]))
          as (more & Hle & Hone & Hfst & Hnot & Hsnd).
        exists (S more). split; [lia|]. split; [lia|]. split.
        { rewrite Hfst. rewrite <- app_assoc. reflexivity. }
        split.
        { intros k H1 H2.
          destruct (Nat.eq_dec k (S page)) as [->|Hk].
          - split; [eauto|].
            apply orb_false_iff in Estop. destruct Estop as [E1 E2].
            unfold endsScan. rewrite Z.geb_leb in E1.
            apply Z.leb_gt in E1. apply Z.ltb_ge in E2. lia.
          - apply Hnot; lia. }
        replace (page + S more)%nat with (S page + more)%nat by lia.
        destruct (snd (scanPages fetchPage matches limit remaining
                         (Z.of_nat (S (S page))) _ _)) as [results|e].
        -- destruct Hsnd as (Hres & Hok & Hend).
           split; [exact Hres|]. split.
           ++ right. destruct Hok as [->|Hok]; [|exact Hok].
              rewrite Nat.add_0_r. eauto.
           ++ destruct Hend as [->|Hend]; [now left | now right].
        -- exact Hsnd.
    + exists 1%nat. cbn [fst snd seq map]. replace (page + 1)%nat with (S page) by lia.
      split; [lia|]. split; [lia|]. split; [reflexivity|].
      split; [intros k H1 H2; lia|]. exact Hfetch.
Qed.

Lemma matchesThrough_all (page : nat) :
  Forall (fun r => matches r = true) (matchesThrough fetchPage matches page).
Proof.
  induction page as [|page IH]; cbn [matchesThrough]; [constructor|].
  apply Forall_app. split; [exact IH|].
  apply Forall_forall. intros r Hr. now apply filter_In in Hr.
Qed.
End ScanOutcome.

(** The same, for a scan from its first page. *)
Lemma scan_from_start {R} (fetchPage : Z -> Z -> Try (DirectoryData R))
  (matches : R -> bool) (limit : Z) (remaining : nat) :
  let scan := scanPages fetchPage matches limit remaining 1 [] [] in
  let n := List.length (fst scan) in
  (n <= remaining)%nat /\ (remaining = 0%nat \/ 1 <= n)%nat /\
  fst scan = map (fun k => pageRequest (Z.of_nat k)) (seq 1 n) /\
  (forall k, (1 <= k < n)%nat ->
     (exists data, fetchOf fetchPage k = Ok data) /\
     ~ endsScan fetchPage matches limit k) /\
  match snd scan with
  | Ok results =>
    results = matchesThrough fetchPage matches n /\
    (n = 0%nat \/ exists data, fetchOf fetchPage n = Ok data) /\
    (n = remaining \/ endsScan fetchPage matches limit n)
  | Throw e => fetchOf fetchPage n = Throw e
  end.
Proof.
  intros scan n.
  destruct (scanPages_outcome fetchPage matches limit remaining 0 [])
    as (more & Hle & Hone & Hfst & Hnot & Hsnd).
  change (fst scan = map (fun k => pageRequest (Z.of_nat k)) (seq 1 more))
    in Hfst.
  assert (Hn : n = more)
    by (unfold n; rewrite Hfst, length_map, length_seq; reflexivity).
  rewrite Hn. split; [exact Hle|]. split; [exact Hone|].
  split; [exact Hfst|]. split.
  - intros k [H1 H2]. apply Hnot; lia.
  - exact Hsnd.
Qed.

(** When the scan of the stop search ends normally, its results are the
    matches of all the requested pages, in scan order; every one of them
    matches the query, every requested page was answered, and the scan
    ended by its bound of 5 pages or by a condition of the [break].  When
    it throws, it throws what the last requested page threw, and the
    matches of the earlier pages are lost. *)
Theorem stop_scan_result (up : Upstream) (query : jsstring) (lim : Z) :
  let issued := fst (scanStops up query lim) in
  let n := List.length issued in
  (1 <= n)%nat /\
  match snd (scanStops up query lim) with
  | Ok results =>
    results
    = matchesThrough (busStopLocationXyInfo up) (stopMatches query) n /\
    Forall (fun s => stopMatches query s = true) results /\
    (forall k, (1 <= k <= n)%nat ->
       exists data, fetchOf (busStopLocationXyInfo up) k = Ok data) /\
    (n = 5%nat
     \/ endsScan (busStopLocationXyInfo up) (stopMatches query) lim n)
  | Throw e =>
    fetchOf (busStopLocationXyInfo up) n = Throw e /\
    forall k, (1 <= k < n)%nat ->
      exists data, fetchOf (busStopLocationXyInfo up) k = Ok data
  end.
Proof.
  intros issued n. subst n issued. unfold scanStops.
  destruct (scan_from_start (busStopLocationXyInfo up) (stopMatches query)
              lim 5) as (Hle & Hone & Hfst & Hnot & Hsnd).
  set (scan := scanPages (busStopLocationXyInfo up) (stopMatches query)
                 lim 5 1 [] []) in *.
  set (n := List.length (fst scan)) in *.
  split; [destruct Hone; [discriminate | assumption]|].
  destruct (snd scan) as [results|e].
  - destruct Hsnd as (-> & Hok & Hend).
    split; [reflexivity|]. split; [apply matchesThrough_all|]. split.
    + intros k [H1 H2]. destruct (Nat.eq_dec k n) as [->|Hk].
      * destruct Hok as [H0|Hok]; [lia | exact Hok].
      * apply Hnot. lia.
    + exact Hend.
  - split; [exact Hsnd|]. intros k Hk. now apply Hnot.
Qed.

(** The scan of the bike-station search sends between 1 and 3 requests,
    for the pages 1, 2, ... in order, none after a page that met a
    condition of the [break]; its results are the matches of the requested
    pages in scan order, or it throws what the last requested page
    threw. *)
Theorem bike_scan_requests_and_result (toLowerCase : jsstring -> jsstring)
  (up : Upstream) (query : jsstring) (lim : Z) :
  let issued := fst (scanBikes toLowerCase up query lim) in
  let n := List.length issued in
  (1 <= n <= 3)%nat /\
  issued = map (fun k => pageRequest (Z.of_nat k)) (seq 1 n) /\
  (forall k, (1 <= k < n)%nat ->
     ~ endsScan (bikeList up) (bikeMatches toLowerCase query) lim k) /\
  match snd (scanBikes toLowerCase up query lim) with
  | Ok results =>
    results = matchesThrough (bikeList up) (bikeMatches toLowerCase query) n /\
    Forall (fun s => bikeMatches toLowerCase query s = true) results /\
    (n = 3%nat
     \/ endsScan (bikeList up) (bikeMatches toLowerCase query) lim n)
  | Throw e => fetchOf (bikeList up) n = Throw e
  end.
Proof.
  intros issued n. subst n issued. unfold scanBikes.
  destruct (scan_from_start (bikeList up) (bikeMatches toLowerCase query)
              lim 3) as (Hle & Hone & Hfst & Hnot & Hsnd).
  set (scan := scanPages (bikeList up) (bikeMatches toLowerCase query)
                 lim 3 1 [] []) in *.
  set (n := List.length (fst scan)) in *.
  split; [destruct Hone; [discriminate | lia]|].
  split; [exact Hfst|]. split; [intros k Hk; now apply Hnot|].
  destruct (snd scan) as [results|e].
  - destruct Hsnd as (-> & _ & Hend).
    split; [reflexivity|]. split; [apply matchesThrough_all | exact Hend].
  - exact Hsnd.
Qed.

(** A page that was requested and could not be fetched ends a scan with its
    error. *)
Lemma scan_throws_what_a_page_threw {R}
  (fetchPage : Z -> Z -> Try (DirectoryData R)) (matches : R -> bool)
  (limit : Z) (remaining k : nat) (e : jsstring) :
  (1 <= k <= List.length
             (fst (scanPages fetchPage matches limit remaining 1 [] [])))%nat ->
  fetchOf fetchPage k = Throw e ->
  snd (scanPages fetchPage matches limit remaining 1 [] []) = Throw e.
Proof.
  intros [H1 H2] Hk.
  destruct (scan_from_start fetchPage matches limit remaining)
    as (_ & _ & _ & Hnot & Hsnd).
  set (n := List.length
              (fst (scanPages fetchPage matches limit remaining 1 [] []))) in *.
  assert (Hkn : k = n).
  { destruct (Nat.eq_dec k n) as [E|E]; [exact E|].
    destruct (Hnot k) as [[data Hd] _]; [lia|]. congruence. }
  subst k.
  destruct (snd (scanPages fetchPage matches limit remaining 1 [] []))
    as [results|e'].
  - destruct Hsnd as (_ & [H0|[data Hd]] & _); [lia | congruence].
  - congruence.
Qed.

(** When a page that the stop search or the bike-station search requested
    cannot be fetched, the response is the failure text with the error of
    that page, in both forms; the matches of the pages before it are not
    reported. *)
Theorem directory_search_fails_with_a_page
  (toLowerCase : jsstring -> jsstring) (up : Upstream)
  (args : ToolArguments) (q : jsstring) (k : nat) (e : jsstring) :
  query args = Some (ArgString q) ->
  (((1 <= k <= List.length
                 (fst (scanStops up (trim q) (effectiveLimit args))))%nat ->
    fetchOf (busStopLocationXyInfo up) k = Throw e ->
    transitSearchBusStation up args
    = Resolved (utf16 "❌ 정류장 검색 실패: " ++ e)) /\
   ((1 <= k <= List.length
                 (fst (scanBikes toLowerCase up (trim q)
                         (effectiveLimit args))))%nat ->
    fetchOf (bikeList up) k = Throw e ->
    transitGetBikeStation toLowerCase up args
    = Resolved (utf16 "❌ 따릉이 대여소 검색 실패: " ++ e))).
Proof.
  intros Hq. split; intros Hk He.
  - unfold transitSearchBusStation. rewrite Hq.
    unfold scanStops in *.
    rewrite (scan_throws_what_a_page_threw _ _ _ _ k e Hk He). reflexivity.
  - unfold transitGetBikeStation. rewrite Hq.
    unfold scanBikes in *.
    rewrite (scan_throws_what_a_page_threw _ _ _ _ k e Hk He). reflexivity.
Qed.

Lemma directory_search_fails_with_a_page_witness :
  transitSearchBusStation secondPageDownSnapshot
    (withQuery (utf16 "강남") None (Some (utf16 "json")))
  = Resolved (utf16 "❌ 정류장 검색 실패: " ++ utf16 "fetch failed").
Proof.
  apply (proj1 (directory_search_fails_with_a_page latinToLowerCase
                  secondPageDownSnapshot
                  (withQuery (utf16 "강남") None (Some (utf16 "json")))
                  (utf16 "강남") 2 (utf16 "fetch failed") eq_refl)).
  - vm_compute. lia.
  - reflexivity.
Defined.

(* ===================================================================== *)
(** ** Further properties: what a response lists *)
(* ===================================================================== *)

Lemma slice_from_start_firstn {A} (l : list A) (n : Z) :
  exists m, slice l 0 n = firstn m l.
Proof.
  unfold slice, relIndex. pose proof (len_nonneg l) as Hl.
  replace (0 <? 0) with false by reflexivity.
  rewrite (Z.min_l 0 (len l)) by assumption. simpl skipn. eauto.
Qed.

Lemma slice_from_start_prefix {A} (l : list A) (n : Z) :
  isPrefixOf (slice l 0 n) l.
Proof.
  destruct (slice_from_start_firstn l n) as [m ->].
  exists (skipn m l). symmetry. apply firstn_skipn.
Qed.

Lemma prefix_incl {A} (p l : list A) : isPrefixOf p l -> incl p l.
Proof. intros [rest ->] x Hx. apply in_or_app. now left. Qed.

Lemma stop_scan_outcome_matches (up : Upstream) (query : jsstring) (lim : Z) :
  match snd (scanStops up query lim) with
  | Ok results => Forall (fun s => stopMatches query s = true) results
  | Throw _ => True
  end.
Proof.
  unfold scanStops.
  destruct (scan_from_start (busStopLocationXyInfo up) (stopMatches query)
              lim 5) as (_ & _ & _ & _ & Hsnd).
  destruct (snd (scanPages _ _ _ _ _ _ _)) as [results|e]; [|exact I].
  destruct Hsnd as (-> & _). apply matchesThrough_all.
Qed.

(** The three responses that cut their results are the listings of
    [slice(0, limit)] of them. *)
Lemma busArrivalResponse_lists (arsId : option jsstring) (limit : Z)
  (format : jsstring) (arrivals : list BusArrival) :
  busArrivalResponse arsId limit format arrivals
  = busArrivalListing arsId format arrivals (slice arrivals 0 limit).
Proof.
  unfold busArrivalResponse, busArrivalListing, busArrivalJson,
    busArrivalMarkdown, busArrivalRendered.
  destruct (streq format (utf16 "json")); [reflexivity|].
  destruct (len arrivals =? 0); [reflexivity|].
  rewrite <- !app_assoc. reflexivity.
Qed.

Lemma searchBusStationResponse_lists (query : jsstring) (limit : Z)
  (format : jsstring) (results : list BusStation) :
  searchBusStationResponse query limit format results
  = stopListing query format
      (slice (sort (compareStations query) results) 0 limit).
Proof.
  unfold searchBusStationResponse, stopListing, searchBusStationJson,
    searchBusStationMarkdown, searchBusStationRendered.
  destruct (streq format (utf16 "json")); [reflexivity|].
  destruct (len _ =? 0); [reflexivity|].
  rewrite <- !app_assoc. reflexivity.
Qed.

Lemma bikeStationResponse_lists (query : jsstring) (limit : Z)
  (format : jsstring) (results : list BikeStation) :
  bikeStationResponse query limit format results
  = bikeListing query format (slice results 0 limit).
Proof.
  unfold bikeStationResponse, bikeListing, bikeStationJson,
    bikeStationMarkdown, bikeStationRendered.
  destruct (streq format (utf16 "json")); [reflexivity|].
  destruct (len _ =? 0); [reflexivity|].
  rewrite <- !app_assoc. reflexivity.
Qed.

Lemma bus_arrival_lists (up : Upstream) (args : ToolArguments)
  (arrivals : list BusArrival) :
  busArrivalLookup up (ars_id args) = Ok arrivals ->
  transitGetBusArrival up args
  = Resolved (busArrivalListing (ars_id args) (formatOf args) arrivals
                (slice arrivals 0 (effectiveLimit args))).
Proof.
  intros H. rewrite (bus_arrival_listed _ _ _ H), busArrivalResponse_lists.
  reflexivity.
Qed.

Lemma stop_search_lists (up : Upstream) (args : ToolArguments)
  (q : jsstring) (results : list BusStation) :
  query args = Some (ArgString q) ->
  snd (scanStops up (trim q) (effectiveLimit args)) = Ok results ->
  transitSearchBusStation up args
  = Resolved (stopListing (trim q) (formatOf args)
                (slice (sort (compareStations (trim q)) results) 0
                   (effectiveLimit args))).
Proof.
  intros Hq H.
  rewrite (stop_search_listed _ _ _ _ Hq H), searchBusStationResponse_lists.
  reflexivity.
Qed.

Lemma bike_search_lists (toLowerCase : jsstring -> jsstring)
  (up : Upstream) (args : ToolArguments) (q : jsstring)
  (results : list BikeStation) :
  query args = Some (ArgString q) ->
  snd (scanBikes toLowerCase up (trim q) (effectiveLimit args)) = Ok results ->
  transitGetBikeStation toLowerCase up args
  = Resolved (bikeListing (trim q) (formatOf args)
                (slice results 0 (effectiveLimit args))).
Proof.
  intros Hq H.
  rewrite (bike_search_listed _ _ _ _ _ Hq H), bikeStationResponse_lists.
  reflexivity.
Qed.

Lemma effectiveLimit_bound (args : ToolArguments) (bound : Z) :
  (limit args = None /\ bound = 10)
  \/ (exists n, limit args = Some n /\ 1 <= n /\ bound = Z.min n 20) ->
  effectiveLimit args = bound /\ 0 <= bound.
Proof.
  intros H. unfold effectiveLimit.
  destruct H as [[Hl ->]|[n [Hl [Hn ->]]]]; rewrite Hl.
  - split; [reflexivity | lia].
  - rewrite limitOr_nonzero by lia. lia.
Qed.

(** The three tools that cut their results with [slice(0, limit)] list at
    most [min(limit, 20)] of them for a requested limit of at least 1, and
    at most 10 without one: the response of each tool, in both forms, is
    the listing of that many records. *)
Theorem sliced_results_within_limit (toLowerCase : jsstring -> jsstring)
  (up : Upstream) (args : ToolArguments) (bound : Z) :
  (limit args = None /\ bound = 10)
  \/ (exists n, limit args = Some n /\ 1 <= n /\ bound = Z.min n 20) ->
  (forall arrivals,
     busArrivalLookup up (ars_id args) = Ok arrivals ->
     exists listed,
       len listed <= bound /\
       transitGetBusArrival up args
       = Resolved (busArrivalListing (ars_id args) (formatOf args)
                     arrivals listed)) /\
  (forall q results,
     query args = Some (ArgString q) ->
     snd (scanStops up (trim q) (effectiveLimit args)) = Ok results ->
     exists listed,
       len listed <= bound /\
       transitSearchBusStation up args
       = Resolved (stopListing (trim q) (formatOf args) listed)) /\
  (forall q results,
     query args = Some (ArgString q) ->
     snd (scanBikes toLowerCase up (trim q) (effectiveLimit args))
     = Ok results ->
     exists listed,
       len listed <= bound /\
       transitGetBikeStation toLowerCase up args
       = Resolved (bikeListing (trim q) (formatOf args) listed)).
Proof.
  intros H. destruct (effectiveLimit_bound args bound H) as [E Hb].
  split; [|split].
  - intros arrivals Hl. exists (slice arrivals 0 (effectiveLimit args)).
    split; [rewrite E; apply slice_within_limit; exact Hb|].
    apply bus_arrival_lists. exact Hl.
  - intros q results Hq Hs.
    exists (slice (sort (compareStations (trim q)) results) 0
              (effectiveLimit args)).
    split; [rewrite E; apply slice_within_limit; exact Hb|].
    apply stop_search_lists; assumption.
  - intros q results Hq Hs. exists (slice results 0 (effectiveLimit args)).
    split; [rewrite E; apply slice_within_limit; exact Hb|].
    apply bike_search_lists; assumption.
Qed.

(** The bus-arrival tool lists the arrivals in the order of the feed and
    the bike-station search lists the stations in scan order, without any
    ranking: for every limit, negative ones included, the response is the
    listing of a beginning of the results.  The stop search lists a
    beginning of the ranked results. *)
Theorem listings_keep_their_order (toLowerCase : jsstring -> jsstring)
  (up : Upstream) (args : ToolArguments) :
  (forall arrivals,
     busArrivalLookup up (ars_id args) = Ok arrivals ->
     exists listed,
       isPrefixOf listed arrivals /\
       transitGetBusArrival up args
       = Resolved (busArrivalListing (ars_id args) (formatOf args)
                     arrivals listed)) /\
  (forall q results,
     query args = Some (ArgString q) ->
     snd (scanBikes toLowerCase up (trim q) (effectiveLimit args))
     = Ok results ->
     exists listed,
       isPrefixOf listed results /\
       transitGetBikeStation toLowerCase up args
       = Resolved (bikeListing (trim q) (formatOf args) listed)) /\
  (forall q results,
     query args = Some (ArgString q) ->
     snd (scanStops up (trim q) (effectiveLimit args)) = Ok results ->
     exists listed,
       isPrefixOf listed (sort (compareStations (trim q)) results) /\
       transitSearchBusStation up args
       = Resolved (stopListing (trim q) (formatOf args) listed)).
Proof.
  split; [|split].
  - intros arrivals Hl. exists (slice arrivals 0 (effectiveLimit args)).
    split; [apply slice_from_start_prefix|].
    apply bus_arrival_lists. exact Hl.
  - intros q results Hq Hs. exists (slice results 0 (effectiveLimit args)).
    split; [apply slice_from_start_prefix|].
    apply bike_search_lists; assumption.
  - intros q results Hq Hs.
    exists (slice (sort (compareStations (trim q)) results) 0
              (effectiveLimit args)).
    split; [apply slice_from_start_prefix|].
    apply stop_search_lists; assumption.
Qed.

(** The response of the stop search, in both forms, is the listing of
    stops that are all matches of its scan, each at most as often as the
    scan found it, and that match the query: the name contains the query
    or the identifier is the query. *)
Theorem stop_search_lists_only_matches (up : Upstream)
  (args : ToolArguments) (q : jsstring) (results : list BusStation) :
  query args = Some (ArgString q) ->
  snd (scanStops up (trim q) (effectiveLimit args)) = Ok results ->
  exists listed,
    transitSearchBusStation up args
    = Resolved (stopListing (trim q) (formatOf args) listed) /\
    Forall (fun s => stopMatches (trim q) s = true) listed /\
    incl listed results /\
    (exists others, Permutation results (listed ++ others)) /\
    len listed <= len results.
Proof.
  intros Hq Hscan.
  set (listed := slice (sort (compareStations (trim q)) results) 0
                   (effectiveLimit args)).
  exists listed. split; [apply stop_search_lists; assumption|].
  pose proof (stop_scan_outcome_matches up (trim q) (effectiveLimit args))
    as Hm.
  rewrite Hscan in Hm.
  destruct (slice_from_start_prefix (sort (compareStations (trim q)) results)
              (effectiveLimit args)) as [others Hothers].
  fold listed in Hothers.
  assert (Hperm : Permutation results (listed ++ others)).
  { rewrite <- Hothers. apply sort_perm. }
  assert (Hincl : incl listed results).
  { intros s Hs. apply (Permutation_in s (Permutation_sym Hperm)).
    apply in_or_app. left. exact Hs. }
  split; [|split; [exact Hincl|split; [exists others; exact Hperm|]]].
  - apply Forall_forall. intros s Hs.
    apply (proj1 (Forall_forall _ _) Hm). apply Hincl. exact Hs.
  - apply Permutation_length in Hperm. rewrite length_app in Hperm.
    unfold len. lia.
Qed.

Lemma sliced_results_within_limit_witness :
  exists listed,
    len listed <= 2 /\
    transitGetBusArrival threeBusesSnapshot (withLimit (Some 2))
    = Resolved (busArrivalListing None (utf16 "markdown") threeBuses listed).
Proof.
  assert (H : (limit (withLimit (Some 2)) = None /\ 2 = 10)
              \/ (exists n, limit (withLimit (Some 2)) = Some n
                     /\ 1 <= n /\ 2 = Z.min n 20)).
  { right. exists 2. split; [reflexivity|]. split; [lia | reflexivity]. }
  apply (proj1 (sliced_results_within_limit latinToLowerCase
                  threeBusesSnapshot (withLimit (Some 2)) 2 H)).
  vm_compute. reflexivity.
Defined.

Lemma listings_keep_their_order_witness :
  exists listed,
    isPrefixOf listed threeBuses /\
    transitGetBusArrival threeBusesSnapshot (withLimit (Some (-1)))
    = Resolved (busArrivalListing None (utf16 "markdown") threeBuses listed).
Proof.
  apply (proj1 (listings_keep_their_order latinToLowerCase
                  threeBusesSnapshot (withLimit (Some (-1))))).
  vm_compute. reflexivity.
Defined.

Lemma stop_search_lists_only_matches_witness :
  exists listed,
    transitSearchBusStation gangnamSnapshot
      (withQuery (utf16 "강남") (Some 2) None)
    = Resolved (stopListing (utf16 "강남") (utf16 "markdown") listed) /\
    Forall (fun s => stopMatches (utf16 "강남") s = true) listed /\
    incl listed gangnamCandidates.
Proof.
  destruct (stop_search_lists_only_matches gangnamSnapshot
              (withQuery (utf16 "강남") (Some 2) None) (utf16 "강남")
              gangnamCandidates eq_refl ltac:(vm_compute; reflexivity))
    as (listed & H1 & H2 & H3 & _).
  exists listed. split; [exact H1|]. split; assumption.
Defined.

(* ===================================================================== *)
(** ** Properties: the ranking in the response *)
(* ===================================================================== *)

(** C7: the stop search sorts the matches of its scan with a comparator
    that puts a name starting with the query before one that does not,
    and among names of equal primary key the shorter one first.  The
    sorted results are a permutation of the results, every earlier one
    may stand before every later one, and results with equal keys keep
    their scan order.  The response of the tool, in both forms, is the
    listing of the head of that order, cut by [slice(0, limit)].  For the
    query "강남" and the candidates "강남역", "강남구청", "강남" the order is
    "강남", "강남역", "강남구청", and so are the text and the serialised
    object that the tool answers with. *)
Theorem stop_ranking :
  (forall (query : jsstring) (results : list BusStation),
     let sortedResults := sort (compareStations query) results in
     Permutation results sortedResults /\
     StronglySorted (rankBefore query) sortedResults /\
     (forall a, filter (sameRank query a) sortedResults
                = filter (sameRank query a) results) /\
     (forall limit, searchBusStationRendered query limit results
                    = slice sortedResults 0 limit)) /\
  map STOPS_NM
    (sort (compareStations (utf16 "강남"))
       [stopNamed (utf16 "강남역"); stopNamed (utf16 "강남구청");
        stopNamed (utf16 "강남")])
  = [Some (utf16 "강남"); Some (utf16 "강남역"); Some (utf16 "강남구청")] /\
  (forall query limit format results,
     searchBusStationResponse query limit format results
     = stopListing query format
         (slice (sort (compareStations query) results) 0 limit)) /\
  (forall up args q results,
     query args = Some (ArgString q) ->
     snd (scanStops up (trim q) (effectiveLimit args)) = Ok results ->
     transitSearchBusStation up args
     = Resolved (stopListing (trim q) (formatOf args)
                   (slice (sort (compareStations (trim q)) results) 0
                      (effectiveLimit args)))) /\
  snd (scanStops gangnamSnapshot (utf16 "강남") 10)
  = Ok [stopNamed (utf16 "강남역"); stopNamed (utf16 "강남구청");
        stopNamed (utf16 "강남")] /\
  transitSearchBusStation gangnamSnapshot
    (withQuery (utf16 "강남") None None)
  = Resolved
      (utf16 "## 🔍 버스 정류장 검색: " ++ DQUOTE ++ utf16 "강남" ++ DQUOTE
       ++ LF ++ LF
       ++ utf16 "> 3개 정류장 발견" ++ LF ++ LF
       ++ utf16 "### 1. 강남" ++ LF
       ++ utf16 "- **정류장 번호**: " ++ BACKTICK ++ utf16 "00000"
       ++ BACKTICK ++ LF ++ LF
       ++ utf16 "### 2. 강남역" ++ LF
       ++ utf16 "- **정류장 번호**: " ++ BACKTICK ++ utf16 "00000"
       ++ BACKTICK ++ LF ++ LF
       ++ utf16 "### 3. 강남구청" ++ LF
       ++ utf16 "- **정류장 번호**: " ++ BACKTICK ++ utf16 "00000"
       ++ BACKTICK ++ LF ++ LF
       ++ utf16 "---" ++ LF
       ++ utf16
            "> 💡 **Tip**: 도착정보 조회 시 정류장 번호(arsId)를 사용하세요."
       ++ LF) /\
  transitSearchBusStation gangnamSnapshot
    (withQuery (utf16 "강남") None (Some (utf16 "json")))
  = Resolved (stringify (JObject
      [(utf16 "query", Some (JString (utf16 "강남")));
       (utf16 "count", Some (JNumber 3));
       (utf16 "stations", Some (JArray
          [JObject
             [(utf16 "name", Some (JString (utf16 "강남")));
              (utf16 "arsId", Some (JString (utf16 "00000")));
              (utf16 "type", Some (JString (utf16 "일반")))];
           JObject
             [(utf16 "name", Some (JString (utf16 "강남역")));
              (utf16 "arsId", Some (JString (utf16 "00000")));
              (utf16 "type", Some (JString (utf16 "일반")))];
           JObject
             [(utf16 "name", Some (JString (utf16 "강남구청")));
              (utf16 "arsId", Some (JString (utf16 "00000")));
              (utf16 "type", Some (JString (utf16 "일반")))]]))])) /\
  transitSearchBusStation gangnamSnapshot
    (withQuery (utf16 "강남") (Some 2) (Some (utf16 "json")))
  = Resolved (stringify (JObject
      [(utf16 "query", Some (JString (utf16 "강남")));
       (utf16 "count", Some (JNumber 2));
       (utf16 "stations", Some (JArray
          [JObject
             [(utf16 "name", Some (JString (utf16 "강남")));
              (utf16 "arsId", Some (JString (utf16 "00000")));
              (utf16 "type", Some (JString (utf16 "일반")))];
           JObject
             [(utf16 "name", Some (JString (utf16 "강남역")));
              (utf16 "arsId", Some (JString (utf16 "00000")));
              (utf16 "type", Some (JString (utf16 "일반")))]]))])).
Proof.
  split; [exact sort_by_rank|].
  split; [reflexivity|].
  split; [exact searchBusStationResponse_lists|].
  split; [exact stop_search_lists|].
  split; [vm_compute; reflexivity|].
  split; [vm_compute; reflexivity|].
  split; vm_compute; reflexivity.
Qed.

Lemma stop_ranking_witness :
  transitSearchBusStation gangnamSnapshot
    (withQuery (utf16 " 강남 ") (Some 2) None)
  = Resolved (stopListing (utf16 "강남") (utf16 "markdown")
                (slice (sort (compareStations (utf16 "강남"))
                          gangnamCandidates) 0 2)).
Proof.
  assert (Hscan : snd (scanStops gangnamSnapshot (trim (utf16 " 강남 "))
                         (effectiveLimit
                            (withQuery (utf16 " 강남 ") (Some 2) None)))
                  = Ok gangnamCandidates)
    by (vm_compute; reflexivity).
  exact (proj1 (proj2 (proj2 (proj2 stop_ranking)))
           gangnamSnapshot (withQuery (utf16 " 강남 ") (Some 2) None)
           (utf16 " 강남 ") gangnamCandidates eq_refl Hscan).
Defined.

(* ===================================================================== *)
(** ** Further properties: a null record of the arrival feed *)
(* ===================================================================== *)

Lemma combineOutcomes_rejected (rawLocation format : jsstring)
  (subway : Try (list (option SubwayArrival)))
  (bus : Try (list BusStation)) (bike : Try (list BikeStation))
  (error : jsstring) :
  combineOutcomes rawLocation format subway bus bike = Rejected error <->
  error = nullProperty (utf16 "subwayId")
  /\ In None (slice (settle subway) 0 5).
Proof.
  unfold combineOutcomes, combinedArrivalsRead.
  destruct (readRecords (utf16 "subwayId") (slice (settle subway) 0 5))
    as [records|e] eqn:E.
  - split.
    + destruct (streq format (utf16 "json")); discriminate.
    + intros [_ Hin]. apply readRecords_ok in E. rewrite E in Hin.
      apply in_map_iff in Hin. destruct Hin as [r [Hr _]]. discriminate.
  - apply readRecords_throw in E. destruct E as [-> Hin]. split.
    + intros [= <-]. split; [reflexivity | exact Hin].
    + intros [-> _]. reflexivity.
Qed.

(** A [null] among the records of the arrival feed.  The subway-arrival
    tool reads every record inside its [try] and answers with its failure
    text and the TypeError, in both forms.  The combined query reads the
    first five records outside every [try]: it rejects with the TypeError
    exactly when one of them is [null], whatever the two other lookups
    did, so never when the rail lookup itself failed, and the request
    handler answers such a call with status 500 and a null id. *)
Theorem null_arrival_record (toLowerCase : jsstring -> jsstring) :
  (forall up args name arrivals,
     station_name args = Some (ArgString name) ->
     subwayArrivalLookup up (effectiveLimit args)
       (normalizeStationName name) = Ok arrivals ->
     In None arrivals ->
     transitGetSubwayArrival up args
     = Resolved
         (utf16 "❌ 지하철 정보 조회 실패: "
          ++ utf16 "Cannot read properties of null (reading 'subwayId')")) /\
  (forall rawLocation format subway bus bike,
     In None (slice (settle subway) 0 5) <->
     combineOutcomes rawLocation format subway bus bike
     = Rejected
         (utf16 "Cannot read properties of null (reading 'subwayId')")) /\
  (forall rawLocation format subway bus bike error,
     combineOutcomes rawLocation format subway bus bike = Rejected error ->
     exists records, subway = Ok records /\ In None (slice records 0 5)) /\
  (forall args,
     transitGetCombinedInfo toLowerCase nullArrivalSnapshot
       (withLocation (utf16 "강남역") (response_format args))
     = Rejected
         (utf16 "Cannot read properties of null (reading 'subwayId')")) /\
  handler toLowerCase nullArrivalSnapshot
    (callRequest (Some (IdNumber 1))
       (Some (utf16 "transit_get_combined_info"))
       (Some (withLocation (utf16 "강남역") None)))
  = respond 500
      (JsonRpcError (Some IdNull) (-32603)
         (utf16 "Cannot read properties of null (reading 'subwayId')")).
Proof.
  assert (Hmsg : nullProperty (utf16 "subwayId")
                 = utf16 "Cannot read properties of null (reading 'subwayId')")
    by (vm_compute; reflexivity).
  split; [|split; [|split; [|split]]].
  - intros up args name arrivals Hn Hl Hin.
    unfold transitGetSubwayArrival. rewrite Hn, Hl. cbn [bind].
    unfold subwayArrivalRender.
    destruct (readRecords (utf16 "subwayId") arrivals) as [records|e] eqn:E.
    + apply readRecords_ok in E. rewrite E in Hin.
      apply in_map_iff in Hin. destruct Hin as [r [Hr _]]. discriminate.
    + apply readRecords_throw in E. destruct E as [-> _].
      cbn [bind tryCatch]. unfold subwayArrivalFailure. rewrite Hmsg.
      reflexivity.
  - intros rawLocation format subway bus bike. rewrite <- Hmsg.
    rewrite combineOutcomes_rejected. split; [auto | intros [_ H]; exact H].
  - intros rawLocation format subway bus bike error H.
    apply combineOutcomes_rejected in H. destruct H as [_ Hin].
    destruct subway as [records|e]; [|contradiction].
    exists records. split; [reflexivity | exact Hin].
  - intros args. rewrite <- Hmsg. unfold transitGetCombinedInfo.
    cbn [location withLocation].
    apply combineOutcomes_rejected. split; [reflexivity|].
    vm_compute. right. left. reflexivity.
  - vm_compute. reflexivity.
Qed.

Lemma null_arrival_record_witness :
  transitGetSubwayArrival nullArrivalSnapshot
    (withStation (utf16 "강남역") None (Some (utf16 "json")))
  = Resolved
      (utf16 "❌ 지하철 정보 조회 실패: "
       ++ utf16 "Cannot read properties of null (reading 'subwayId')").
Proof.
  apply (proj1 (null_arrival_record latinToLowerCase) nullArrivalSnapshot
           (withStation (utf16 "강남역") None (Some (utf16 "json")))
           (utf16 "강남역") (arrivalsOf nullArrivalData)).
  - reflexivity.
  - vm_compute. reflexivity.
  - vm_compute. right. left. reflexivity.
Defined.

(** *** Exact names first *)

Lemma exactName_key (query : jsstring) (s : BusStation) :
  exactName query s = true ->
  startsKey query s = true /\ lengthKey s = len query.
Proof.
  unfold exactName, startsKey, lengthKey. intros H.
  apply streq_eq in H. rewrite H. split; [|reflexivity].
  apply startsWith_prefix. exists []. now rewrite app_nil_r.
Qed.

Lemma startsKey_length (query : jsstring) (s : BusStation) :
  startsKey query s = true -> exactName query s = false ->
  len query < lengthKey s.
Proof.
  unfold exactName, startsKey, lengthKey. intros Hs He.
  apply startsWith_prefix in Hs. destruct Hs as [post Hs].
  rewrite Hs, len_app. destruct post as [|c post].
  - rewrite app_nil_r in Hs. rewrite Hs, streq_refl in He. discriminate.
  - unfold len. simpl. lia.
Qed.

(** A stop with another name never stands before a stop whose name is the
    query. *)
Lemma exactName_not_after (query : jsstring) (a b : BusStation) :
  exactName query a = true -> exactName query b = false ->
  ~ compareStations query b a <= 0.
Proof.
  intros Ha Hb Hcmp. apply compareStations_before in Hcmp.
  destruct (exactName_key query a Ha) as [Hsa Hla].
  destruct Hcmp as [[_ H]|[Hs Hl]]; [congruence|].
  rewrite Hsa in Hs. pose proof (startsKey_length query b Hs Hb). lia.
Qed.

Lemma no_exact_after (query : jsstring) (x : BusStation)
  (l : list BusStation) :
  exactName query x = false ->
  Forall (fun y => compareStations query x y <= 0) l ->
  filter (exactName query) l = [].
Proof.
  intros Ex. induction 1 as [|y l Hxy Hall IH]; [reflexivity|].
  cbn [filter]. destruct (exactName query y) eqn:Ey; [|exact IH].
  exfalso. exact (exactName_not_after query y x Ey Ex Hxy).
Qed.

Lemma sorted_exact_first (query : jsstring) (l : list BusStation) :
  StronglySorted (fun a b => compareStations query a b <= 0) l ->
  l = filter (exactName query) l
      ++ filter (fun s => negb (exactName query s)) l.
Proof.
  induction 1 as [|x l Hs IH Hall]; [reflexivity|].
  cbn [filter]. destruct (exactName query x) eqn:Ex; cbn [negb].
  - cbn [app]. f_equal. exact IH.
  - pose proof (no_exact_after query x l Ex Hall) as Hnone.
    rewrite Hnone in *. cbn [app] in *. f_equal. exact IH.
Qed.

(** The stops whose name is the query itself stand first in the ranking,
    in the order the scan found them, before every stop with another
    name. *)
Theorem exact_names_rank_first (query : jsstring)
  (results : list BusStation) :
  let sortedResults := sort (compareStations query) results in
  sortedResults
  = filter (exactName query) results
    ++ filter (fun s => negb (exactName query s)) sortedResults.
Proof.
  intros sortedResults.
  assert (Hsorted : StronglySorted
                      (fun a b => compareStations query a b <= 0)
                      sortedResults).
  { apply sort_sorted.
    - intros a b.
      destruct (rankBefore_total query a b) as [H|H];
        [left|right]; now apply compareStations_before.
    - intros a b c Hab Hbc. apply compareStations_before.
      apply (rankBefore_trans query a b c); now apply compareStations_before. }
  rewrite (sorted_exact_first query sortedResults Hsorted) at 1.
  f_equal. unfold sortedResults.
  apply (sort_stable (compareStations query)
           (fun _ s => exactName query s) ) with (a := stopNamed query).
  intros _ x y Hx Hy. apply compareStations_before. right.
  destruct (exactName_key query x Hx) as [Hsx Hlx].
  destruct (exactName_key query y Hy) as [Hsy Hly].
  split; [congruence | lia].
Qed.

Example exact_name_first_example :
  map STOPS_NM
    (sort (compareStations (utf16 "시청"))
       [stopNamed (utf16 "서울시청"); stopNamed (utf16 "시청앞");
        stopNamed (utf16 "시청")])
  = [Some (utf16 "시청"); Some (utf16 "시청앞"); Some (utf16 "서울시청")].
Proof. reflexivity. Qed.

(* ===================================================================== *)
(** ** Further properties: failures of the keyed feeds *)
(* ===================================================================== *)

(** The subway-arrival tool accepts a body exactly when it has no error
    code, an empty one, or "INFO-000". *)
Lemma checkErrorMessage_accepts (data : ArrivalData) :
  checkErrorMessage data = Ok tt <->
  (errorMessage data = None
   \/ exists em, errorMessage data = Some em
        /\ (code em = None \/ code em = Some []
            \/ code em = Some (utf16 "INFO-000"))).
Proof.
  unfold checkErrorMessage.
  destruct (errorMessage data) as [em|]; [|split; auto].
  destruct (code em) as [[|c cs]|] eqn:Ec.
  - split; [intros _; right; exists em; auto | reflexivity].
  - destruct (streq (c :: cs) (utf16 "INFO-000")) eqn:E; cbn [negb].
    + apply streq_eq in E. split; [|reflexivity].
      intros _. right. exists em. rewrite Ec, E. auto.
    + split; [discriminate|].
      intros [H|[em' [Hem [H|[H|H]]]]]; try discriminate;
        injection Hem as <-; rewrite Ec in H; try discriminate.
      assert (Heq : streq (c :: cs) (utf16 "INFO-000") = true)
        by (apply streq_eq; congruence).
      congruence.
  - split; [intros _; right; exists em; auto | reflexivity].
Qed.

(** When the arrival feed answers with an error code other than
    "INFO-000", the subway-arrival tool reports the feed's message as a
    failure text, in both forms and whatever arrivals the body carries;
    with "INFO-000" the body is read as usual: its records are rendered,
    and a [null] among them is the failure the tool reports. *)
Theorem subway_arrival_error_body (up : Upstream) (args : ToolArguments)
  (name : jsstring) (data : ArrivalData) (em : ErrorMessage) (c : jsstring) :
  station_name args = Some (ArgString name) ->
  isWellFormed (normalizeStationName name) = true ->
  realtimeStationArrival up 0 (effectiveLimit args)
    (normalizeStationName name) = Ok data ->
  errorMessage data = Some em -> code em = Some c ->
  (c <> [] -> c <> utf16 "INFO-000" ->
   transitGetSubwayArrival up args
   = Resolved (utf16 "❌ 지하철 정보 조회 실패: " ++ utf16 "API 에러: "
               ++ interpolate (message em))) /\
  (c = utf16 "INFO-000" ->
   transitGetSubwayArrival up args
   = Resolved (tryCatch
                 (subwayArrivalRender (normalizeStationName name)
                    (formatOf args) (arrivalsOf data))
                 subwayArrivalFailure) /\
   (forall records,
      arrivalsOf data = map Some records ->
      transitGetSubwayArrival up args
      = Resolved (subwayArrivalResponse (normalizeStationName name)
                    (formatOf args) records)) /\
   (In None (arrivalsOf data) ->
    transitGetSubwayArrival up args
    = Resolved (utf16 "❌ 지하철 정보 조회 실패: "
                ++ nullProperty (utf16 "subwayId")))).
Proof.
  intros Hn Hwf Hfeed Hem Hc. split.
  - intros Hne Hinfo.
    unfold transitGetSubwayArrival, subwayArrivalLookup, encodeURIComponent.
    rewrite Hn, Hwf. cbn [bind]. rewrite Hfeed. cbn [bind].
    unfold checkErrorMessage. rewrite Hem, Hc.
    destruct c as [|c0 cs]; [congruence|].
    destruct (streq (c0 :: cs) (utf16 "INFO-000")) eqn:E.
    + apply streq_eq in E. congruence.
    + reflexivity.
  - intros ->.
    assert (Hlook : subwayArrivalLookup up (effectiveLimit args)
                      (normalizeStationName name) = Ok (arrivalsOf data)).
    { unfold subwayArrivalLookup, encodeURIComponent.
      rewrite Hwf. cbn [bind]. rewrite Hfeed. cbn [bind].
      replace (checkErrorMessage data) with (@Ok unit tt); [reflexivity|].
      symmetry. apply checkErrorMessage_accepts. right. exists em. auto. }
    unfold transitGetSubwayArrival. rewrite Hn, Hlook. cbn [bind].
    split; [reflexivity|]. split.
    + intros records Hr. unfold subwayArrivalRender.
      rewrite Hr, readRecords_records. reflexivity.
    + intros Hin. unfold subwayArrivalRender.
      destruct (readRecords (utf16 "subwayId") (arrivalsOf data))
        as [records|e] eqn:E.
      * apply readRecords_ok in E. rewrite E in Hin.
        apply in_map_iff in Hin. destruct Hin as [r [Hr _]]. discriminate.
      * apply readRecords_throw in E. destruct E as [-> _]. reflexivity.
Qed.

Lemma subway_arrival_error_body_witness :
  transitGetSubwayArrival errorBodySnapshot
    (withStation (utf16 "강남역") None (Some (utf16 "json")))
  = Resolved (utf16 "❌ 지하철 정보 조회 실패: " ++ utf16 "API 에러: "
              ++ interpolate (message noDataMessage)).
Proof.
  assert (Hwf : isWellFormed (normalizeStationName (utf16 "강남역")) = true)
    by (vm_compute; reflexivity).
  assert (Hne : utf16 "INFO-200" <> [])
    by (intros H; vm_compute in H; discriminate H).
  assert (Hinfo : utf16 "INFO-200" <> utf16 "INFO-000")
    by (intros H; vm_compute in H; discriminate H).
  exact (proj1 (subway_arrival_error_body errorBodySnapshot
                  (withStation (utf16 "강남역") None (Some (utf16 "json")))
                  (utf16 "강남역") errorBodyData noDataMessage
                  (utf16 "INFO-200")
                  eq_refl Hwf eq_refl eq_refl eq_refl) Hne Hinfo).
Defined.

(** The bus-arrival tool accepts a body exactly when its header code is
    "0", and then answers with its response on the items of the body.
    Otherwise, a body without header included, the tool answers with its
    failure text, which carries the header message when the header has one
    that is not empty, and "API 오류" when there is no header, no message
    or an empty one. *)
Theorem bus_arrival_header_check (data : StationByUidData) :
  (checkMsgHeader data = Ok tt <->
   exists h, msgHeader data = Some h /\ headerCd h = Some (utf16 "0")) /\
  (forall h m,
     msgHeader data = Some h -> headerCd h <> Some (utf16 "0") ->
     headerMsg h = Some m -> m <> [] ->
     checkMsgHeader data = Throw m) /\
  (forall h,
     msgHeader data = Some h -> headerCd h <> Some (utf16 "0") ->
     headerMsg h = None \/ headerMsg h = Some [] ->
     checkMsgHeader data = Throw (utf16 "API 오류")) /\
  (msgHeader data = None ->
   checkMsgHeader data = Throw (utf16 "API 오류")) /\
  (forall up args e,
     getStationByUid up (interpolate (ars_id args)) = Ok data ->
     checkMsgHeader data = Throw e ->
     transitGetBusArrival up args
     = Resolved (utf16 "❌ 버스 도착정보 조회 실패: " ++ e ++ LF ++ LF
                 ++ utf16 "💡 정류장 번호가 올바른지 확인해 주세요.")) /\
  (forall up args,
     getStationByUid up (interpolate (ars_id args)) = Ok data ->
     checkMsgHeader data = Ok tt ->
     transitGetBusArrival up args
     = Resolved (busArrivalResponse (ars_id args) (effectiveLimit args)
                   (formatOf args) (itemsOf data))).
Proof.
  assert (Hcode : forall h,
            msgHeader data = Some h -> headerCd h <> Some (utf16 "0") ->
            checkMsgHeader data
            = Throw (strOr (headerMsg h) (utf16 "API 오류"))).
  { intros h Hh Hcd. unfold checkMsgHeader. rewrite Hh.
    destruct (headerCd h) as [c|]; [|reflexivity].
    destruct (streq c (utf16 "0")) eqn:E; [|reflexivity].
    apply streq_eq in E. congruence. }
  split; [|split; [|split; [|split; [|split]]]].
  - unfold checkMsgHeader. destruct (msgHeader data) as [h|].
    + destruct (headerCd h) as [c|] eqn:Ec.
      * destruct (streq c (utf16 "0")) eqn:E; cbn [negb].
        -- apply streq_eq in E. subst c. split; [|reflexivity].
           intros _. now exists h.
        -- split; [discriminate|]. intros [h' [Hh Hcd]].
           injection Hh as <-. rewrite Ec in Hcd. injection Hcd as ->.
           rewrite streq_refl in E. discriminate.
      * cbn [negb]. split; [discriminate|]. intros [h' [Hh Hcd]].
        injection Hh as <-. congruence.
    + cbn [negb]. split; [discriminate|]. intros [h' [Hh _]]. discriminate.
  - intros h m Hh Hcd Hm Hne. rewrite (Hcode h Hh Hcd), Hm.
    destruct m as [|c m]; [congruence | reflexivity].
  - intros h Hh Hcd Hm. rewrite (Hcode h Hh Hcd).
    destruct Hm as [-> | ->]; reflexivity.
  - intros Hh. unfold checkMsgHeader. rewrite Hh. reflexivity.
  - intros up args e Hfeed Hc.
    unfold transitGetBusArrival, busArrivalLookup. rewrite Hfeed.
    cbn [bind]. rewrite Hc. reflexivity.
  - intros up args Hfeed Hc.
    unfold transitGetBusArrival, busArrivalLookup. rewrite Hfeed.
    cbn [bind]. rewrite Hc. reflexivity.
Qed.

Lemma bus_arrival_header_check_witness :
  checkMsgHeader busyHeaderData = Throw (utf16 "인증 실패") /\
  transitGetBusArrival
    {| realtimeStationArrival := fun _ _ _ => unavailable;
       getStationByUid := fun _ => Ok busyHeaderData;
       busStopLocationXyInfo := fun _ _ => unavailable;
       bikeList := fun _ _ => unavailable |}
    noArguments
  = Resolved (utf16 "❌ 버스 도착정보 조회 실패: " ++ utf16 "인증 실패"
              ++ LF ++ LF
              ++ utf16 "💡 정류장 번호가 올바른지 확인해 주세요.").
Proof.
  assert (Hcd : headerCd busyHeader <> Some (utf16 "0"))
    by (intros H; vm_compute in H; discriminate H).
  assert (Hne : utf16 "인증 실패" <> [])
    by (intros H; vm_compute in H; discriminate H).
  assert (Hthrow : checkMsgHeader busyHeaderData
                   = Throw (utf16 "인증 실패")).
  { exact (proj1 (proj2 (bus_arrival_header_check busyHeaderData))
             busyHeader (utf16 "인증 실패") eq_refl Hcd eq_refl Hne). }
  split; [exact Hthrow|].
  exact (proj1 (proj2 (proj2 (proj2 (proj2
           (bus_arrival_header_check busyHeaderData)))))
           {| realtimeStationArrival := fun _ _ _ => unavailable;
              getStationByUid := fun _ => Ok busyHeaderData;
              busStopLocationXyInfo := fun _ _ => unavailable;
              bikeList := fun _ _ => unavailable |}
           noArguments (utf16 "인증 실패") eq_refl Hthrow).
Defined.

(** A keyed feed that cannot be fetched gives the failure text of its tool
    with the error, in both forms; a station name with an unpaired
    surrogate fails before any request; and the bus-arrival tool sends a
    missing stop identifier as the text "undefined" and never rejects. *)
Theorem keyed_feed_failure_is_text (up : Upstream) (args : ToolArguments)
  (e : jsstring) :
  (forall name,
     station_name args = Some (ArgString name) ->
     isWellFormed (normalizeStationName name) = true ->
     realtimeStationArrival up 0 (effectiveLimit args)
       (normalizeStationName name) = Throw e ->
     transitGetSubwayArrival up args
     = Resolved (utf16 "❌ 지하철 정보 조회 실패: " ++ e)) /\
  (forall name,
     station_name args = Some (ArgString name) ->
     isWellFormed (normalizeStationName name) = false ->
     transitGetSubwayArrival up args
     = Resolved (utf16 "❌ 지하철 정보 조회 실패: " ++ utf16 "URI malformed")) /\
  (getStationByUid up (interpolate (ars_id args)) = Throw e ->
   transitGetBusArrival up args
   = Resolved (utf16 "❌ 버스 도착정보 조회 실패: " ++ e ++ LF ++ LF
               ++ utf16 "💡 정류장 번호가 올바른지 확인해 주세요.")) /\
  (ars_id args = None ->
   transitGetBusArrival up args
   = Resolved (tryCatch
       (arrivals <- busArrivalLookup up (Some (utf16 "undefined")) ;;
        Ok (busArrivalResponse None (effectiveLimit args) (formatOf args)
              arrivals))
       busArrivalFailure)).
Proof.
  split; [|split; [|split]].
  - intros name Hn Hwf Hfeed.
    unfold transitGetSubwayArrival, subwayArrivalLookup, encodeURIComponent.
    rewrite Hn, Hwf. cbn [bind]. rewrite Hfeed. reflexivity.
  - intros name Hn Hwf.
    unfold transitGetSubwayArrival, subwayArrivalLookup, encodeURIComponent.
    rewrite Hn, Hwf. reflexivity.
  - intros Hfeed. unfold transitGetBusArrival, busArrivalLookup.
    rewrite Hfeed. reflexivity.
  - intros Hid. unfold transitGetBusArrival, busArrivalLookup.
    rewrite Hid. reflexivity.
Qed.

Lemma keyed_feed_failure_is_text_witness :
  transitGetSubwayArrival secondPageDownSnapshot
    (withStation (utf16 "강남역") None (Some (utf16 "json")))
  = Resolved (utf16 "❌ 지하철 정보 조회 실패: " ++ utf16 "fetch failed") /\
  transitGetSubwayArrival emptySnapshot
    (withStation [55357%N] None None)
  = Resolved (utf16 "❌ 지하철 정보 조회 실패: " ++ utf16 "URI malformed").
Proof.
  split.
  - apply (proj1 (keyed_feed_failure_is_text secondPageDownSnapshot
                    (withStation (utf16 "강남역") None (Some (utf16 "json")))
                    (utf16 "fetch failed")) (utf16 "강남역"));
      reflexivity.
  - apply (proj1 (proj2 (keyed_feed_failure_is_text emptySnapshot
                    (withStation [55357%N] None None) []))
             [55357%N]); reflexivity.
Defined.

(* ===================================================================== *)
(** ** Further properties: the tool router and the registry *)
(* ===================================================================== *)

Lemma streq_sym (a b : jsstring) : streq a b = streq b a.
Proof.
  destruct (streq a b) eqn:E.
  - apply streq_eq in E. subst. symmetry. apply streq_refl.
  - destruct (streq b a) eqn:E'; [|reflexivity].
    apply streq_eq in E'. subst. rewrite streq_refl in E. discriminate.
Qed.

Lemma streq_false (a b : jsstring) : streq a b = false <-> a <> b.
Proof.
  split.
  - intros E ->. rewrite streq_refl in E. discriminate.
  - intros H. destruct (streq a b) eqn:E; [|reflexivity].
    apply streq_eq in E. contradiction.
Qed.

(** Evaluate the comparisons of two literals in the goal. *)
Ltac compare_literals :=
  repeat match goal with
  | |- context [streq (utf16 ?a) (utf16 ?b)] =>
    let v := eval vm_compute in (streq (utf16 a) (utf16 b)) in
    replace (streq (utf16 a) (utf16 b)) with v by (vm_compute; reflexivity)
  end;
  cbv iota.

Section Router.
Variable toLowerCase : jsstring -> jsstring.
Variable up : Upstream.

Lemma executeTool_dispatch (args : ToolArguments) :
  executeTool toLowerCase up (utf16 "transit_get_subway_arrival") args
  = transitGetSubwayArrival up args /\
  executeTool toLowerCase up (utf16 "transit_get_subway_status") args
  = transitGetSubwayStatus args /\
  executeTool toLowerCase up (utf16 "transit_get_bus_arrival") args
  = transitGetBusArrival up args /\
  executeTool toLowerCase up (utf16 "transit_search_bus_station") args
  = transitSearchBusStation up args /\
  executeTool toLowerCase up (utf16 "transit_get_bike_station") args
  = transitGetBikeStation toLowerCase up args /\
  executeTool toLowerCase up (utf16 "transit_get_combined_info") args
  = transitGetCombinedInfo toLowerCase up args.
Proof.
  unfold executeTool. repeat split; compare_literals; reflexivity.
Qed.

(** The name is not one of the six tool names. *)
Lemma findTool_none (toolName : jsstring) :
  findTool toolName = None ->
  streq toolName (utf16 "transit_get_subway_arrival") = false /\
  streq toolName (utf16 "transit_get_subway_status") = false /\
  streq toolName (utf16 "transit_get_bus_arrival") = false /\
  streq toolName (utf16 "transit_search_bus_station") = false /\
  streq toolName (utf16 "transit_get_bike_station") = false /\
  streq toolName (utf16 "transit_get_combined_info") = false.
Proof.
  unfold findTool, TOOLS. cbn [find Schema.name].
  rewrite !(streq_sym _ toolName).
  destruct (streq toolName (utf16 "transit_get_subway_arrival"));
    [discriminate|].
  destruct (streq toolName (utf16 "transit_get_subway_status"));
    [discriminate|].
  destruct (streq toolName (utf16 "transit_get_bus_arrival"));
    [discriminate|].
  destruct (streq toolName (utf16 "transit_search_bus_station"));
    [discriminate|].
  destruct (streq toolName (utf16 "transit_get_bike_station"));
    [discriminate|].
  destruct (streq toolName (utf16 "transit_get_combined_info"));
    [discriminate|].
  intros _. repeat split.
Qed.

Lemma findTool_find (toolName : jsstring) :
  findTool toolName
  = find (fun t => streq (Schema.name t) toolName) TOOLS.
Proof. reflexivity. Qed.

(** The registry and the router agree: every entry of [TOOLS] is found
    under its name and the router runs the tool of that name; for a name
    that is not in [TOOLS] the router answers with the unknown-tool text
    and never rejects. *)
Theorem registry_and_router_agree :
  (forall t, In t TOOLS -> findTool (Schema.name t) = Some t) /\
  (forall toolName t, findTool toolName = Some t ->
     In t TOOLS /\ Schema.name t = toolName) /\
  map Schema.name TOOLS
  = [utf16 "transit_get_subway_arrival"; utf16 "transit_get_subway_status";
     utf16 "transit_get_bus_arrival"; utf16 "transit_search_bus_station";
     utf16 "transit_get_bike_station"; utf16 "transit_get_combined_info"] /\
  (forall args,
     map (fun t => executeTool toLowerCase up (Schema.name t) args) TOOLS
     = [transitGetSubwayArrival up args; transitGetSubwayStatus args;
        transitGetBusArrival up args; transitSearchBusStation up args;
        transitGetBikeStation toLowerCase up args;
        transitGetCombinedInfo toLowerCase up args]) /\
  (forall toolName args,
     findTool toolName = None ->
     executeTool toLowerCase up toolName args
     = Resolved (utf16 "❌ 알 수 없는 도구: " ++ toolName)).
Proof.
  split; [|split; [|split; [|split]]].
  - intros t Ht. unfold TOOLS in Ht. cbn [In] in Ht.
    repeat (destruct Ht as [<-|Ht]; [vm_compute; reflexivity|]).
    contradiction.
  - intros toolName t H. rewrite findTool_find in H.
    apply find_some in H. destruct H as [Hin Hname].
    apply streq_eq in Hname. split; assumption.
  - reflexivity.
  - intros args. destruct (executeTool_dispatch args)
      as (H1 & H2 & H3 & H4 & H5 & H6).
    unfold TOOLS. cbn [map Schema.name].
    rewrite H1, H2, H3, H4, H5, H6. reflexivity.
  - intros toolName args H.
    destruct (findTool_none toolName H) as (H1 & H2 & H3 & H4 & H5 & H6).
    unfold executeTool. rewrite H1, H2, H3, H4, H5, H6. reflexivity.
Qed.

End Router.

(* ===================================================================== *)
(** ** Further properties: the request handler *)
(* ===================================================================== *)

Lemma isMethod_true (req : VercelRequest) (m : jsstring) :
  isMethod req m = true <-> method req = Some m.
Proof.
  unfold isMethod. destruct (method req) as [x|].
  - rewrite streq_eq. split; [now intros -> | now intros [= ->]].
  - split; discriminate.
Qed.

Lemma isMethod_false (req : VercelRequest) (m : jsstring) :
  isMethod req m = false <-> method req <> Some m.
Proof.
  rewrite <- isMethod_true. destruct (isMethod req m); split; congruence.
Qed.

Section HandlerProperties.
Variable toLowerCase : jsstring -> jsstring.
Variable up : Upstream.

Lemma toolsCall_status (i : option RpcId) (p : option Rpc.Params) :
  status (toolsCall toLowerCase up i p) = 200
  \/ status (toolsCall toLowerCase up i p) = 400
  \/ status (toolsCall toLowerCase up i p) = 500.
Proof.
  unfold toolsCall.
  destruct (match p with Some p0 => Rpc.name p0 | None => None end)
    as [[|c n]|]; cbn [status respond]; auto.
  destruct (findTool (c :: n)); cbn [status respond]; auto.
  destruct (executeTool toLowerCase up (c :: n) _); cbn [status respond]; auto.
Qed.

Lemma handlePost_status (req : VercelRequest) :
  status (handlePost toLowerCase up req) = 200
  \/ status (handlePost toLowerCase up req) = 400
  \/ status (handlePost toLowerCase up req) = 500.
Proof.
  unfold handlePost. destruct (body req) as [| |b]; [cbn; auto ..|].
  destruct (negb (isText (Rpc.jsonrpc b) (utf16 "2.0"))); [cbn; auto|].
  destruct (isText (Rpc.method b) (utf16 "initialize")); [cbn; auto|].
  destruct (isText (Rpc.method b) (utf16 "notifications/initialized"));
    [cbn; auto|].
  destruct (isText (Rpc.method b) (utf16 "tools/list")); [cbn; auto|].
  destruct (isText (Rpc.method b) (utf16 "tools/call"));
    [apply toolsCall_status|].
  destruct (isText (Rpc.method b) (utf16 "ping")); cbn; auto.
Qed.

(** Every request gets a response with status 200, 400, 405 or 500 and the
    three CORS headers.  The status is 405 exactly when the method is none
    of OPTIONS, GET, POST and DELETE; OPTIONS, GET and DELETE are always
    answered with 200, whatever the URL and the body. *)
Theorem handler_status (req : VercelRequest) :
  let res := handler toLowerCase up req in
  (status res = 200 \/ status res = 400 \/ status res = 405
   \/ status res = 500) /\
  (status res = 405 <->
   forall m, method req = Some m -> ~ In m servedMethods) /\
  (forall m, method req = Some m ->
     In m [utf16 "OPTIONS"; utf16 "GET"; utf16 "DELETE"] ->
     status res = 200) /\
  incl corsHeaders (headers res).
Proof.
  intros res. subst res. unfold handler.
  destruct (isMethod req (utf16 "OPTIONS")) eqn:Eo.
  { apply isMethod_true in Eo. cbn [status headers respond].
    split; [auto|]. split; [|split; [auto | apply incl_refl]].
    split; [discriminate|]. intros H. exfalso.
    apply (H _ Eo). unfold servedMethods. cbn [In]. auto. }
  destruct (isMethod req (utf16 "GET")) eqn:Eg.
  { apply isMethod_true in Eg.
    assert (Hno : ~ forall m, method req = Some m -> ~ In m servedMethods).
    { intros H. apply (H _ Eg). unfold servedMethods. cbn [In]. auto. }
    cbn [andb].
    destruct (streq (urlPathOf req) (utf16 "/") || streq (urlPathOf req) []);
      cbn [status headers respond].
    - split; [auto|]. split; [split; [discriminate | contradiction]|].
      split; [auto|]. apply incl_appl, incl_refl.
    - split; [auto|]. split; [split; [discriminate | contradiction]|].
      split; [auto|]. apply incl_refl. }
  cbn [andb].
  destruct (isMethod req (utf16 "POST")) eqn:Ep.
  { apply isMethod_true in Ep.
    assert (Hno : ~ forall m, method req = Some m -> ~ In m servedMethods).
    { intros H. apply (H _ Ep). unfold servedMethods. cbn [In]. auto. }
    pose proof (handlePost_status req) as Hs.
    split; [tauto|]. split; [split; [lia | contradiction]|]. split.
    - intros m Hm Hin. rewrite Ep in Hm. injection Hm as <-.
      cbn [In] in Hin. exfalso.
      destruct Hin as [H|[H|[H|[]]]]; vm_compute in H; discriminate H.
    - unfold handlePost, toolsCall.
      repeat match goal with
             | |- context [match ?x with _ => _ end] => destruct x
             end; apply incl_refl. }
  destruct (isMethod req (utf16 "DELETE")) eqn:Ed.
  { apply isMethod_true in Ed. cbn [status headers respond].
    split; [auto|]. split; [|split; [auto | apply incl_refl]].
    split; [discriminate|]. intros H. exfalso.
    apply (H _ Ed). unfold servedMethods. cbn [In]. auto. }
  cbn [status headers respond].
  apply isMethod_false in Eo, Eg, Ep, Ed.
  split; [auto|]. split; [|split; [|apply incl_refl]].
  - split; [|reflexivity]. intros _ m Hm Hin.
    unfold servedMethods in Hin. cbn [In] in Hin.
    destruct Hin as [<-|[<-|[<-|[<-|[]]]]]; contradiction.
  - intros m Hm Hin. cbn [In] in Hin.
    destruct Hin as [<-|[<-|[<-|[]]]]; contradiction.
Qed.

End HandlerProperties.

Lemma beforeQuery_without (path : jsstring) :
  ~ In 63%N path -> beforeQuery path = path.
Proof.
  induction path as [|c path IH]; [reflexivity|].
  intros H. cbn [beforeQuery].
  destruct (c =? 63)%N eqn:E.
  - apply N.eqb_eq in E. exfalso. apply H. now left.
  - f_equal. apply IH. intros Hin. apply H. now right.
Qed.

Lemma beforeQuery_with (path rest : jsstring) :
  ~ In 63%N path -> beforeQuery (path ++ 63%N :: rest) = path.
Proof.
  induction path as [|c path IH]; [reflexivity|].
  intros H. cbn [beforeQuery app].
  destruct (c =? 63)%N eqn:E.
  - apply N.eqb_eq in E. exfalso. apply H. now left.
  - f_equal. apply IH. intros Hin. apply H. now right.
Qed.

Section Routing.
Variable toLowerCase : jsstring -> jsstring.
Variable up : Upstream.

Lemma handler_get (u : option jsstring) :
  handler toLowerCase up (getRequest u)
  = if streq (urlPathOf (getRequest u)) (utf16 "/")
       || streq (urlPathOf (getRequest u)) []
    then landingPage else health.
Proof.
  unfold handler, isMethod, getRequest. cbn [method].
  compare_literals. cbn [andb].
  destruct (streq _ (utf16 "/") || streq _ []); reflexivity.
Qed.

(** A GET request is answered with the landing page exactly when the part
    of its URL before the first "?" is "/" or empty, or when it has no
    URL; the query string does not count.  Every other GET request gets
    the health response, which lists the six tool names. *)
Theorem get_routing (path rest : jsstring) :
  ~ In 63%N path ->
  handler toLowerCase up (getRequest None) = landingPage /\
  handler toLowerCase up (getRequest (Some (path ++ 63%N :: rest)))
  = handler toLowerCase up (getRequest (Some path)) /\
  (path = [] \/ path = utf16 "/" ->
   handler toLowerCase up (getRequest (Some path)) = landingPage) /\
  (path <> [] -> path <> utf16 "/" ->
   handler toLowerCase up (getRequest (Some path)) = health) /\
  payload health
  = JsonHealth (utf16 "korea-transit-mcp") (utf16 "1.0.0")
      [utf16 "transit_get_subway_arrival"; utf16 "transit_get_subway_status";
       utf16 "transit_get_bus_arrival"; utf16 "transit_search_bus_station";
       utf16 "transit_get_bike_station"; utf16 "transit_get_combined_info"].
Proof.
  intros Hq.
  assert (Hpath : forall r, urlPathOf (getRequest (Some (path ++ r)))
                            = urlPathOf (getRequest (Some path)) ->
                  handler toLowerCase up (getRequest (Some (path ++ r)))
                  = handler toLowerCase up (getRequest (Some path))).
  { intros r H. rewrite !handler_get, H. reflexivity. }
  split; [|split; [|split; [|split]]].
  - rewrite handler_get. reflexivity.
  - apply Hpath. unfold urlPathOf, getRequest. cbn [url option_map].
    now rewrite beforeQuery_with, beforeQuery_without.
  - intros H. rewrite handler_get. unfold urlPathOf, getRequest.
    cbn [url option_map]. rewrite beforeQuery_without by assumption.
    destruct H as [->| ->]; reflexivity.
  - intros Hne Hslash. rewrite handler_get. unfold urlPathOf, getRequest.
    cbn [url option_map]. rewrite beforeQuery_without by assumption.
    destruct path as [|c path]; [congruence|]. cbn [strOr].
    apply streq_false in Hslash. rewrite Hslash. reflexivity.
  - reflexivity.
Qed.

Lemma handler_post (u : option jsstring) (i : option RpcId)
  (m : option jsstring) (p : option Rpc.Params) :
  handler toLowerCase up (rpcRequest u i m p)
  = handlePost toLowerCase up (rpcRequest u i m p).
Proof.
  unfold handler, isMethod, rpcRequest. cbn [method].
  compare_literals. cbn [andb]. reflexivity.
Qed.

(** A JSON-RPC 2.0 request with a method other than the five the handler
    knows is answered with status 400 and error -32601 naming the method
    (the text "undefined" when there is none), with the id of the request;
    the notification "notifications/initialized" gets status 200 and no
    JSON-RPC message; "ping" gets an empty result, "tools/list" the
    registry, and "initialize" the protocol version of the request when
    it has one that is not empty, and "2024-11-05" otherwise: without
    [params], without a version in them, or with an empty one. *)
Theorem post_methods (u : option jsstring) (i : option RpcId)
  (p : option Rpc.Params) :
  (forall m,
     ~ In m [Some (utf16 "initialize");
             Some (utf16 "notifications/initialized");
             Some (utf16 "tools/list"); Some (utf16 "tools/call");
             Some (utf16 "ping")] ->
     handler toLowerCase up (rpcRequest u i m p)
     = respond 400
         (JsonRpcError i (-32601)
            (utf16 "Method not found: " ++ interpolate m))) /\
  handler toLowerCase up
    (rpcRequest u i (Some (utf16 "notifications/initialized")) p)
  = respond 200 Ended /\
  handler toLowerCase up (rpcRequest u i (Some (utf16 "ping")) p)
  = respond 200 (JsonRpcResponse i EmptyResult) /\
  handler toLowerCase up (rpcRequest u i (Some (utf16 "tools/list")) p)
  = respond 200 (JsonRpcResponse i (ToolsListResult TOOLS)) /\
  (forall q v,
     p = Some q -> Rpc.protocolVersion q = Some v -> v <> [] ->
     handler toLowerCase up (rpcRequest u i (Some (utf16 "initialize")) p)
     = respond 200 (JsonRpcResponse i (InitializeResult v))) /\
  (p = None
   \/ (exists q, p = Some q
         /\ (Rpc.protocolVersion q = None
             \/ Rpc.protocolVersion q = Some [])) ->
   handler toLowerCase up (rpcRequest u i (Some (utf16 "initialize")) p)
   = respond 200
       (JsonRpcResponse i (InitializeResult (utf16 "2024-11-05")))).
Proof.
  assert (Hinit :
    handler toLowerCase up (rpcRequest u i (Some (utf16 "initialize")) p)
    = respond 200 (JsonRpcResponse i
        (InitializeResult
           (strOr (match p with
                   | Some q => Rpc.protocolVersion q
                   | None => None
                   end) (utf16 "2024-11-05"))))).
  { rewrite handler_post. unfold handlePost, rpcRequest.
    cbn [body Rpc.jsonrpc Rpc.method Rpc.id Rpc.params isText].
    compare_literals. cbn [negb]. reflexivity. }
  split; [|split; [|split; [|split; [|split]]]].
  - intros m Hm. rewrite handler_post.
    unfold handlePost, rpcRequest. cbn [body Rpc.jsonrpc Rpc.method Rpc.id
                                         Rpc.params isText].
    compare_literals. cbn [negb].
    assert (Hf : forall l, m <> Some l -> isText m l = false).
    { intros l Hl. unfold isText. destruct m as [x|]; [|reflexivity].
      apply streq_false. congruence. }
    cbn [In] in Hm.
    rewrite !Hf by (intros E; apply Hm; rewrite E; tauto).
    reflexivity.
  - rewrite handler_post. unfold handlePost, rpcRequest.
    cbn [body Rpc.jsonrpc Rpc.method isText]. compare_literals. reflexivity.
  - rewrite handler_post. unfold handlePost, rpcRequest.
    cbn [body Rpc.jsonrpc Rpc.method isText]. compare_literals. reflexivity.
  - rewrite handler_post. unfold handlePost, rpcRequest.
    cbn [body Rpc.jsonrpc Rpc.method isText]. compare_literals. reflexivity.
  - intros q v Hp Hv Hne. rewrite Hinit, Hp, Hv.
    destruct v as [|c v]; [congruence | reflexivity].
  - intros H. rewrite Hinit.
    destruct H as [->|[q [-> [H|H]]]]; [reflexivity | |]; rewrite H;
      reflexivity.
Qed.

End Routing.

Lemma get_routing_witness :
  handler latinToLowerCase emptySnapshot (getRequest (Some (utf16 "/?ref=docs")))
  = handler latinToLowerCase emptySnapshot (getRequest (Some (utf16 "/"))) /\
  handler latinToLowerCase emptySnapshot (getRequest (Some (utf16 "/health"))) = health.
Proof.
  assert (H1 : ~ In 63%N (utf16 "/"))
    by (vm_compute; intros [H|[]]; discriminate H).
  assert (H2 : ~ In 63%N (utf16 "/health"))
    by (vm_compute; intuition discriminate).
  split.
  - exact (proj1 (proj2 (get_routing latinToLowerCase emptySnapshot (utf16 "/") (utf16 "ref=docs") H1))).
  - apply (proj1 (proj2 (proj2 (proj2 (get_routing latinToLowerCase emptySnapshot (utf16 "/health") [] H2)))));
      intros H; vm_compute in H; discriminate H.
Defined.

Lemma post_methods_witness :
  handler latinToLowerCase emptySnapshot
    (rpcRequest None (Some (IdNumber 1)) (Some (utf16 "initialize"))
       (Some {| Rpc.name := None; Rpc.arguments := None;
                Rpc.protocolVersion := Some [] |}))
  = respond 200
      (JsonRpcResponse (Some (IdNumber 1))
         (InitializeResult (utf16 "2024-11-05"))).
Proof.
  apply (proj2 (proj2 (proj2 (proj2 (proj2
           (post_methods latinToLowerCase emptySnapshot None
              (Some (IdNumber 1))
              (Some {| Rpc.name := None; Rpc.arguments := None;
                       Rpc.protocolVersion := Some [] |}))))))).
  right. eexists. split; [reflexivity|]. right. reflexivity.
Defined.

Section ToolsCall.
Variable toLowerCase : jsstring -> jsstring.
Variable up : Upstream.

Lemma handler_toolsCall (u : option jsstring) (i : option RpcId)
  (p : option Rpc.Params) :
  handler toLowerCase up (rpcRequest u i (Some (utf16 "tools/call")) p)
  = toolsCall toLowerCase up i p.
Proof.
  rewrite handler_post. unfold handlePost, rpcRequest.
  cbn [body Rpc.jsonrpc Rpc.method Rpc.id Rpc.params isText].
  compare_literals. reflexivity.
Qed.

(** A [tools/call] with a name that is not in [TOOLS] is answered with
    status 400 and error -32602 and runs no tool, so the unknown-tool text
    of the router is never sent.  With a name of [TOOLS] the status is 200
    with the text of the tool and the id of the request when the tool
    resolves; when the tool rejects, the status is 500 with error -32603,
    the message of the rejection and a null id instead of the id of the
    request.  A tool-call result is sent only for a name of [TOOLS] whose
    tool resolved with that text. *)
Theorem tools_call_outcome (u : option jsstring) (i : option RpcId)
  (toolName : jsstring) (a : option ToolArguments) (v : option jsstring) :
  toolName <> [] ->
  let req :=
    rpcRequest u i (Some (utf16 "tools/call"))
      (Some {| Rpc.name := Some toolName; Rpc.arguments := a;
               Rpc.protocolVersion := v |}) in
  let res := handler toLowerCase up req in
  (findTool toolName = None ->
   res = respond 400
           (JsonRpcError i (-32602) (utf16 "Unknown tool: " ++ toolName))) /\
  (forall t text,
     findTool toolName = Some t ->
     executeTool toLowerCase up toolName (argumentsOf a) = Resolved text ->
     res = respond 200 (JsonRpcResponse i (ToolCallResult text))) /\
  (forall t error,
     findTool toolName = Some t ->
     executeTool toLowerCase up toolName (argumentsOf a) = Rejected error ->
     res = respond 500 (JsonRpcError (Some IdNull) (-32603) error)) /\
  (forall text,
     payload res = JsonRpcResponse i (ToolCallResult text) ->
     findTool toolName <> None /\
     executeTool toLowerCase up toolName (argumentsOf a) = Resolved text).
Proof.
  intros Hne req res. subst res req. rewrite handler_toolsCall.
  unfold toolsCall. cbn [Rpc.name Rpc.arguments].
  fold (argumentsOf a).
  destruct toolName as [|c n]; [congruence|].
  split; [|split; [|split]].
  - intros ->. reflexivity.
  - intros t text -> ->. reflexivity.
  - intros t error -> ->. reflexivity.
  - intros text. destruct (findTool (c :: n)) as [t|];
      [|cbn [payload respond jsonRpcError]; discriminate].
    destruct (executeTool toLowerCase up (c :: n) (argumentsOf a))
      as [text'|error]; cbn [payload respond jsonRpcResponse jsonRpcError];
      [|discriminate].
    intros H. injection H as ->. split; [discriminate | reflexivity].
Qed.

(** A POST request without body, or whose body is [null], is answered
    with status 500, error -32603, a null id and the TypeError of the
    destructuring, which names the value; a body whose [jsonrpc] is not
    "2.0" with status 400 and error -32600, with the id of the body,
    whatever its method; a [tools/call] without a tool name, or with an
    empty one, with status 400 and error -32602. *)
Theorem post_request_errors (u : option jsstring) :
  handler toLowerCase up
    {| method := Some (utf16 "POST"); url := u; body := BodyUndefined |}
  = respond 500
      (JsonRpcError (Some IdNull) (-32603)
         (utf16 "Cannot destructure property 'jsonrpc' of 'body' as it is undefined.")) /\
  handler toLowerCase up
    {| method := Some (utf16 "POST"); url := u; body := BodyNull |}
  = respond 500
      (JsonRpcError (Some IdNull) (-32603)
         (utf16 "Cannot destructure property 'jsonrpc' of 'body' as it is null.")) /\
  (forall b,
     Rpc.jsonrpc b <> Some (utf16 "2.0") ->
     handler toLowerCase up
       {| method := Some (utf16 "POST"); url := u; body := BodyValue b |}
     = respond 400
         (JsonRpcError (Rpc.id b) (-32600)
            (utf16 "Invalid JSON-RPC version"))) /\
  (forall i p,
     (p = None \/ exists q, p = Some q
        /\ (Rpc.name q = None \/ Rpc.name q = Some [])) ->
     handler toLowerCase up (rpcRequest u i (Some (utf16 "tools/call")) p)
     = respond 400 (JsonRpcError i (-32602) (utf16 "Missing tool name"))).
Proof.
  split; [|split; [|split]].
  - unfold handler, isMethod. cbn [method]. compare_literals. cbn [andb].
    unfold handlePost. cbn [body]. vm_compute. reflexivity.
  - unfold handler, isMethod. cbn [method]. compare_literals. cbn [andb].
    unfold handlePost. cbn [body]. vm_compute. reflexivity.
  - intros b Hb. unfold handler, isMethod. cbn [method].
    compare_literals. cbn [andb]. unfold handlePost. cbn [body].
    assert (E : isText (Rpc.jsonrpc b) (utf16 "2.0") = false).
    { unfold isText. destruct (Rpc.jsonrpc b) as [x|]; [|reflexivity].
      apply streq_false. congruence. }
    rewrite E. reflexivity.
  - intros i p Hp. rewrite handler_toolsCall. unfold toolsCall.
    destruct Hp as [->|[q [-> [H|H]]]]; [reflexivity | |]; rewrite H;
      reflexivity.
Qed.

(** A tool call whose string argument is missing, [null] or not a string
    is rejected with the TypeError of the method call that the tool makes
    first: the station name of the subway-arrival tool and the location of
    the combined query ([replace]), the query of the two searches
    ([trim]).  The request handler answers such a call with status 500,
    error -32603, the message of the TypeError and a null id. *)
Theorem missing_argument_rejects (args : ToolArguments) :
  let rejection (name method : jsstring) (value : option ArgumentValue)
      : option jsstring :=
    match value with
    | None =>
      Some (utf16 "Cannot read properties of undefined (reading '"
            ++ method ++ utf16 "')")
    | Some ArgNull =>
      Some (utf16 "Cannot read properties of null (reading '"
            ++ method ++ utf16 "')")
    | Some ArgOther =>
      Some (utf16 "args." ++ name ++ utf16 "." ++ method
            ++ utf16 " is not a function")
    | Some (ArgString _) => None
    end in
  (forall error,
     rejection (utf16 "station_name") (utf16 "replace") (station_name args)
     = Some error ->
     executeTool toLowerCase up (utf16 "transit_get_subway_arrival") args
     = Rejected error) /\
  (forall error,
     rejection (utf16 "query") (utf16 "trim") (query args) = Some error ->
     executeTool toLowerCase up (utf16 "transit_search_bus_station") args
     = Rejected error /\
     executeTool toLowerCase up (utf16 "transit_get_bike_station") args
     = Rejected error) /\
  (forall error,
     rejection (utf16 "location") (utf16 "replace") (location args)
     = Some error ->
     executeTool toLowerCase up (utf16 "transit_get_combined_info") args
     = Rejected error) /\
  (forall u i toolName error,
     In toolName (map Schema.name TOOLS) ->
     executeTool toLowerCase up toolName args = Rejected error ->
     handler toLowerCase up
       (rpcRequest u i (Some (utf16 "tools/call"))
          (Some {| Rpc.name := Some toolName; Rpc.arguments := Some args;
                   Rpc.protocolVersion := None |}))
     = respond 500 (JsonRpcError (Some IdNull) (-32603) error)).
Proof.
  intros rejection.
  destruct (executeTool_dispatch toLowerCase up args)
    as (H1 & H2 & H3 & H4 & H5 & H6).
  split; [|split; [|split]].
  - intros error H. rewrite H1. unfold transitGetSubwayArrival.
    destruct (station_name args) as [[s| |]|]; cbn in H;
      [discriminate | | |]; injection H as <-; vm_compute; reflexivity.
  - intros error H. rewrite H4, H5.
    unfold transitSearchBusStation, transitGetBikeStation.
    destruct (query args) as [[s| |]|]; cbn in H;
      [discriminate | | |]; injection H as <-; split; vm_compute;
      reflexivity.
  - intros error H. rewrite H6. unfold transitGetCombinedInfo.
    destruct (location args) as [[s| |]|]; cbn in H;
      [discriminate | | |]; injection H as <-; vm_compute; reflexivity.
  - intros u i toolName error Hin H. rewrite handler_toolsCall.
    unfold toolsCall. cbn [Rpc.name Rpc.arguments].
    assert (Hfind : exists t, findTool toolName = Some t).
    { destruct (findTool toolName) as [t|] eqn:E; [eauto|].
      exfalso. rewrite findTool_find in E.
      apply in_map_iff in Hin. destruct Hin as [t [Ht Hin]].
      apply (find_none _ _ E) in Hin. rewrite Ht, streq_refl in Hin.
      discriminate. }
    destruct Hfind as [t Hfind].
    destruct toolName as [|c n];
      [rewrite findTool_find in Hfind; vm_compute in Hfind; discriminate|].
    rewrite Hfind, H. reflexivity.
Qed.

End ToolsCall.

Lemma missing_argument_rejects_witness :
  executeTool latinToLowerCase emptySnapshot
    (utf16 "transit_search_bus_station")
    {| station_name := None; line := None; ars_id := None;
       query := Some ArgOther; location := None; limit := Some 5;
       response_format := None |}
  = Rejected (utf16 "args.query.trim is not a function") /\
  executeTool latinToLowerCase emptySnapshot
    (utf16 "transit_get_bike_station")
    {| station_name := None; line := None; ars_id := None;
       query := Some ArgOther; location := None; limit := Some 5;
       response_format := None |}
  = Rejected (utf16 "args.query.trim is not a function").
Proof.
  apply (proj1 (proj2 (missing_argument_rejects latinToLowerCase
                         emptySnapshot
                         {| station_name := None; line := None;
                            ars_id := None; query := Some ArgOther;
                            location := None; limit := Some 5;
                            response_format := None |}))).
  vm_compute. reflexivity.
Defined.

Lemma tools_call_outcome_witness :
  handler latinToLowerCase emptySnapshot
    (rpcRequest None (Some (IdNumber 7)) (Some (utf16 "tools/call"))
       (Some {| Rpc.name := Some (utf16 "transit_get_bike_station");
                Rpc.arguments :=
                  Some (withQuery (utf16 "여의도") None None);
                Rpc.protocolVersion := None |}))
  = respond 200
      (JsonRpcResponse (Some (IdNumber 7))
         (ToolCallResult
            (utf16 "## 🚲 따릉이 대여소 검색: " ++ DQUOTE ++ utf16 "여의도"
             ++ DQUOTE ++ LF ++ LF ++ utf16 "검색 결과가 없습니다."))) /\
  handler latinToLowerCase emptySnapshot
    (rpcRequest None (Some (IdNumber 7)) (Some (utf16 "tools/call"))
       (Some {| Rpc.name := Some (utf16 "transit_get_bike_station");
                Rpc.arguments := None; Rpc.protocolVersion := None |}))
  = respond 500
      (JsonRpcError (Some IdNull) (-32603) (missingProperty (utf16 "trim"))).
Proof.
  assert (Hne : utf16 "transit_get_bike_station" <> [])
    by (intros H; vm_compute in H; discriminate H).
  assert (Hfind : findTool (utf16 "transit_get_bike_station")
                  = Some {| Schema.name := utf16 "transit_get_bike_station";
                            Schema.required := [utf16 "query"] |})
    by (vm_compute; reflexivity).
  split.
  - apply (proj1 (proj2
             (tools_call_outcome latinToLowerCase emptySnapshot None
                (Some (IdNumber 7)) (utf16 "transit_get_bike_station")
                (Some (withQuery (utf16 "여의도") None None)) None Hne))
             _ _ Hfind).
    vm_compute. reflexivity.
  - apply (proj1 (proj2 (proj2
             (tools_call_outcome latinToLowerCase emptySnapshot None
                (Some (IdNumber 7)) (utf16 "transit_get_bike_station")
                None None Hne)))
             _ (missingProperty (utf16 "trim")) Hfind).
    vm_compute. reflexivity.
Defined.

Lemma post_request_errors_witness :
  handler latinToLowerCase emptySnapshot
    {| method := Some (utf16 "POST"); url := None;
       body := BodyValue {| Rpc.jsonrpc := Some (utf16 "1.0");
                       Rpc.id := Some (IdString (utf16 "a"));
                       Rpc.method := Some (utf16 "ping");
                       Rpc.params := None |} |}
  = respond 400
      (JsonRpcError (Some (IdString (utf16 "a"))) (-32600)
         (utf16 "Invalid JSON-RPC version")).
Proof.
  apply (proj1 (proj2 (proj2
           (post_request_errors latinToLowerCase emptySnapshot None)))
           {| Rpc.jsonrpc := Some (utf16 "1.0");
              Rpc.id := Some (IdString (utf16 "a"));
              Rpc.method := Some (utf16 "ping");
              Rpc.params := None |}).
  intros H. vm_compute in H. discriminate H.
Defined.

(* ===================================================================== *)
(** ** Further properties: texts, names and labels *)
(* ===================================================================== *)

(** [truncateResponse] never lengthens a text, keeps its first 24900 code
    units as they are, and returns it unchanged exactly when it has at
    most 25000 code units. *)
Theorem truncateResponse_shrinks_and_keeps_prefix (content : jsstring) :
  len (truncateResponse content) <= len content /\
  firstn (Z.to_nat 24900) (truncateResponse content)
  = firstn (Z.to_nat 24900) content /\
  (truncateResponse content = content <-> len content <= CHARACTER_LIMIT).
Proof.
  destruct (Z.le_gt_cases (len content) CHARACTER_LIMIT) as [H|H].
  - rewrite truncateResponse_short by assumption.
    split; [lia|]. split; [reflexivity|]. split; auto.
  - pose proof (len_truncateResponse_long content H) as Hlen.
    rewrite len_truncationNotice in Hlen. unfold CHARACTER_LIMIT in *.
    split; [lia|]. split.
    + rewrite truncateResponse_long by assumption.
      change (Z.to_nat (CHARACTER_LIMIT - 100)) with (Z.to_nat 24900).
      set (n := Z.to_nat 24900).
      assert (Hn : List.length (firstn n content) = n).
      { rewrite length_firstn. unfold len in H. subst n. lia. }
      rewrite firstn_app, Hn, Nat.sub_diag, firstn_firstn, Nat.min_id.
      cbn [firstn]. apply app_nil_r.
    + split; [|lia]. intros E. rewrite E in Hlen. lia.
Qed.

Lemma len_trimStart (s : jsstring) : len (trimStart s) <= len s.
Proof.
  destruct (trimStart_suffix s) as [pre E].
  rewrite E at 2. rewrite len_app. pose proof (len_nonneg pre). lia.
Qed.

Lemma len_trim (s : jsstring) : len (trim s) <= len s.
Proof.
  unfold trim. pose proof (len_trimStart (trimEnd s)) as H1.
  rewrite trimEnd_rev in *. pose proof (len_trimStart (rev s)) as H2.
  unfold len in *. rewrite length_rev in *. lia.
Qed.

Lemma len_replaceAtEnd (suffix s : jsstring) :
  len (replaceAtEnd suffix s) <= len s.
Proof.
  unfold replaceAtEnd. destruct (endsWith s suffix); [|lia].
  unfold len. rewrite length_firstn. lia.
Qed.

(** A normalized station name and a trimmed query have no white space at
    either end, are not longer than the input, and are left as they are by
    another [trim]. *)
Theorem normalized_name_is_trimmed (name : jsstring) :
  (startsClean (normalizeStationName name) = true /\
   startsClean (rev (normalizeStationName name)) = true /\
   len (normalizeStationName name) <= len name /\
   trim (normalizeStationName name) = normalizeStationName name) /\
  (startsClean (trim name) = true /\
   startsClean (rev (trim name)) = true /\
   len (trim name) <= len name).
Proof.
  assert (Hclean : forall s, startsClean (trim s) = true
                             /\ startsClean (rev (trim s)) = true).
  { intros s. unfold trim. split.
    - apply trimStart_clean.
    - apply trimStart_end_clean, trimEnd_clean. }
  split.
  - unfold normalizeStationName.
    destruct (Hclean (replaceAtEnd (utf16 "역") name)) as [H1 H2].
    split; [exact H1|]. split; [exact H2|]. split.
    + pose proof (len_trim (replaceAtEnd (utf16 "역") name)).
      pose proof (len_replaceAtEnd (utf16 "역") name). lia.
    + apply trim_idempotent.
  - destruct (Hclean name) as [H1 H2].
    split; [exact H1|]. split; [exact H2|]. apply len_trim.
Qed.

Lemma lookup_value (table : list (jsstring * jsstring))
  (key value : jsstring) :
  lookup table key = Some value -> In value (map snd table).
Proof.
  induction table as [|[k v] table IH]; cbn [lookup map snd In];
    [discriminate|].
  destruct (streq k key); [intros [= <-]; now left | auto].
Qed.

Lemma lookup_key (table : list (jsstring * jsstring))
  (key value : jsstring) :
  lookup table key = Some value -> In key (map fst table).
Proof.
  induction table as [|[k v] table IH]; cbn [lookup map fst In];
    [discriminate|].
  destruct (streq k key) eqn:E; [|auto].
  apply streq_eq in E. intros _. left. exact E.
Qed.

Lemma SUBWAY_LINE_MAP_values :
  Forall (fun v => v <> []) (map snd SUBWAY_LINE_MAP).
Proof. vm_compute. repeat constructor; discriminate. Qed.

Lemma BUS_TYPE_MAP_values :
  Forall (fun v => v <> []) (map snd BUS_TYPE_MAP).
Proof. vm_compute. repeat constructor; discriminate. Qed.

Lemma strOr_nonempty (x : option jsstring) (d : jsstring) :
  d <> [] -> strOr x d <> [].
Proof. intros Hd. destruct x as [[|c s]|]; cbn [strOr]; congruence. Qed.

(** None of the two tables has a key of its own among the inherited
    names. *)
Lemma inherited_names_not_own (key name : jsstring) :
  lookup OBJECT_PROTOTYPE_FUNCTIONS key = Some name ->
  lookup SUBWAY_LINE_MAP key = None /\ lookup BUS_TYPE_MAP key = None
  /\ streq key (utf16 "__proto__") = false.
Proof.
  intros H. apply lookup_key in H.
  unfold OBJECT_PROTOTYPE_FUNCTIONS in H. cbn [map fst In] in H.
  repeat (destruct H as [<-|H]; [vm_compute; repeat split|]).
  contradiction.
Qed.

Lemma own_label (table : list (jsstring * jsstring))
  (key label fallback : jsstring) :
  Forall (fun v => v <> []) (map snd table) ->
  lookup table key = Some label ->
  propertyOr (getProperty table key) fallback = StringValue label.
Proof.
  intros Hv H. unfold getProperty. rewrite H.
  pose proof (proj1 (Forall_forall _ _) Hv label (lookup_value _ _ _ H))
    as Hne.
  destruct label as [|c label]; [congruence | reflexivity].
Qed.

(** A line code or route type that is a key of its table is labelled with
    the entry of the table.  A code that is neither a key of the table nor
    a name that every object inherits is shown as it is for a line, and
    as "기타" for a route type.  For an inherited name the label is what
    the object inherits, not the fallback: a native function, which a text
    shows as the source text of the function and which a serialised object
    leaves out, or, for "__proto__", the prototype object, shown as
    "[object Object]" and serialised as an empty object.  The text of a
    route-type label is never empty and the text of a line label is empty
    only for an empty code; a bus without route type, or with an empty
    one, is labelled "일반"; the station name of the bus-arrival tool is
    never empty. *)
Theorem labels_fall_back :
  (forall lineCode label,
     lookup SUBWAY_LINE_MAP lineCode = Some label ->
     getSubwayLineName lineCode = StringValue label) /\
  (forall typeCode label,
     lookup BUS_TYPE_MAP typeCode = Some label ->
     getBusTypeName typeCode = StringValue label) /\
  (forall lineCode,
     lookup SUBWAY_LINE_MAP lineCode = None ->
     lookup OBJECT_PROTOTYPE_FUNCTIONS lineCode = None ->
     lineCode <> utf16 "__proto__" ->
     getSubwayLineName lineCode = StringValue lineCode) /\
  (forall typeCode,
     lookup BUS_TYPE_MAP typeCode = None ->
     lookup OBJECT_PROTOTYPE_FUNCTIONS typeCode = None ->
     typeCode <> utf16 "__proto__" ->
     getBusTypeName typeCode = StringValue (utf16 "기타")) /\
  (forall code name,
     lookup OBJECT_PROTOTYPE_FUNCTIONS code = Some name ->
     getSubwayLineName code = NativeFunction name /\
     getBusTypeName code = NativeFunction name) /\
  getSubwayLineName (utf16 "__proto__") = ObjectPrototype /\
  getBusTypeName (utf16 "__proto__") = ObjectPrototype /\
  map fst OBJECT_PROTOTYPE_FUNCTIONS
  = [utf16 "constructor"; utf16 "__defineGetter__";
     utf16 "__defineSetter__"; utf16 "hasOwnProperty";
     utf16 "__lookupGetter__"; utf16 "__lookupSetter__";
     utf16 "isPrototypeOf"; utf16 "propertyIsEnumerable";
     utf16 "toString"; utf16 "valueOf"; utf16 "toLocaleString"] /\
  (forall s, toText (StringValue s) = s
             /\ toJson (StringValue s) = Some (JString s)) /\
  (forall name,
     toText (NativeFunction name)
     = utf16 "function " ++ name ++ utf16 "() { [native code] }"
     /\ toJson (NativeFunction name) = None) /\
  (toText ObjectPrototype = utf16 "[object Object]"
   /\ toJson ObjectPrototype = Some (JObject [])) /\
  (forall typeCode, toText (getBusTypeName typeCode) <> []) /\
  (forall lineCode,
     toText (getSubwayLineName lineCode) = [] -> lineCode = []) /\
  (forall bus,
     routeType bus = None \/ routeType bus = Some [] ->
     getBusTypeName (routeTypeOf bus) = StringValue (utf16 "일반")) /\
  (forall arrivals, firstStationName arrivals <> []) /\
  subwayArrivalEntry inheritedLineArrival 0
  = utf16 "### 1. function toString() { [native code] } - 성수행" ++ LF
    ++ utf16 "- **도착**: 전역 도착" ++ LF
    ++ utf16 "- **방향**: ⬆️ 상행" ++ LF ++ LF /\
  subwayArrivalObject inheritedLineArrival
  = JObject
      [(utf16 "line", None);
       (utf16 "destination", Some (JString (utf16 "성수")));
       (utf16 "message", Some (JString (utf16 "전역 도착")));
       (utf16 "direction", Some (JString (utf16 "상행")));
       (utf16 "trainNumber", None)].
Proof.
  split.
  { intros lineCode label H. unfold getSubwayLineName.
    apply own_label; [apply SUBWAY_LINE_MAP_values | exact H]. }
  split.
  { intros typeCode label H. unfold getBusTypeName.
    apply own_label; [apply BUS_TYPE_MAP_values | exact H]. }
  split.
  { intros lineCode H Hi Hp. unfold getSubwayLineName, getProperty.
    apply streq_false in Hp. rewrite H, Hp, Hi. reflexivity. }
  split.
  { intros typeCode H Hi Hp. unfold getBusTypeName, getProperty.
    apply streq_false in Hp. rewrite H, Hp, Hi. reflexivity. }
  split.
  { intros code name H.
    destruct (inherited_names_not_own code name H) as (H1 & H2 & H3).
    unfold getSubwayLineName, getBusTypeName, getProperty.
    rewrite H1, H2, H3, H. split; reflexivity. }
  do 3 (split; [vm_compute; reflexivity|]).
  split; [intros s; split; reflexivity|].
  split; [intros name; split; reflexivity|].
  split; [split; [vm_compute; reflexivity | reflexivity]|].
  split.
  { intros typeCode. unfold getBusTypeName, getProperty.
    destruct (lookup BUS_TYPE_MAP typeCode) as [v|] eqn:E.
    - pose proof (proj1 (Forall_forall _ _) BUS_TYPE_MAP_values v
                    (lookup_value _ _ _ E)) as Hv.
      destruct v as [|c v]; [congruence|]. cbn [propertyOr toText].
      discriminate.
    - destruct (streq typeCode (utf16 "__proto__"));
        [vm_compute; discriminate|].
      destruct (lookup OBJECT_PROTOTYPE_FUNCTIONS typeCode) as [name|];
        cbn [option_map propertyOr toText]; vm_compute; discriminate. }
  split.
  { intros lineCode. unfold getSubwayLineName, getProperty.
    destruct (lookup SUBWAY_LINE_MAP lineCode) as [v|] eqn:E.
    - pose proof (proj1 (Forall_forall _ _) SUBWAY_LINE_MAP_values v
                    (lookup_value _ _ _ E)) as Hv.
      destruct v as [|c v]; [congruence|]. cbn [propertyOr toText].
      discriminate.
    - destruct (streq lineCode (utf16 "__proto__"));
        [vm_compute; discriminate|].
      destruct (lookup OBJECT_PROTOTYPE_FUNCTIONS lineCode) as [name|];
        cbn [option_map propertyOr toText]; [vm_compute; discriminate|].
      auto. }
  split.
  { intros bus H. unfold routeTypeOf.
    destruct H as [-> | ->]; reflexivity. }
  split.
  { intros arrivals. unfold firstStationName.
    apply strOr_nonempty. vm_compute. discriminate. }
  split; vm_compute; reflexivity.
Qed.

Lemma labels_fall_back_witness :
  getSubwayLineName (utf16 "1077") = StringValue (utf16 "신분당선") /\
  getSubwayLineName (utf16 "9999") = StringValue (utf16 "9999") /\
  getBusTypeName (utf16 "valueOf") = NativeFunction (utf16 "valueOf").
Proof.
  destruct labels_fall_back as (H1 & _ & H3 & _ & H5 & _).
  split; [|split].
  - apply H1. vm_compute. reflexivity.
  - apply H3; [vm_compute; reflexivity | vm_compute; reflexivity |].
    intros H. vm_compute in H. discriminate H.
  - apply (H5 (utf16 "valueOf") (utf16 "valueOf")). vm_compute. reflexivity.
Defined.

(* ===================================================================== *)
(** ** Further properties: what the combined query lists *)
(* ===================================================================== *)

Lemma combinedListing_resolved (rawLocation format : jsstring)
  (subway : Try (list (option SubwayArrival)))
  (bus : Try (list BusStation)) (bike : Try (list BikeStation))
  (arrivals : list SubwayArrival) :
  combinedArrivalsRead (settle subway) = Ok arrivals ->
  combineOutcomes rawLocation format subway bus bike
  = Resolved (combinedListing rawLocation format (len (settle subway))
                arrivals (settle bus) (settle bike)).
Proof.
  intros H. unfold combineOutcomes. rewrite H. unfold combinedListing.
  destruct (streq format (utf16 "json")); [reflexivity|].
  unfold combinedMarkdown, combinedHeader, combinedSubwaySection,
    combinedBusSection, combinedBikeSection, subwayEmptyState,
    busEmptyState, bikeEmptyState.
  destruct (len (settle subway) =? 0), (len (settle bus) =? 0),
    (len (settle bike) =? 0); rewrite <- !app_assoc; reflexivity.
Qed.

Lemma capped_matches {A} (f : A -> bool) (rows : list A) :
  len (slice (filter f rows) 0 3) <= 3 /\
  Forall (fun s => f s = true) (slice (filter f rows) 0 3) /\
  isPrefixOf (slice (filter f rows) 0 3) (filter f rows).
Proof.
  split; [apply slice_within_limit; lia|]. split.
  - apply Forall_forall. intros s Hs.
    apply (prefix_incl _ _ (slice_from_start_prefix (filter f rows) 3)) in Hs.
    apply filter_In in Hs. apply Hs.
  - apply slice_from_start_prefix.
Qed.

(** When the rail records it reads are records, the combined query
    answers, in both forms, with the listing of at most five arrivals, the
    first records of the rail lookup, of at most three stops and of at
    most three bike stations, the first records of their feed whose name
    contains the location (the bike names without regard to letter case);
    a source whose lookup failed has nothing listed.  It reads the records
    1 to 100 of the stop directory and 1 to 1000 of the bike list only:
    two snapshots that agree on these two requests give the same stops and
    bike stations. *)
Theorem combined_lookups_are_capped (toLowerCase : jsstring -> jsstring)
  (up : Upstream) (args : ToolArguments) (rawLocation : jsstring) :
  location args = Some (ArgString rawLocation) ->
  let name := normalizeStationName rawLocation in
  let subwayData := settle (combinedSubwayLookup up name) in
  (forall arrivals,
     combinedArrivalsRead subwayData = Ok arrivals ->
     exists stops bikes,
       transitGetCombinedInfo toLowerCase up args
       = Resolved (combinedListing rawLocation (formatOf args)
                     (len subwayData) arrivals stops bikes) /\
       len arrivals <= 5 /\
       isPrefixOf (map Some arrivals) subwayData /\
       len stops <= 3 /\
       Forall (fun s => stopNameIncludes name s = true) stops /\
       (forall data,
          busStopLocationXyInfo up 1 100 = Ok data ->
          isPrefixOf stops (filter (stopNameIncludes name) (rowsOf data))) /\
       (forall e, busStopLocationXyInfo up 1 100 = Throw e -> stops = []) /\
       len bikes <= 3 /\
       Forall (fun s => bikeMatches toLowerCase name s = true) bikes /\
       (forall data,
          bikeList up 1 1000 = Ok data ->
          isPrefixOf bikes
            (filter (bikeMatches toLowerCase name) (rowsOf data))) /\
       (forall e, bikeList up 1 1000 = Throw e -> bikes = [])) /\
  (forall up',
     busStopLocationXyInfo up' 1 100 = busStopLocationXyInfo up 1 100 ->
     combinedBusLookup up' name = combinedBusLookup up name) /\
  (forall up',
     bikeList up' 1 1000 = bikeList up 1 1000 ->
     combinedBikeLookup toLowerCase up' name
     = combinedBikeLookup toLowerCase up name).
Proof.
  intros Hloc name subwayData. split; [|split].
  - intros arrivals Hread.
    exists (settle (combinedBusLookup up name)),
           (settle (combinedBikeLookup toLowerCase up name)).
    split.
    { unfold transitGetCombinedInfo. rewrite Hloc.
      apply combinedListing_resolved. exact Hread. }
    assert (Hslice : slice subwayData 0 5 = map Some arrivals).
    { apply (readRecords_ok (utf16 "subwayId")). exact Hread. }
    split.
    { assert (H5 : len (slice subwayData 0 5) <= 5)
        by (apply slice_within_limit; lia).
      rewrite Hslice in H5. unfold len in *. rewrite length_map in H5.
      exact H5. }
    split; [rewrite <- Hslice; apply slice_from_start_prefix|].
    unfold combinedBusLookup, combinedBikeLookup.
    destruct (busStopLocationXyInfo up 1 100) as [stopData|e1];
      destruct (bikeList up 1 1000) as [bikeData|e2]; cbn [bind settle tryCatch].
    + destruct (capped_matches (stopNameIncludes name) (rowsOf stopData))
        as (S1 & S2 & S3).
      destruct (capped_matches (bikeMatches toLowerCase name)
                  (rowsOf bikeData)) as (B1 & B2 & B3).
      repeat split; try assumption; try discriminate.
      * intros data [= <-]. exact S3.
      * intros data [= <-]. exact B3.
    + destruct (capped_matches (stopNameIncludes name) (rowsOf stopData))
        as (S1 & S2 & S3).
      repeat split; try assumption; try discriminate;
        try (unfold len; simpl; lia); try constructor.
      intros data [= <-]. exact S3.
    + destruct (capped_matches (bikeMatches toLowerCase name)
                  (rowsOf bikeData)) as (B1 & B2 & B3).
      repeat split; try assumption; try discriminate;
        try (unfold len; simpl; lia); try constructor.
      intros data [= <-]. exact B3.
    + repeat split; try discriminate;
        try (unfold len; simpl; lia); try constructor.
  - intros up' H. unfold combinedBusLookup. rewrite H. reflexivity.
  - intros up' H. unfold combinedBikeLookup. rewrite H. reflexivity.
Qed.

Lemma combined_lookups_are_capped_witness :
  exists stops bikes,
    transitGetCombinedInfo latinToLowerCase railAndBikeSnapshot
      (withLocation (utf16 "강남역") None)
    = Resolved (combinedListing (utf16 "강남역") (utf16 "markdown") 2
                  twoArrivals stops bikes) /\
    len stops <= 3 /\ len bikes <= 3.
Proof.
  destruct (proj1 (combined_lookups_are_capped latinToLowerCase
                     railAndBikeSnapshot
                     (withLocation (utf16 "강남역") None) (utf16 "강남역")
                     eq_refl)
              twoArrivals ltac:(vm_compute; reflexivity))
    as (stops & bikes & H & _ & _ & Hs & _ & _ & _ & Hb & _).
  exists stops, bikes. split; [exact H|]. split; assumption.
Defined.
